(** * ARPAV water-level retriever: a shallow embedding of the retrieval pipeline

    The development follows
    [process_arpav_retriever/arpav/arpav_water_level_retriever.py]
    (class [_ARPAVWaterLevelRetriever]) and
    [process_arpav_retriever/arpav/arpav_retriever_processor.py]
    (class [ARPAVRetrieverProcessor]).

    Python objects are values of [pyval]; exceptions are values of [exn];
    code that reads the clock, talks to the sensor service or touches the
    file system runs in the monad [M] over an explicit [State], with the
    outside world (environment variables, the clock, the HTTP service, the
    object store, the JSON decoder) collected in a [Host] record. *)

From Stdlib Require Import ZArith QArith String Ascii List Bool Lia DecimalString.
From stdpp Require Import base option list strings gmap.

Set Warnings "-register-all".
Local Open Scope string_scope.
Local Open Scope Z_scope.

(** ** Python values *)

(** A Python [float]: a finite value (every finite double is a rational),
    an infinity, or NaN. *)
Inductive pyfloat : Type :=
| FNaN
| FInf (negative : bool)
| FFin (q : Q).

(** The objects that reach the code from JSON requests and JSON payloads,
    and the retriever classes that the processor stores in an attribute
    ([VClass], by class name). *)
Inductive pyval : Type :=
| VNone
| VBool (b : bool)
| VInt (z : Z)
| VFloat (f : pyfloat)
| VStr (s : string)
| VList (l : list pyval)
| VTuple (l : list pyval)
| VDict (d : list (string * pyval))
| VClass (name : string).

(** [nan] is [np.nan]. *)
Definition nan : pyval := VFloat FNaN.

(** [type(x) in [int, float]]: exact type test, so [bool] is excluded. *)
Definition is_int_or_float (v : pyval) : bool :=
  match v with
  | VInt _ | VFloat _ => true
  | _ => false
  end.

(** The numeric value of an [int] or a [float]. *)
Definition num_of (v : pyval) : option pyfloat :=
  match v with
  | VInt z => Some (FFin (inject_Z z))
  | VFloat f => Some f
  | VBool b => Some (FFin (inject_Z (if b then 1 else 0)))
  | _ => None
  end.

(** Three-way comparison of floats; [None] when a NaN is involved, in which
    case every one of [<], [<=], [>], [>=] is false. Python compares an
    [int] with a [float] exactly, which is what comparing rationals does. *)
Definition float_cmp (a b : pyfloat) : option comparison :=
  match a, b with
  | FNaN, _ | _, FNaN => None
  | FInf na, FInf nb =>
      Some (match na, nb with
            | true, true | false, false => Eq
            | true, false => Lt
            | false, true => Gt
            end)
  | FInf na, FFin _ => Some (if na then Lt else Gt)
  | FFin _, FInf nb => Some (if nb then Gt else Lt)
  | FFin x, FFin y => Some (Qcompare x y)
  end.

Definition float_lt (a b : pyfloat) : bool :=
  match float_cmp a b with Some Lt => true | _ => false end.
Definition float_gt (a b : pyfloat) : bool :=
  match float_cmp a b with Some Gt => true | _ => false end.
Definition float_le (a b : pyfloat) : bool :=
  match float_cmp a b with Some Lt | Some Eq => true | _ => false end.
Definition float_ge (a b : pyfloat) : bool :=
  match float_cmp a b with Some Gt | Some Eq => true | _ => false end.

Definition fint (z : Z) : pyfloat := FFin (inject_Z z).

(** ** Exceptions *)

(** Modelled from the spec: the class [StatusException] of
    [utils/status_exception.py] is not part of the sources at hand. It is an
    [Exception] carrying one of the status constants [DENIED], [INVALID],
    [ERROR] and a message, and [str] of it is the message. *)
Inductive status : Type := DENIED | INVALID | ERROR.

Inductive exn : Type :=
| StatusException (st : status) (msg : string)
| PyError (cls : string) (msg : string)
| ProcessorExecuteError (msg : string).

(** [str(err)] *)
Definition exn_str (e : exn) : string :=
  match e with
  | StatusException _ msg => msg
  | PyError _ msg => msg
  | ProcessorExecuteError msg => msg
  end.

Inductive result (A : Type) : Type :=
| Ok (a : A)
| Raise (e : exn).
Arguments Ok {A} a.
Arguments Raise {A} e.

Definition is_ok {A} (r : result A) : bool :=
  match r with Ok _ => true | Raise _ => false end.

Definition TypeError (msg : string) : exn := PyError "TypeError" msg.
Definition ValueError (msg : string) : exn := PyError "ValueError" msg.
Definition IndexError (msg : string) : exn := PyError "IndexError" msg.
Definition AttributeError (msg : string) : exn := PyError "AttributeError" msg.
Definition OverflowError (msg : string) : exn := PyError "OverflowError" msg.
Definition OSError (msg : string) : exn := PyError "OSError" msg.

(** Pure code that can raise. *)
Definition rbind {A B} (r : result A) (k : A -> result B) : result B :=
  match r with
  | Ok a => k a
  | Raise e => Raise e
  end.

Notation "'let?' x ':=' r 'in' k" := (rbind r (fun x => k))
  (at level 10, x name, r at level 100, k at level 200, only parsing).

(** ** Text helpers *)

(** [str(n)] for an integer. *)
Definition str_of_Z (z : Z) : string :=
  NilZero.string_of_int (Z.to_int z).

Fixpoint zeros (n : nat) : string :=
  match n with
  | O => ""
  | S n' => "0" ++ zeros n'
  end.

(** ["%0<width>d" % z] for a non-negative [z]. *)
Definition zfill (width : nat) (z : Z) : string :=
  let s := str_of_Z z in
  zeros (width - String.length s) ++ s.

(** The double-quote character, as a string. *)
Definition dq : string := String (ascii_of_nat 34) EmptyString.

(** [s.startswith(p)] *)
Definition startswith (s p : string) : bool := String.prefix p s.

(** [s.endswith(p)] *)
Definition endswith (s p : string) : bool :=
  let n := String.length s in
  let k := String.length p in
  (k <=? n)%nat && String.eqb (String.substring (n - k) k s) p.

Definition digit_val (c : ascii) : option Z :=
  let n := Z.of_nat (nat_of_ascii c) in
  if (48 <=? n) && (n <=? 57) then Some (n - 48) else None.

(** Reads exactly [n] decimal digits. *)
Fixpoint parse_digits (n : nat) (acc : Z) (l : list ascii) : option (Z * list ascii) :=
  match n with
  | O => Some (acc, l)
  | S n' =>
      match l with
      | c :: l' =>
          match digit_val c with
          | Some d => parse_digits n' (10 * acc + d) l'
          | None => None
          end
      | [] => None
      end
  end.

(** ** [datetime.datetime] *)

(** A datetime as Python stores it: calendar fields and an optional UTC
    offset ([tzinfo], in microseconds); [None] is a naive datetime. *)
Record datetime : Type := mk_datetime {
  year : Z;
  month : Z;
  day : Z;
  hour : Z;
  minute : Z;
  second : Z;
  microsecond : Z;
  tzinfo : option Z
}.

Definition is_leap (y : Z) : bool :=
  (y mod 4 =? 0) && (negb (y mod 100 =? 0) || (y mod 400 =? 0)).

Definition days_in_month (y m : Z) : Z :=
  if (m =? 2) && is_leap y then 29
  else match m with
       | 1 | 3 | 5 | 7 | 8 | 10 | 12 => 31
       | 4 | 6 | 9 | 11 => 30
       | 2 => 28
       | _ => -1
       end.

Definition days_before_year (y : Z) : Z :=
  let p := y - 1 in
  p * 365 + p / 4 - p / 100 + p / 400.

Definition days_before_month (y m : Z) : Z :=
  match m with
  | 1 => 0 | 2 => 31 | 3 => 59 | 4 => 90 | 5 => 120 | 6 => 151
  | 7 => 181 | 8 => 212 | 9 => 243 | 10 => 273 | 11 => 304 | 12 => 334
  | _ => -1
  end + (if (2 <? m) && is_leap y then 1 else 0).

(** [date.toordinal()]: day 1 is 0001-01-01. *)
Definition ymd2ord (y m d : Z) : Z :=
  days_before_year y + days_before_month y m + d.

(** Inverse of [ymd2ord], as [_ord2ymd] computes it. *)
Definition ord2ymd (ordinal : Z) : Z * Z * Z :=
  let n := ordinal - 1 in
  let n400 := n / 146097 in
  let n := n mod 146097 in
  let n100 := n / 36524 in
  let n := n mod 36524 in
  let n4 := n / 1461 in
  let n := n mod 1461 in
  let n1 := n / 365 in
  let n := n mod 365 in
  let y := n400 * 400 + 1 + n100 * 100 + n4 * 4 + n1 in
  if (n1 =? 4) || (n100 =? 4) then (y - 1, 12, 31)
  else
    let leapyear := (n1 =? 3) && (negb (n4 =? 24) || (n100 =? 3)) in
    let m := Z.shiftr (n + 50) 5 in
    let preceding :=
      days_before_month 1 m + (if (2 <? m) && leapyear then 1 else 0) in
    if n <? preceding then
      let m' := m - 1 in
      let dim := days_in_month 1 m' + (if (m' =? 2) && leapyear then 1 else 0) in
      (y, m', n - (preceding - dim) + 1)
    else (y, m, n - preceding + 1).

Definition us_per_second : Z := 1000000.
Definition us_per_hour : Z := 3600 * us_per_second.
Definition us_per_day : Z := 24 * us_per_hour.

(** The calendar fields as a count of microseconds since the start of
    day 0 of the proleptic Gregorian calendar (the offset is not applied). *)
Definition to_micros (t : datetime) : Z :=
  ymd2ord (year t) (month t) (day t) * us_per_day
  + hour t * us_per_hour + minute t * (60 * us_per_second)
  + second t * us_per_second + microsecond t.

Definition of_micros (us : Z) (tz : option Z) : datetime :=
  let '(y, m, d) := ord2ymd (us / us_per_day) in
  let r := us mod us_per_day in
  let secs := r / us_per_second in
  mk_datetime y m d (secs / 3600) ((secs mod 3600) / 60) (secs mod 60)
              (r mod us_per_second) tz.

(** The constructor's range checks ([ValueError] when they fail). *)
Definition valid_fields (y m d h mi s us : Z) : bool :=
  (1 <=? y) && (y <=? 9999) && (1 <=? m) && (m <=? 12)
  && (1 <=? d) && (d <=? days_in_month y m)
  && (0 <=? h) && (h <=? 23) && (0 <=? mi) && (mi <=? 59)
  && (0 <=? s) && (s <=? 59) && (0 <=? us) && (us <=? 999999).

Definition valid_datetime (t : datetime) : bool :=
  valid_fields (year t) (month t) (day t) (hour t) (minute t) (second t)
               (microsecond t).

Definition new_datetime (y m d h mi s us : Z) (tz : option Z) : result datetime :=
  if valid_fields y m d h mi s us then Ok (mk_datetime y m d h mi s us tz)
  else Raise (ValueError "datetime field out of range").

(** [t.replace(minute=mi, second=s, microsecond=us)] *)
Definition replace_time (t : datetime) (mi s us : Z) : result datetime :=
  new_datetime (year t) (month t) (day t) (hour t) mi s us (tzinfo t).

(** [t.replace(tzinfo=None)] *)
Definition replace_tzinfo_none (t : datetime) : datetime :=
  mk_datetime (year t) (month t) (day t) (hour t) (minute t) (second t)
              (microsecond t) None.

(** [t + timedelta(microseconds=delta)]; the result must fall on a day
    between 0001-01-01 and 9999-12-31. *)
Definition dt_add (t : datetime) (delta : Z) : result datetime :=
  let us := to_micros t + delta in
  let days := us / us_per_day in
  if (0 <? days) && (days <=? 3652059) then Ok (of_micros us (tzinfo t))
  else Raise (OverflowError "date value out of range").

(** [a - b] as a timedelta in microseconds. *)
Definition dt_sub (a b : datetime) : result Z :=
  match tzinfo a, tzinfo b with
  | None, None => Ok (to_micros a - to_micros b)
  | Some oa, Some ob => Ok ((to_micros a - oa) - (to_micros b - ob))
  | _, _ => Raise (TypeError "can't subtract offset-naive and offset-aware datetimes")
  end.

(** Ordering of datetimes: a datetime is less than another when it comes
    earlier in time; a naive and an aware one cannot be compared. *)
Definition dt_compare (a b : datetime) : result comparison :=
  match tzinfo a, tzinfo b with
  | None, None => Ok (to_micros a ?= to_micros b)
  | Some oa, Some ob => Ok (to_micros a - oa ?= to_micros b - ob)
  | _, _ => Raise (TypeError "can't compare offset-naive and offset-aware datetimes")
  end.

Definition dt_lt (a b : datetime) : result bool :=
  let? c := dt_compare a b in Ok (match c with Lt => true | _ => false end).
Definition dt_gt (a b : datetime) : result bool :=
  let? c := dt_compare a b in Ok (match c with Gt => true | _ => false end).
Definition dt_le (a b : datetime) : result bool :=
  let? c := dt_compare a b in Ok (match c with Gt => false | _ => true end).
Definition dt_ge (a b : datetime) : result bool :=
  let? c := dt_compare a b in Ok (match c with Lt => false | _ => true end).

(** *** [datetime.fromisoformat] and [isoformat] *)

(** [HH[:MM[:SS[.fff[fff]]]]], the whole of [l]. *)
Definition parse_hh_mm_ss_ff (l : list ascii) : option (Z * Z * Z * Z) :=
  match parse_digits 2 0 l with
  | Some (h, []) => Some (h, 0, 0, 0)
  | Some (h, ":"%char :: l1) =>
      match parse_digits 2 0 l1 with
      | Some (mi, []) => Some (h, mi, 0, 0)
      | Some (mi, ":"%char :: l2) =>
          match parse_digits 2 0 l2 with
          | Some (s, []) => Some (h, mi, s, 0)
          | Some (s, "."%char :: l3) =>
              match parse_digits (length l3) 0 l3 with
              | Some (f, _) =>
                  if (length l3 =? 3)%nat then Some (h, mi, s, f * 1000)
                  else if (length l3 =? 6)%nat then Some (h, mi, s, f)
                  else None
              | None => None
              end
          | _ => None
          end
      | _ => None
      end
  | _ => None
  end.

(** Splits a time string at its first [+] or [-]: the time part, and the
    sign ([true] for [-]) with the offset part when there is one. *)
Fixpoint split_offset (l : list ascii) : list ascii * option (bool * list ascii) :=
  match l with
  | [] => ([], None)
  | c :: l' =>
      if Ascii.eqb c "+" then ([], Some (false, l'))
      else if Ascii.eqb c "-" then ([], Some (true, l'))
      else let '(t, o) := split_offset l' in (c :: t, o)
  end.

(** [[+-]HH:MM[:SS[.ffffff]]] after its sign, as microseconds. *)
Definition parse_offset (neg : bool) (l : list ascii) : option Z :=
  if (length l =? 5)%nat || (length l =? 8)%nat || (length l =? 15)%nat then
    match parse_hh_mm_ss_ff l with
    | Some (h, mi, s, f) =>
        let off := ((h * 3600 + mi * 60 + s) * us_per_second + f) in
        if off <? us_per_day then Some (if neg then - off else off) else None
    | None => None
    end
  else None.

(** The time part of an ISO string (after the separator). *)
Definition parse_isoformat_time (l : list ascii) : option (Z * Z * Z * Z * option Z) :=
  let '(t, o) := split_offset l in
  match parse_hh_mm_ss_ff t, o with
  | Some (h, mi, s, f), None => Some (h, mi, s, f, None)
  | Some (h, mi, s, f), Some (neg, ol) =>
      match parse_offset neg ol with
      | Some off => Some (h, mi, s, f, Some off)
      | None => None
      end
  | None, _ => None
  end.

(** [YYYY-MM-DD] at the head of [l]. *)
Definition parse_isoformat_date (l : list ascii) : option (Z * Z * Z * list ascii) :=
  match parse_digits 4 0 l with
  | Some (y, "-"%char :: l1) =>
      match parse_digits 2 0 l1 with
      | Some (m, "-"%char :: l2) =>
          match parse_digits 2 0 l2 with
          | Some (d, rest) => Some (y, m, d, rest)
          | None => None
          end
      | _ => None
      end
  | _ => None
  end.

(** [datetime.datetime.fromisoformat(s)] on the format that [isoformat]
    writes, [YYYY-MM-DD[*HH[:MM[:SS[.fff[fff]]]][+HH:MM[:SS[.ffffff]]]]];
    anything else is a [ValueError]. *)
Definition fromisoformat (s : string) : result datetime :=
  let bad := Raise (ValueError ("Invalid isoformat string: " ++ s)) in
  match parse_isoformat_date (list_ascii_of_string s) with
  | Some (y, m, d, []) => new_datetime y m d 0 0 0 0 None
  | Some (y, m, d, _ :: t) =>
      match parse_isoformat_time t with
      | Some (h, mi, sec, f, tz) => new_datetime y m d h mi sec f tz
      | None => bad
      end
  | None => bad
  end.

(** [_format_offset] *)
Definition format_offset (tz : option Z) : string :=
  match tz with
  | None => ""
  | Some off =>
      let sign := if off <? 0 then "-" else "+" in
      let a := Z.abs off in
      let hh := a / us_per_hour in
      let r := a mod us_per_hour in
      let mm := r / (60 * us_per_second) in
      let ss := r mod (60 * us_per_second) in
      sign ++ zfill 2 hh ++ ":" ++ zfill 2 mm
      ++ (if ss =? 0 then ""
          else ":" ++ zfill 2 (ss / us_per_second)
               ++ (if ss mod us_per_second =? 0 then ""
                   else "." ++ zfill 6 (ss mod us_per_second)))
  end.

(** [t.isoformat()] *)
Definition isoformat (t : datetime) : string :=
  zfill 4 (year t) ++ "-" ++ zfill 2 (month t) ++ "-" ++ zfill 2 (day t)
  ++ "T" ++ zfill 2 (hour t) ++ ":" ++ zfill 2 (minute t) ++ ":"
  ++ zfill 2 (second t)
  ++ (if microsecond t =? 0 then "" else "." ++ zfill 6 (microsecond t))
  ++ format_offset (tzinfo t).

(** ** The data model *)

(** The station columns of a row: the entries of [_properties] that the
    pipeline carries through unchanged. Coordinates are numbers; the
    station code is the grouping key. *)
Record station_columns : Type := mk_station_columns {
  codice_stazione : string;
  codseqst : pyval;
  nome_stazione : pyval;
  longitudine : pyfloat;
  latitudine : pyfloat;
  quota : pyval;
  nome_sensore : pyval;
  misura : pyval;
  gestore : pyval;
  provincia : pyval
}.

(** One element of the [data] array of the service (SensorRow): the
    station columns, the timestamp text [dataora] and the raw [valore]. *)
Record raw_row : Type := mk_raw_row {
  raw_columns : station_columns;
  dataora : string;
  raw_valore : pyval
}.

(** One row of the GeoDataFrame that [retrieve_data] returns (SensorFrame):
    [dataora] has become the datetime [date_time], [valore] is decoded and
    [geometry] is the point (x = longitude, y = latitude). *)
Record sensor_row : Type := mk_sensor_row {
  columns : station_columns;
  date_time : datetime;
  valore : pyval;
  geometry : pyfloat * pyfloat
}.

Definition geometry_x (r : sensor_row) : pyfloat := fst (geometry r).
Definition geometry_y (r : sensor_row) : pyfloat := snd (geometry r).

(** A GeoJSON feature: point coordinates and the [properties] dictionary in
    insertion order. *)
Record feature : Type := mk_feature {
  coordinates : pyfloat * pyfloat;
  properties : list (string * pyval)
}.

(** The FeatureCollection dictionary: [features], [metadata.field] and the
    name of the [crs]. *)
Record feature_collection : Type := mk_feature_collection {
  features : list feature;
  metadata_field : list (list (string * string));
  crs_name : string
}.

(** What [run] returns: the GeoDataFrame itself or the summary dictionary. *)
Inductive run_output : Type :=
| OutFrame (gdf : list sensor_row)
| OutSummary (d : list (string * pyval)).

(** An HTTP response of the sensor service: status code, body text and
    what [response.json().get('data', [])] followed by the construction of
    the DataFrame over [_properties] makes of the body. *)
Record response : Type := mk_response {
  status_code : Z;
  text : string;
  json_data : result (list raw_row)
}.

(** ** The outside world and the state of a run *)

Record State : Type := mk_State {
  ticks : nat;                                (* clock readings taken so far *)
  requests : list Z;                          (* [orario] of every GET issued *)
  dirs : gset string;                         (* directories that exist *)
  files : gmap string feature_collection;     (* files that hold a collection, by path *)
  uploads : list (string * string);           (* (local path, uri) uploaded *)
  log_debug : bool;                           (* [set_log_debug] was called *)
  self_variable : pyval;                      (* the processor's [self.variable] *)
  self_tmp_data_folder : pyval                (* its [self._tmp_data_folder] *)
}.

Definition with_ticks (n : nat) (s : State) : State :=
  mk_State n (requests s) (dirs s) (files s) (uploads s) (log_debug s)
           (self_variable s) (self_tmp_data_folder s).
Definition with_requests (l : list Z) (s : State) : State :=
  mk_State (ticks s) l (dirs s) (files s) (uploads s) (log_debug s)
           (self_variable s) (self_tmp_data_folder s).
Definition with_dirs (d : gset string) (s : State) : State :=
  mk_State (ticks s) (requests s) d (files s) (uploads s) (log_debug s)
           (self_variable s) (self_tmp_data_folder s).
Definition with_files (f : gmap string feature_collection) (s : State) : State :=
  mk_State (ticks s) (requests s) (dirs s) f (uploads s) (log_debug s)
           (self_variable s) (self_tmp_data_folder s).
Definition with_uploads (u : list (string * string)) (s : State) : State :=
  mk_State (ticks s) (requests s) (dirs s) (files s) u (log_debug s)
           (self_variable s) (self_tmp_data_folder s).
Definition with_log_debug (b : bool) (s : State) : State :=
  mk_State (ticks s) (requests s) (dirs s) (files s) (uploads s) b
           (self_variable s) (self_tmp_data_folder s).
Definition with_self_variable (v : pyval) (s : State) : State :=
  mk_State (ticks s) (requests s) (dirs s) (files s) (uploads s) (log_debug s)
           v (self_tmp_data_folder s).
Definition with_self_tmp_data_folder (v : pyval) (s : State) : State :=
  mk_State (ticks s) (requests s) (dirs s) (files s) (uploads s) (log_debug s)
           (self_variable s) v.

(** Code with effects: a state transformer that returns a value or raises. *)
Definition M (A : Type) : Type := State -> result A * State.

Definition ret {A} (a : A) : M A := fun s => (Ok a, s).
Definition raise {A} (e : exn) : M A := fun s => (Raise e, s).
Definition lift {A} (r : result A) : M A := fun s => (r, s).
Definition bind {A B} (m : M A) (k : A -> M B) : M B :=
  fun s => match m s with
           | (Ok a, s') => k a s'
           | (Raise e, s') => (Raise e, s')
           end.
Definition modify (f : State -> State) : M unit := fun s => (Ok tt, f s).

Notation "'let!' x ':=' m 'in' k" := (bind m (fun x => k))
  (at level 10, x name, m at level 100, k at level 200, only parsing).
Notation "m ';;' k" := (bind m (fun _ => k))
  (at level 100, k at level 200, right associativity, only parsing).

(** [if c: raise e] *)
Definition raise_if (c : bool) (e : exn) : M unit :=
  if c then raise e else ret tt.

(** [try: body  except Exception as ex: handler ex] *)
Definition try_except {A} (body : M A) (handler : exn -> M A) : M A :=
  fun s => match body s with
           | (Ok a, s') => (Ok a, s')
           | (Raise e, s') => handler e s'
           end.

(** [try: body  finally: final]; an exception of [final] replaces the
    outcome of [body]. *)
Definition try_finally {A} (body : M A) (final : M unit) : M A :=
  fun s => let '(r, s1) := body s in
           match final s1 with
           | (Ok _, s2) => (r, s2)
           | (Raise e, s2) => (Raise e, s2)
           end.

(** The contract the two retrievers share: the constructor, [run] on the
    request dictionary and [data_to_feature_collection]. *)
Record Retriever : Type := mk_Retriever {
  retriever_init : M unit;
  retriever_run : gmap string pyval -> M run_output;
  retriever_to_feature_collection : list sensor_row -> result feature_collection
}.

Record Host : Type := mk_Host {
  (* [os.getenv("INT_API_TOKEN")] *)
  env_INT_API_TOKEN : option string;
  (* [os.getcwd()] when the retriever class was created *)
  cwd : string;
  (* the calendar fields, in UTC, of the n-th reading of the clock *)
  clock : nat -> datetime;
  (* [requests.get(service, params)] for [orario = h] *)
  http_get : Z -> result response;
  (* [json.loads] *)
  json_loads : pyval -> result pyval;
  (* [module_s3.s3_upload(path, uri)] *)
  s3_upload : string -> string -> bool;
  (* whether [os.makedirs(path)] succeeds *)
  can_makedirs : string -> bool;
  (* whether [open(path, 'w')] and [json.dump] both succeed *)
  can_write : string -> bool;
  (* when they do not: whether [open(path, 'w')] has succeeded, so that the
     file was created or emptied before [json.dump] failed *)
  can_open : string -> bool;
  (* [_ARPAVPrecipitationRetriever], whose module is not among the sources *)
  precipitation_retriever : Retriever
}.

(** [datetime.datetime.now(tz=datetime.timezone.utc)]: an aware datetime
    with offset zero; every call reads the clock anew. *)
Definition now_utc (h : Host) : M datetime :=
  fun s =>
    let t := clock h (ticks s) in
    (Ok (mk_datetime (year t) (month t) (day t) (hour t) (minute t)
                     (second t) (microsecond t) (Some 0)),
     with_ticks (S (ticks s)) s).

(** *** File system *)

Definition slash : ascii := "/"%char.

(** The characters before the first [/] of [l], and the rest. *)
Fixpoint span_to_slash (l : list ascii) : list ascii * list ascii :=
  match l with
  | [] => ([], [])
  | c :: l' =>
      if Ascii.eqb c slash then ([], l)
      else let '(a, b) := span_to_slash l' in (c :: a, b)
  end.

Fixpoint drop_slashes (l : list ascii) : list ascii :=
  match l with
  | c :: l' => if Ascii.eqb c slash then drop_slashes l' else l
  | [] => []
  end.

(** [os.path.split(p)]: the text after the last [/] is the tail; the head
    loses its trailing slashes unless it consists of slashes only. *)
Definition os_path_split (p : string) : string * string :=
  let '(rtail, rhead) := span_to_slash (rev (list_ascii_of_string p)) in
  let stripped := drop_slashes rhead in
  (string_of_list_ascii (rev (match stripped with [] => rhead | _ => stripped end)),
   string_of_list_ascii (rev rtail)).

(** [os.path.basename(p)] *)
Definition os_path_basename (p : string) : string := snd (os_path_split p).

(** [os.path.join(a, b)] *)
Definition os_path_join (a b : string) : string :=
  if startswith b "/" then b
  else if String.eqb a "" || endswith a "/" then a ++ b
  else a ++ "/" ++ b.

Definition not_a_path : exn :=
  TypeError "stat: path should be string, bytes, os.PathLike or integer".

(** [os.path.exists(p)]: only a string is a path; [os.stat] rejects any
    other object with a [TypeError], which [os.path.exists] lets through. *)
Definition os_path_exists (p : pyval) : M bool :=
  match p with
  | VStr path => fun s => (Ok (bool_decide (path ∈ dirs s)), s)
  | _ => raise not_a_path
  end.

(** The path and the directories above it, found by splitting off the
    last component again and again. *)
Fixpoint path_ancestors (fuel : nat) (p : string) : list string :=
  match fuel with
  | O => []
  | S fuel' =>
      if String.eqb p "" then []
      else
        let head := fst (os_path_split p) in
        p :: (if String.eqb head p then [] else path_ancestors fuel' head)
  end.

(** [os.makedirs(p)]: the directory is created with the missing ones
    above it. *)
Definition os_makedirs (h : Host) (p : pyval) : M unit :=
  match p with
  | VStr path =>
      if can_makedirs h path then
        modify (fun s =>
          with_dirs
            (list_to_set (path_ancestors (String.length path) path) ∪ dirs s) s)
      else raise (OSError ("cannot create directory " ++ path))
  | _ => raise not_a_path
  end.

(** [with open(fp, 'w') as f: json.dump(fc, f)]. When the write succeeds the
    file holds the collection. When [open] fails nothing is changed. When
    [open] succeeds and [json.dump] fails, the file has been created or
    emptied and is left incomplete: it holds no collection any more. *)
Definition write_json (h : Host) (fp : string) (fc : feature_collection) : M unit :=
  if can_write h fp then modify (fun s => with_files (<[ fp := fc ]> (files s)) s)
  else if can_open h fp then
    modify (fun s => with_files (delete fp (files s)) s) ;;
    raise (OSError ("cannot write " ++ fp))
  else raise (OSError ("cannot write " ++ fp)).

(** Modelled from the spec: [filesystem.garbage_folders] is not part of the
    sources at hand; it deletes the given temporary folder with the files
    below it, and does nothing when there is no such folder (in particular
    when its argument is not a path). *)
Definition garbage_folders (folder : pyval) : M unit :=
  match folder with
  | VStr path =>
      modify (fun s =>
        with_files
          (filter (fun kv => negb (startswith (fst kv) (path ++ "/"))) (files s))
          (with_dirs (dirs s ∖ {[ path ]}) s))
  | _ => ret tt
  end.

(** Modelled from the spec: [filesystem.normpath] is not part of the
    sources at hand; the generated file name
    [<retriever>__<start-iso>__<end-iso>.geojson] is used as it is. *)
Definition filesystem_normpath (p : string) : string := p.

(** [module_s3.s3_upload(path, uri)], recorded in the state. *)
Definition s3_upload_file (h : Host) (path uri : string) : M bool :=
  fun s =>
    (Ok (s3_upload h path uri), with_uploads (uploads s ++ [(path, uri)]) s).

(** ** Python operators on values *)

(** [a < b], [a > b], [a <= b], [a >= b] on numbers. *)
Definition num_lt (a b : pyval) : bool :=
  match num_of a, num_of b with
  | Some x, Some y => float_lt x y
  | _, _ => false
  end.
Definition num_gt (a b : pyval) : bool :=
  match num_of a, num_of b with
  | Some x, Some y => float_gt x y
  | _, _ => false
  end.
Definition num_le (a b : pyval) : bool :=
  match num_of a, num_of b with
  | Some x, Some y => float_le x y
  | _, _ => false
  end.
Definition num_ge (a b : pyval) : bool :=
  match num_of a, num_of b with
  | Some x, Some y => float_ge x y
  | _, _ => false
  end.

(** [l[i]] *)
Definition py_index (l : list pyval) (i : nat) : result pyval :=
  match l !! i with
  | Some v => Ok v
  | None => Raise (IndexError "list index out of range")
  end.

(** [kwargs.get(k, None)] *)
Definition kwargs_get (kwargs : gmap string pyval) (k : string) : pyval :=
  default VNone (kwargs !! k).

Definition is_none (v : pyval) : bool :=
  match v with VNone => true | _ => false end.

(** ** The water-level retriever *)

Module ARPAVWaterLevelRetriever.

Definition name : string := "ARPAVWaterLevelRetriever".

(** [os.path.join(os.getcwd(), f'{name}_water_level_tmp')] *)
Definition _tmp_data_folder (h : Host) : string :=
  os_path_join (cwd h) (name ++ "_water_level_tmp").

Definition _properties : list string :=
  ["codice_stazione"; "codseqst"; "nome_stazione"; "longitudine";
   "latitudine"; "quota"; "nome_sensore"; "dataora"; "valore"; "misura";
   "gestore"; "provincia"].

(** [__init__]: the temporary folder is created when it is missing. *)
Definition init (h : Host) : M unit :=
  let! there := os_path_exists (VStr (_tmp_data_folder h)) in
  if there then ret tt else os_makedirs h (VStr (_tmp_data_folder h)).

Definition invalid {A} (msg : string) : result A :=
  Raise (StatusException INVALID msg).

(** The checks of one coordinate range (lines 72-80 for [lat_range] with
    bound 90, lines 82-90 for [long_range] with bound 180). *)
Definition validate_range (label : string) (bound : Z) (range : pyval) : result unit :=
  match range with
  | VNone => Ok tt
  | VList [a; b] =>
      if negb (is_int_or_float a) || negb (is_int_or_float b) then
        invalid (label ++ " elements must be float")
      else if num_lt a (VInt (- bound)) || num_gt a (VInt bound)
              || num_lt b (VInt (- bound)) || num_gt b (VInt bound) then
        invalid (label ++ " elements must be in the range [" ++
                 str_of_Z (- bound) ++ ", " ++ str_of_Z bound ++ "]")
      else if num_gt a b then
        invalid (label ++ "[0] must be less than " ++ label ++ "[1]")
      else Ok tt
  | _ => invalid (label ++ " must be a list of 2 elements")
  end.

(** [time_range[i] if type(time_range) in [list, tuple] else other] *)
Definition time_range_item (time_range : pyval) (i : nat) (other : pyval)
    : result pyval :=
  match time_range with
  | VList l | VTuple l => py_index l i
  | _ => Ok other
  end.

(** A time boundary given as text: it must be a string in ISO format. *)
Definition parse_time (label : string) (v : pyval) : result datetime :=
  match v with
  | VStr s =>
      match fromisoformat s with
      | Ok t => Ok t
      | Raise (PyError "ValueError" _) =>
          invalid (label ++ " must be a valid datetime iso-format string")
      | Raise e => Raise e
      end
  | _ => invalid (label ++ " must be a string")
  end.

(** [t.replace(minute=(t.minute // 5) * 5, second=0, microsecond=0)] *)
Definition truncate_5min (t : datetime) : result datetime :=
  replace_time t (minute t / 5 * 5) 0 0.

Record validated_args : Type := mk_validated_args {
  va_lat_range : pyval;
  va_long_range : pyval;
  va_time_start : datetime;
  va_time_end : datetime;
  va_out_format : pyval;
  va_bucket_destination : pyval;
  va_out : pyval
}.

Definition validate_out_format (out_format : pyval) : result pyval :=
  match out_format with
  | VNone => Ok (VStr "geojson")
  | VStr s =>
      if String.eqb s "geojson" then Ok out_format
      else invalid ("out_format must be one of [" ++ dq ++ "geojson" ++ dq ++ "]")
  | _ => invalid "out_format must be a string or null"
  end.

Definition validate_bucket_destination (bucket_destination : pyval) : result unit :=
  match bucket_destination with
  | VNone => Ok tt
  | VStr s =>
      if startswith s "s3://" then Ok tt
      else invalid ("bucket_destination must start with " ++ dq ++ "s3://" ++ dq)
  | _ => invalid "bucket_destination must be a string"
  end.

Definition validate_out (h : Host) (out : pyval) : M unit :=
  match out with
  | VNone => ret tt
  | VStr s =>
      if endswith s ".geojson" then
        let dirname := fst (os_path_split s) in
        let! there := os_path_exists (VStr dirname) in
        if negb (String.eqb dirname "") && negb there
        then os_makedirs h (VStr dirname) else ret tt
      else lift (invalid ("out must end with " ++ dq ++ ".geojson" ++ dq))
  | _ => lift (invalid "out must be a string")
  end.

(** [argument_validation(self, **kwargs)] *)
Definition argument_validation (h : Host) (kwargs : gmap string pyval)
    : M validated_args :=
  let lat_range := kwargs_get kwargs "lat_range" in
  let long_range := kwargs_get kwargs "long_range" in
  let time_range := kwargs_get kwargs "time_range" in
  let! time_start := lift (time_range_item time_range 0 time_range) in
  let! time_end := lift (time_range_item time_range 1 VNone) in
  let out_format := kwargs_get kwargs "out_format" in
  let bucket_destination := kwargs_get kwargs "bucket_destination" in
  let out := kwargs_get kwargs "out" in
  lift (validate_range "lat_range" 90 lat_range) ;;
  lift (validate_range "long_range" 180 long_range) ;;
  raise_if (is_none time_start)
    (StatusException INVALID "Cannot process without a time valued") ;;
  let! time_start := lift (parse_time "time_start" time_start) in
  let! time_end :=
    if is_none time_end then ret None
    else
      let! te := lift (parse_time "time_end" time_end) in
      let! later := lift (dt_gt time_start te) in
      raise_if later
        (StatusException INVALID "time_start must be less than time_end") ;;
      ret (Some te) in
  let! time_start := lift (truncate_5min time_start) in
  let! time_end :=
    match time_end with
    | Some te => lift (truncate_5min te)
    | None => lift (dt_add time_start (1 * us_per_hour))
    end in
  let! now := now_utc h in
  let! limit := lift (dt_add now (- (48 * us_per_hour))) in
  let! too_old := lift (dt_lt time_end (replace_tzinfo_none limit)) in
  raise_if too_old
    (StatusException INVALID "Time range must be within the last 48 hours") ;;
  let! out_format := lift (validate_out_format out_format) in
  lift (validate_bucket_destination bucket_destination) ;;
  validate_out h out ;;
  ret (mk_validated_args lat_range long_range time_start time_end out_format
                         bucket_destination out).

(** [range(a, b)] *)
Definition py_range (a b : Z) : list Z :=
  map (fun i => a + Z.of_nat i) (seq 0 (Z.to_nat (b - a))).

(** [datetime.datetime.now(tz=datetime.timezone.utc).replace(tzinfo=None)] *)
Definition now_naive (h : Host) : M datetime :=
  let! t := now_utc h in ret (replace_tzinfo_none t).

(** A finite double: the integer [mantissa] times two to the [exponent]. *)
Record double : Type := mk_double { mantissa : Z; exponent : Z }.

(** The integer nearest to [n / d] for a positive [d], a tie going to the
    even one. *)
Definition round_half_even (n d : Z) : Z :=
  let q := n / d in
  match 2 * (n mod d) ?= d with
  | Lt => q
  | Gt => q + 1
  | Eq => if Z.even q then q else q + 1
  end.

(** [td.total_seconds()] for the timedelta of [us] microseconds: CPython
    divides the count of microseconds by [10**6] as integers and rounds the
    exact quotient once, to the nearest double (a mantissa of 53 bits, ties
    to even). The exponent is taken from the binary logarithm of the
    quotient, which is at least [10**-6]; a timedelta is far from the
    doubles that overflow. *)
Definition total_seconds (us : Z) : double :=
  if us =? 0 then mk_double 0 0
  else
    let a := Z.abs us in
    let e := Z.log2 (a * 2 ^ 20 / us_per_second) - 20 - 52 in
    mk_double
      (Z.sgn us
       * round_half_even (a * 2 ^ Z.max 0 (- e)) (us_per_second * 2 ^ Z.max 0 e))
      e.

(** [int(x // w)] for a double [x] and a positive integer [w]: the floor of
    the exact quotient. (Below [2**53] the remainder [fmod(x, w)], the
    difference [x - mod] and its quotient by [w] are exact, so the floor
    division of doubles makes no rounding error of its own.) *)
Definition floordiv (x : double) (w : Z) : Z :=
  if 0 <=? exponent x then mantissa x * 2 ^ exponent x / w
  else mantissa x / (w * 2 ^ (- exponent x)).

(** [int(td.total_seconds() // 3600)] for the timedelta of [us]
    microseconds. *)
Definition whole_hours (us : Z) : Z := floordiv (total_seconds us) 3600.

(** [int((t - now).total_seconds() // 3600)], with a reading of the clock
    of its own. *)
Definition hour_delta_of (h : Host) (t : datetime) : M Z :=
  let! now := now_naive h in
  let! d := lift (dt_sub t now) in
  ret (whole_hours d).

(** Lines 153-157: the two hour offsets, each computed from a reading of
    the clock of its own, and the buckets [range(start, end + 1)]. *)
Definition hour_buckets (h : Host) (time_start time_end : datetime) : M (list Z) :=
  let! start_hour_delta := hour_delta_of h time_start in
  let! end_hour_delta := hour_delta_of h time_end in
  ret (py_range start_hour_delta (end_hour_delta + 1)).

(** [requests.get(self._data_provider_service, params)] with
    [orario = hour_delta]; the request is recorded. *)
Definition requests_get (h : Host) (hour_delta : Z) : M response :=
  fun s => (http_get h hour_delta, with_requests (requests s ++ [hour_delta]) s).

Definition upstream_error (r : response) : exn :=
  StatusException ERROR
    ("Failed to retrieve data from ARPAV service: "
     ++ str_of_Z (status_code r) ++ " - " ++ text r).

(** The body of the loop over the hour buckets (lines 158-168). *)
Definition fetch_hour (h : Host) (hour_delta : Z) : M (list raw_row) :=
  let! response := requests_get h hour_delta in
  raise_if (negb (status_code response =? 200)) (upstream_error response) ;;
  lift (json_data response).

(** [for hour_delta in range(...)]: one DataFrame per bucket, in order. *)
Fixpoint fetch_hours (h : Host) (hours : list Z) : M (list (list raw_row)) :=
  match hours with
  | [] => ret []
  | hour_delta :: rest =>
      let! df := fetch_hour h hour_delta in
      let! dfs := fetch_hours h rest in
      ret (df :: dfs)
  end.

(** [pd.concat(hour_dfs, ignore_index=True)] *)
Definition pd_concat (hour_dfs : list (list raw_row)) : result (list raw_row) :=
  match hour_dfs with
  | [] => Raise (ValueError "No objects to concatenate")
  | _ => Ok (concat hour_dfs)
  end.

(** [obj.get(key, default)] on the result of [json.loads]. *)
Definition py_get (obj : pyval) (key : string) (dflt : pyval) : result pyval :=
  match obj with
  | VDict d =>
      Ok (match List.find (fun kv => String.eqb (fst kv) key) d with
          | Some kv => snd kv
          | None => dflt
          end)
  | _ => Raise (AttributeError "object has no attribute 'get'")
  end.

(** [extract_level]: the bare [except] turns every exception into NaN. *)
Definition extract_level (h : Host) (level : pyval) : result pyval :=
  match (let? obj := json_loads h level in py_get obj "LIVELLO" nan) with
  | Ok v => Ok v
  | Raise _ => Ok nan
  end.

(** Applies [f] to every element, stopping at the first exception. *)
Fixpoint map_result {A B} (f : A -> result B) (l : list A) : result (list B) :=
  match l with
  | [] => Ok []
  | x :: l' =>
      let? y := f x in
      let? ys := map_result f l' in
      Ok (y :: ys)
  end.

(** [gdf[mask]] for a row-wise [mask] that can raise. *)
Fixpoint filter_result {A} (mask : A -> result bool) (l : list A) : result (list A) :=
  match l with
  | [] => Ok []
  | x :: l' =>
      let? keep := mask x in
      let? rest := filter_result mask l' in
      Ok (if keep then x :: rest else rest)
  end.

(** Lines 171-180 for one row: geometry from the coordinates, [dataora]
    parsed into [date_time], [valore] decoded. *)
Definition build_row (h : Host) (r : raw_row) : result sensor_row :=
  let? dt := fromisoformat (dataora r) in
  let? level := extract_level h (raw_valore r) in
  Ok (mk_sensor_row (raw_columns r) dt level
        (longitudine (raw_columns r), latitudine (raw_columns r))).

(** [(x >= range[0]) & (x <= range[1])] *)
Definition in_range (x : pyfloat) (range : list pyval) : result bool :=
  let? lo := py_index range 0 in
  let? hi := py_index range 1 in
  Ok (num_ge (VFloat x) lo && num_le (VFloat x) hi).

(** The coordinate filter of lines 185-188; [None] keeps every row. *)
Definition filter_coordinate (coord : sensor_row -> pyfloat) (range : pyval)
    (gdf : list sensor_row) : result (list sensor_row) :=
  match range with
  | VNone => Ok gdf
  | VList l | VTuple l => filter_result (fun r => in_range (coord r) l) gdf
  | _ => Raise (TypeError "object is not subscriptable")
  end.

(** [retrieve_data(self, lat_range, long_range, time_start, time_end)];
    [time_end] is never [None] here, [argument_validation] fills it in. *)
Definition retrieve_data (h : Host) (lat_range long_range : pyval)
    (time_start time_end : datetime) : M (list sensor_row) :=
  let! hours := hour_buckets h time_start time_end in
  let! hour_dfs := fetch_hours h hours in
  let! df := lift (pd_concat hour_dfs) in
  let! gdf := lift (map_result (build_row h) df) in
  let! gdf := lift (filter_result (fun r => dt_ge (date_time r) time_start) gdf) in
  let! gdf := lift (filter_result (fun r => dt_le (date_time r) time_end) gdf) in
  let! gdf := lift (filter_coordinate geometry_y lat_range gdf) in
  let! gdf := lift (filter_coordinate geometry_x long_range gdf) in
  ret gdf.

(** *** [data_to_feature_collection] *)

(** [build_metadata()] *)
Definition build_metadata : list (list (string * string)) :=
  let info_metadata := [] in
  let variable_metadata :=
    [[("@name", "water_level"); ("@alias", "water_level");
      ("@unit", "mm"); ("@type", "level")]] in
  info_metadata ++ variable_metadata.

(** [build_crs()], the name of the reference system. *)
Definition build_crs : string := "urn:ogc:def:crs:OGC:1.3:CRS84".

(** The group keys of [groupby(by='codice_stazione')]: the distinct station
    codes in sorted order. *)
Fixpoint insert_key (k : string) (keys : list string) : list string :=
  match keys with
  | [] => [k]
  | x :: rest =>
      match String.compare k x with
      | Lt => k :: keys
      | Eq => keys
      | Gt => x :: insert_key k rest
      end
  end.

Definition group_keys (gdf : list sensor_row) : list string :=
  fold_right (fun r keys => insert_key (codice_stazione (columns r)) keys) [] gdf.

(** The rows of one station, in the order of the frame. *)
Definition group_rows (gdf : list sensor_row) (k : string) : list sensor_row :=
  List.filter (fun r => String.eqb (codice_stazione (columns r)) k) gdf.

Definition groupby (gdf : list sensor_row) : list (list sensor_row) :=
  map (group_rows gdf) (group_keys gdf).

Definition is_null (v : pyval) : bool :=
  match v with
  | VNone | VFloat FNaN => true
  | _ => false
  end.

(** The aggregation ['first']: the first entry that is not null, NaN when
    there is none. *)
Definition agg_first (l : list pyval) : pyval :=
  match List.find (fun v => negb (is_null v)) l with
  | Some v => v
  | None => nan
  end.

Definition agg_first_float (l : list pyfloat) : pyfloat :=
  match List.find (fun f => match f with FNaN => false | _ => true end) l with
  | Some f => f
  | None => FNaN
  end.

(** [np.isnan(val)] on a scalar: defined on numbers only. A list is no
    scalar: NumPy makes an array of it, and what the test of line 231 makes
    of the array depends on its size. The properties of the encoder are
    stated for readings that are scalars; on a list this definition
    answers as on every other value that is no number. *)
Definition np_isnan (val : pyval) : result bool :=
  match val with
  | VFloat FNaN => Ok true
  | VFloat _ | VBool _ => Ok false
  | VInt z =>
      if (- 2 ^ 63 <=? z) && (z <? 2 ^ 64) then Ok false
      else Raise (TypeError "ufunc 'isnan' not supported for the input types")
  | _ => Raise (TypeError "ufunc 'isnan' not supported for the input types")
  end.

(** [[dt.isoformat(), val if not np.isnan(val) else None]] *)
Definition series_entry (r : sensor_row) : result pyval :=
  let? missing := np_isnan (valore r) in
  Ok (VList [VStr (isoformat (date_time r));
             if missing then VNone else valore r]).

(** One aggregated row turned into a Feature (lines 225-239). *)
Definition feature_of_group (group : list sensor_row) : result feature :=
  let first col := agg_first (map (fun r => col (columns r)) group) in
  let first_float col := agg_first_float (map (fun r => col (columns r)) group) in
  let? series := map_result series_entry group in
  Ok (mk_feature
        (first_float longitudine, first_float latitudine)
        [("codice_stazione", first (fun c => VStr (codice_stazione c)));
         ("codseqst", first codseqst);
         ("nome_stazione", first nome_stazione);
         ("quota", first quota);
         ("nome_sensore", first nome_sensore);
         ("misura", first misura);
         ("gestore", first gestore);
         ("provincia", first provincia);
         ("water_level", VList series)]).

(** [data_to_feature_collection(self, sensors_gdf)] *)
Definition data_to_feature_collection (sensors_gdf : list sensor_row)
    : result feature_collection :=
  let? features := map_result feature_of_group (groupby sensors_gdf) in
  Ok (mk_feature_collection features build_metadata build_crs).

(** *** [run] *)

(** The upload loop of lines 310-317. *)
Fixpoint upload_files (h : Host) (bucket_destination : string)
    (output_filespaths : list string) : M (list string) :=
  match output_filespaths with
  | [] => ret []
  | output_filepath :: rest =>
      let output_filename := os_path_basename output_filepath in
      let bucket_uri := bucket_destination ++ "/" ++ output_filename in
      let! upload_status := s3_upload_file h output_filepath bucket_uri in
      raise_if (negb upload_status)
        (StatusException ERROR
           ("Failed to upload data to bucket " ++ bucket_destination)) ;;
      let! uris := upload_files h bucket_destination rest in
      ret (bucket_uri :: uris)
  end.

(** [{key: l[0]} if len(l) == 1 else {keys: l}] *)
Definition one_or_many (key keys : string) (l : list string) : list (string * pyval) :=
  match l with
  | [x] => [(key, VStr x)]
  | _ => [(keys, VList (map VStr l))]
  end.

Definition the_kwargs (lat_range long_range time_range out_format
    bucket_destination out : pyval) : gmap string pyval :=
  <[ "lat_range" := lat_range ]> (
  <[ "long_range" := long_range ]> (
  <[ "time_range" := time_range ]> (
  <[ "out" := out ]> (
  <[ "out_format" := out_format ]> (
  <[ "bucket_destination" := bucket_destination ]> ∅))))).

(** The body of the [try] block of [run] (lines 270-337). *)
Definition run_body (h : Host) (lat_range long_range time_range out_format
    bucket_destination out : pyval) : M run_output :=
  let! validated_args :=
    argument_validation h
      (the_kwargs lat_range long_range time_range out_format
                  bucket_destination out) in
  let lat_range := va_lat_range validated_args in
  let long_range := va_long_range validated_args in
  let time_start := va_time_start validated_args in
  let time_end := va_time_end validated_args in
  let out_format := va_out_format validated_args in
  let out := va_out validated_args in
  let bucket_destination := va_bucket_destination validated_args in
  let! sensors_gdf := retrieve_data h lat_range long_range time_start time_end in
  let! output_filespaths :=
    match out_format with
    | VStr "geojson" =>
        let! feature_collection := lift (data_to_feature_collection sensors_gdf) in
        let feature_collection_fn :=
          filesystem_normpath
            (name ++ "__" ++ isoformat time_start ++ "__"
             ++ isoformat time_end ++ ".geojson") in
        let! feature_collection_fp :=
          match out with
          | VNone => ret (os_path_join (_tmp_data_folder h) feature_collection_fn)
          | VStr fp => ret fp
          | _ => raise (TypeError "expected str, bytes or os.PathLike object")
          end in
        write_json h feature_collection_fp feature_collection ;;
        ret (Some [feature_collection_fp])
    | _ => ret None
    end in
  let unbound := PyError "UnboundLocalError" "output_filespaths" in
  let! bucket_uris :=
    match bucket_destination with
    | VNone => ret []
    | VStr b =>
        match output_filespaths with
        | Some fps => upload_files h b fps
        | None => raise unbound
        end
    | _ => raise (TypeError "unsupported format")
    end in
  if negb (is_none bucket_destination) || negb (is_none out) then
    let outputs := [("status", VStr "OK")] in
    let outputs :=
      if negb (is_none bucket_destination)
      then (outputs ++ one_or_many "uri" "uris" bucket_uris)%list else outputs in
    if negb (is_none out) then
      match output_filespaths with
      | Some fps =>
          ret (OutSummary (outputs ++ one_or_many "filepath" "filepaths" fps)%list)
      | None => raise unbound
      end
    else ret (OutSummary outputs)
  else ret (OutFrame sensors_gdf).

(** [run(self, lat_range, long_range, time_range, out_format,
    bucket_destination, out, **kwargs)]: every exception of the body is
    re-raised as a [StatusException] with status [ERROR], and the
    temporary folder is removed in the [finally] clause. *)
Definition run (h : Host) (lat_range long_range time_range out_format
    bucket_destination out : pyval) : M run_output :=
  try_finally
    (try_except
       (run_body h lat_range long_range time_range out_format
                 bucket_destination out)
       (fun ex =>
          raise (StatusException ERROR
                   ("An error occurred while running the ARPAV Retriever: "
                    ++ exn_str ex))))
    (garbage_folders (VStr (_tmp_data_folder h))).

(** [run] applied to [**data]: the named parameters are taken from the dictionary, the
    other entries go to [**kwargs], which [run] does not read. *)
Definition run_data (h : Host) (data : gmap string pyval) : M run_output :=
  run h (kwargs_get data "lat_range") (kwargs_get data "long_range")
        (kwargs_get data "time_range") (kwargs_get data "out_format")
        (kwargs_get data "bucket_destination") (kwargs_get data "out").

Definition retriever (h : Host) : Retriever :=
  mk_Retriever (init h) (run_data h) data_to_feature_collection.

End ARPAVWaterLevelRetriever.

(** ** The processor of the host framework *)

Module ARPAVRetrieverProcessor.

(** The dictionary [_ARPAV_RETRIEVERS]: the class registered under a name. *)
Definition _ARPAV_RETRIEVERS (variable : string) : option pyval :=
  if String.eqb variable "precipitation" then
    Some (VClass "_ARPAVPrecipitationRetriever")
  else if String.eqb variable "water_level" then
    Some (VClass "_ARPAVWaterLevelRetriever")
  else None.

(** Calling a registered class creates the retriever. *)
Definition instantiate (h : Host) (cls : pyval) : result Retriever :=
  match cls with
  | VClass "_ARPAVPrecipitationRetriever" => Ok (precipitation_retriever h)
  | VClass "_ARPAVWaterLevelRetriever" => Ok (ARPAVWaterLevelRetriever.retriever h)
  | _ => Raise (TypeError "object is not callable")
  end.

(** Whether [hash(v)] is defined: lists and dictionaries have no hash. *)
Fixpoint hashable (v : pyval) : bool :=
  match v with
  | VList _ | VDict _ => false
  | VTuple l => forallb hashable l
  | _ => true
  end.

(** [key in _ARPAV_RETRIEVERS] *)
Definition registered (key : pyval) : result bool :=
  if hashable key then
    Ok (match key with
        | VStr s => match _ARPAV_RETRIEVERS s with Some _ => true | None => false end
        | _ => false
        end)
  else Raise (TypeError "unhashable type").

(** [_ARPAV_RETRIEVERS[key]] *)
Definition registered_class (key : pyval) : result pyval :=
  match key with
  | VStr s =>
      match _ARPAV_RETRIEVERS s with
      | Some cls => Ok cls
      | None => Raise (PyError "KeyError" s)
      end
  | _ => if hashable key then Raise (PyError "KeyError" "")
         else Raise (TypeError "unhashable type")
  end.

(** [token != expected] for the expected string. *)
Definition differs_from (token : pyval) (expected : string) : bool :=
  match token with
  | VStr s => negb (String.eqb s expected)
  | _ => true
  end.

(** [os.getenv("INT_API_TOKEN", "token")] *)
Definition expected_token (h : Host) : string :=
  default "token" (env_INT_API_TOKEN h).

(** [argument_validation(self, data)] *)
Definition argument_validation (h : Host) (data : gmap string pyval) : M unit :=
  let token := kwargs_get data "token" in
  let debug := default (VBool false) (data !! "debug") in
  raise_if (is_none token || differs_from token (expected_token h))
    (StatusException DENIED "ACCESS DENIED: wrong token") ;;
  let! debug :=
    match debug with
    | VBool b => ret b
    | _ => raise (StatusException INVALID "debug must be a boolean")
    end in
  (if debug then modify (with_log_debug true) else ret tt) ;;
  let variable := kwargs_get data "variable" in
  raise_if (is_none variable)
    (StatusException INVALID "variable must be provided") ;;
  let! known := lift (registered variable) in
  raise_if (negb known)
    (StatusException INVALID
       ("variable must be either " ++ dq ++ "precipitation" ++ dq ++ " or "
        ++ dq ++ "water_level" ++ dq)) ;;
  modify (with_self_variable variable) ;;
  let! cls := lift (registered_class variable) in
  modify (with_self_tmp_data_folder cls) ;;
  let! there := os_path_exists cls in
  if there then ret tt else os_makedirs h cls.

(** The second component of what [execute] returns. *)
Inductive outputs : Type :=
| StatusPayload (st : status) (message : string)
| Summary (d : list (string * pyval))
| Collection (fc : feature_collection).

Definition mimetype : string := "application/json".

(** The [try] block of [execute] (lines 212-222). *)
Definition execute_body (h : Host) (data : gmap string pyval) : M outputs :=
  argument_validation h data ;;
  let! cls := fun s => (registered_class (self_variable s), s) in
  let! ARPAVRetriever := lift (instantiate h cls) in
  retriever_init ARPAVRetriever ;;
  let! out := retriever_run ARPAVRetriever data in
  match out with
  | OutFrame gdf =>
      let! fc := lift (retriever_to_feature_collection ARPAVRetriever gdf) in
      ret (Collection fc)
  | OutSummary d => ret (Summary d)
  end.

(** [execute(self, data)]: a [StatusException] becomes the payload
    [{'status': err.status, 'message': str(err)}]; any other exception is
    re-raised as [ProcessorExecuteError(str(err))]. *)
Definition execute (h : Host) (data : gmap string pyval) : M (string * outputs) :=
  let! outputs :=
    try_except (execute_body h data)
      (fun err =>
         match err with
         | StatusException st msg => ret (StatusPayload st msg)
         | _ => raise (ProcessorExecuteError (exn_str err))
         end) in
  let! folder := fun s => (Ok (self_tmp_data_folder s), s) in
  garbage_folders folder ;;
  ret (mimetype, outputs).

End ARPAVRetrieverProcessor.

(** The state of a fresh process: no clock reading taken, nothing requested
    or written yet, and the processor attributes still [None]. *)
Definition initial_state (existing : gset string) : State :=
  mk_State 0 [] existing ∅ [] false VNone VNone.

(** ** A concrete world, for running the pipeline on examples *)

Module Example.

(** A decoder for the payloads the water-level service sends, an object
    with one key and a decimal number: [{"LIVELLO": 1.25}]. Any other text
    is reported as malformed, any other object as a [TypeError]. *)
Fixpoint skip_spaces (l : list ascii) : list ascii :=
  match l with
  | " "%char :: l' => skip_spaces l'
  | _ => l
  end.

Fixpoint read_digits (l : list ascii) (acc : Z) (n : nat) : Z * nat * list ascii :=
  match l with
  | c :: l' =>
      match digit_val c with
      | Some d => read_digits l' (10 * acc + d) (S n)
      | None => (acc, n, l)
      end
  | [] => (acc, n, l)
  end.

Definition read_number (l : list ascii) : option (pyval * list ascii) :=
  let '(neg, l) :=
    match l with
    | "-"%char :: l' => (true, l')
    | _ => (false, l)
    end in
  let sign (z : Z) := if neg then - z else z in
  match read_digits l 0 0 with
  | (_, O, _) => None
  | (i, _, "."%char :: l1) =>
      match read_digits l1 0 0 with
      | (_, O, _) => None
      | (f, k, l2) =>
          Some (VFloat (FFin (Qmake (sign (i * 10 ^ Z.of_nat k + f))
                                    (Z.to_pos (10 ^ Z.of_nat k)))), l2)
      end
  | (i, _, l1) => Some (VInt (sign i), l1)
  end.

Definition read_key (l : list ascii) : option (string * list ascii) :=
  match l with
  | c :: l' =>
      if Ascii.eqb c (ascii_of_nat 34) then
        let '(k, rest) :=
          (fix go (l : list ascii) : list ascii * list ascii :=
             match l with
             | [] => ([], [])
             | c :: l' =>
                 if Ascii.eqb c (ascii_of_nat 34) then ([], l)
                 else let '(a, b) := go l' in (c :: a, b)
             end) l' in
        match rest with
        | _ :: rest' => Some (string_of_list_ascii k, rest')
        | [] => None
        end
      else None
  | [] => None
  end.

Definition json_loads_flat (v : pyval) : result pyval :=
  match v with
  | VStr s =>
      let bad := Raise (ValueError "Expecting value") in
      match skip_spaces (list_ascii_of_string s) with
      | "{"%char :: l =>
          match read_key (skip_spaces l) with
          | Some (k, l1) =>
              match skip_spaces l1 with
              | ":"%char :: l2 =>
                  match read_number (skip_spaces l2) with
                  | Some (n, l3) =>
                      match skip_spaces l3 with
                      | ["}"%char] => Ok (VDict [(k, n)])
                      | _ => bad
                      end
                  | None => bad
                  end
              | _ => bad
              end
          | None => bad
          end
      | l =>
          match read_number l with
          | Some (n, []) => Ok n
          | _ => bad
          end
      end
  | _ => Raise (TypeError "the JSON object must be str, bytes or bytearray")
  end.

(** The payload [{"LIVELLO": <number>}]. *)
Definition livello (number : string) : pyval :=
  VStr ("{" ++ dq ++ "LIVELLO" ++ dq ++ ": " ++ number ++ "}").

Definition station (code : string) (lon lat : Q) : station_columns :=
  mk_station_columns code (VStr "300000289") (VStr "Ponte") (FFin lon) (FFin lat)
                     (VInt 12) (VStr "Idrometro") (VStr "m") (VStr "ARPAV")
                     (VStr "VE").

(** A precipitation retriever that is never reached in the examples. *)
Definition no_retriever : Retriever :=
  mk_Retriever (raise (PyError "NotImplementedError" ""))
               (fun _ => raise (PyError "NotImplementedError" ""))
               (fun _ => Raise (PyError "NotImplementedError" "")).

(** A world whose clock stands at [now] and moves by [step] microseconds
    with every reading, and whose service answers [service]. *)
Definition world (now : datetime) (step : Z) (service : Z -> result response) : Host :=
  mk_Host None "/srv"
          (fun n => of_micros (to_micros now + step * Z.of_nat n) None)
          service json_loads_flat (fun _ _ => true) (fun _ => true)
          (fun _ => true) (fun _ => true) no_retriever.

Definition noon : datetime := mk_datetime 2025 7 23 12 0 0 0 None.

(** Bucket -2 (10:00 to 11:00) holds two stations; every other bucket is
    empty. *)
Definition service_ok (orario : Z) : result response :=
  Ok (mk_response 200 "ok"
        (Ok (if orario =? -2 then
               [mk_raw_row (station "83" (121 # 10) (455 # 10))
                           "2025-07-23T10:05:00" (livello "1.25");
                mk_raw_row (station "21" (118 # 10) (452 # 10))
                           "2025-07-23T10:05:00" (livello "0.80");
                mk_raw_row (station "83" (121 # 10) (455 # 10))
                           "2025-07-23T10:10:00" (VStr "n/a");
                mk_raw_row (station "83" (121 # 10) (455 # 10))
                           "2025-07-23T10:58:00" (livello "1.31")]
             else []))).

(** The service is down for bucket -2. *)
Definition service_500 (orario : Z) : result response :=
  if orario =? -2 then Ok (mk_response 500 "Internal Server Error" (Ok []))
  else service_ok orario.

Definition window : pyval :=
  VList [VStr "2025-07-23T10:02:00"; VStr "2025-07-23T10:58:00"].

(** A row of the frame: a station, a timestamp and a decoded level. *)
Definition reading (code : string) (lon lat : Q) (stamp : datetime)
    (level : pyval) : sensor_row :=
  mk_sensor_row (station code lon lat) stamp level (FFin lon, FFin lat).

Definition at_10_05 : datetime := mk_datetime 2025 7 23 10 5 0 0 None.
Definition at_10_10 : datetime := mk_datetime 2025 7 23 10 10 0 0 None.

(** A reading of station 83. *)
Definition reading_83 (stamp : datetime) (level : pyval) : sensor_row :=
  reading "83" (121 # 10) (455 # 10) stamp level.

(** The rows of [service_ok] inside the validated window 10:00 to 10:55. *)
Definition frame : list sensor_row :=
  [reading_83 at_10_05 (VFloat (FFin (125 # 100)));
   reading "21" (118 # 10) (452 # 10) at_10_05 (VFloat (FFin (80 # 100)));
   reading_83 at_10_10 nan].

(** The temporary folder of the retriever in these worlds. *)
Definition tmp_folder : string := "/srv/ARPAVWaterLevelRetriever_water_level_tmp".

(** The state in which a run ends that started in the initial state with no
    directory: three clock readings, the requests made, the directories and
    files left and the uploads done. *)
Definition after_run (asked : list Z) (left_dirs : gset string)
    (uploaded : list (string * string)) (written : gmap string feature_collection)
    : State :=
  mk_State 3 asked left_dirs written uploaded false VNone VNone.

End Example.

(** * The vocabulary of the properties *)

Import ARPAVWaterLevelRetriever.

Definition with_lat_range (v : validated_args) (range : pyval) : validated_args :=
  mk_validated_args range (va_long_range v) (va_time_start v) (va_time_end v)
                    (va_out_format v) (va_bucket_destination v) (va_out v).

(** A bound lies in the domain [[-bound, bound]]. *)
Definition in_domain (bound : Z) (x : pyval) : bool :=
  num_le (VInt (- bound)) x && num_le x (VInt bound).

(** A bound lies outside the domain, by the tests the code makes. *)
Definition out_of_domain (bound : Z) (x : pyval) : bool :=
  num_lt x (VInt (- bound)) || num_gt x (VInt bound).

(** The outcome of a validation with the accepted range put in place. *)
Definition put_lat_range (range : pyval) (x : result validated_args * State)
    : result validated_args * State :=
  match x with
  | (Ok v, s') => (Ok (with_lat_range v range), s')
  | (Raise e, s') => (Raise e, s')
  end.

(** The datetime with its minute moved down to a multiple of five and its
    seconds and microseconds cleared. *)
Definition truncated (t : datetime) : datetime :=
  mk_datetime (year t) (month t) (day t) (hour t) (minute t / 5 * 5) 0 0
              (tzinfo t).

(** [d[key]] read back from a dictionary kept in insertion order. *)
Definition dict_lookup (d : list (string * pyval)) (key : string) : option pyval :=
  option_map snd (List.find (fun kv => String.eqb (fst kv) key) d).

(** The entry [[timestamp, value-or-null]] of a reading. *)
Definition series_pair (r : sensor_row) (missing : bool) : pyval :=
  VList [VStr (isoformat (date_time r)); if missing then VNone else valore r].

(** The exception with which the processor's validation ends. *)
Definition processor_rejection (h : Host) (data : gmap string pyval) : exn :=
  if is_none (kwargs_get data "token")
     || ARPAVRetrieverProcessor.differs_from
          (kwargs_get data "token") (ARPAVRetrieverProcessor.expected_token h)
  then StatusException DENIED "ACCESS DENIED: wrong token"
  else match default (VBool false) (data !! "debug") with
       | VBool _ =>
           if is_none (kwargs_get data "variable") then
             StatusException INVALID "variable must be provided"
           else match ARPAVRetrieverProcessor.registered
                         (kwargs_get data "variable") with
                | Raise e => e
                | Ok false =>
                    StatusException INVALID
                      ("variable must be either " ++ dq ++ "precipitation"
                       ++ dq ++ " or " ++ dq ++ "water_level" ++ dq)
                | Ok true => not_a_path
                end
       | _ => StatusException INVALID "debug must be a boolean"
       end.

(** A request with a good token and a known variable whose latitude range
    is inverted. *)
Definition inverted_lat_request : gmap string pyval :=
  <[ "token" := VStr "token" ]> (
  <[ "variable" := VStr "water_level" ]> (
  <[ "lat_range" := VList [VInt 10; VInt 5] ]> (
  <[ "time_range" := Example.window ]> ∅))).

(** [m] does not change the component [proj] of the state. *)
Definition keeps {T A} (proj : State -> T) (m : M A) : Prop :=
  forall s r s', m s = (r, s') -> proj s' = proj s.




(** The state after the [finally] clause of [run]. *)
Definition cleaned (h : Host) (s : State) : State :=
  with_files
    (filter (fun kv => negb (startswith (fst kv) (_tmp_data_folder h ++ "/")))
            (files s))
    (with_dirs (dirs s ∖ {[ _tmp_data_folder h ]}) s).

(** The file that holds the feature collection: the output path when
    there is one, else the generated name in the temporary folder. *)
Definition collection_path (h : Host) (out : pyval) (ts te : datetime) : string :=
  match out with
  | VStr p => p
  | _ => os_path_join (_tmp_data_folder h)
           (filesystem_normpath
              (name ++ "__" ++ isoformat ts ++ "__" ++ isoformat te
               ++ ".geojson"))
  end.

(** The address of an uploaded file. *)
Definition bucket_uri (b fp : string) : string := b ++ "/" ++ os_path_basename fp.

(** The summary dictionary for a bucket and an output path. *)
Definition summary (bucket out : pyval) (fp : string) : list (string * pyval) :=
  (("status", VStr "OK")
   :: match bucket with
      | VStr b => [("uri", VStr (bucket_uri b fp))]
      | _ => []
      end
   ++ match out with
      | VStr p => [("filepath", VStr p)]
      | _ => []
      end)%list.

(** What [run] returns for a bucket, an output path and a frame. *)
Definition run_result (bucket out : pyval) (gdf : list sensor_row) (fp : string)
    : run_output :=
  if is_none bucket && is_none out then OutFrame gdf
  else OutSummary (summary bucket out fp).

(** The parts of [total_seconds] for a positive count of microseconds: the
    binary exponent of the quotient by [10**6], shifted by 72, and the
    mantissa of 53 bits. *)
Definition exponent72 (a : Z) : Z := Z.log2 (a * 2 ^ 20 / us_per_second).
Definition mantissa_of (a : Z) : Z :=
  let e := exponent72 a - 72 in
  round_half_even (a * 2 ^ Z.max 0 (- e)) (us_per_second * 2 ^ Z.max 0 e).

(** The value of the double of a positive count, in units of [2 ^ -72]. *)
Definition scaled_seconds (a : Z) : Z := mantissa_of a * 2 ^ exponent72 a.

(** * The vocabulary of the further properties *)

(** [p] holds of the [fuel] integers from [i] on. *)
Fixpoint all_from (fuel : nat) (i : Z) (p : Z -> bool) : bool :=
  match fuel with
  | O => true
  | S fuel' => p i && all_from fuel' (i + 1) p
  end.

(** The month and the day that [ord2ymd] finds for day [n] (from 0) of a
    year. *)
Definition month_day (leapyear : bool) (n : Z) : Z * Z :=
  let m := Z.shiftr (n + 50) 5 in
  let preceding :=
    days_before_month 1 m + (if (2 <? m) && leapyear then 1 else 0) in
  if n <? preceding then
    let m' := m - 1 in
    let dim := days_in_month 1 m' + (if (m' =? 2) && leapyear then 1 else 0) in
    (m', n - (preceding - dim) + 1)
  else (m, n - preceding + 1).

(** Day [n] of a year is the day of the month that [month_day] finds. *)
Definition month_day_ok (leapyear : bool) (n : Z) : bool :=
  let '(m, d) := month_day leapyear n in
  days_before_month 1 m + (if (2 <? m) && leapyear then 1 else 0) + d =? n + 1.

(** The checks of [argument_validation] that read neither the clock nor the
    file system (lines 63-114), with the two times they produce. *)
Definition checked_times (kwargs : gmap string pyval) : result (datetime * datetime) :=
  let time_range := kwargs_get kwargs "time_range" in
  let? time_start := time_range_item time_range 0 time_range in
  let? time_end := time_range_item time_range 1 VNone in
  let? _ := validate_range "lat_range" 90 (kwargs_get kwargs "lat_range") in
  let? _ := validate_range "long_range" 180 (kwargs_get kwargs "long_range") in
  let? _ := if is_none time_start
            then Raise (StatusException INVALID "Cannot process without a time valued")
            else Ok tt in
  let? time_start := parse_time "time_start" time_start in
  let? time_end :=
    if is_none time_end then Ok None
    else
      let? te := parse_time "time_end" time_end in
      let? later := dt_gt time_start te in
      if later
      then Raise (StatusException INVALID "time_start must be less than time_end")
      else Ok (Some te) in
  let? time_start := truncate_5min time_start in
  let? time_end :=
    match time_end with
    | Some te => truncate_5min te
    | None => dt_add time_start (1 * us_per_hour)
    end in
  Ok (time_start, time_end).

(** The test of line 115 against the reading [now] of the clock. *)
Definition checked_age (now time_end : datetime) : result unit :=
  let? limit :=
    dt_add (mk_datetime (year now) (month now) (day now) (hour now) (minute now)
                        (second now) (microsecond now) (Some 0))
           (- (48 * us_per_hour)) in
  let? too_old := dt_lt time_end (replace_tzinfo_none limit) in
  if too_old
  then Raise (StatusException INVALID "Time range must be within the last 48 hours")
  else Ok tt.

(** The checks of the output options (lines 118-139) and the result. *)
Definition checked_outputs (h : Host) (kwargs : gmap string pyval)
    (time_start time_end : datetime) : M validated_args :=
  let! out_format := lift (validate_out_format (kwargs_get kwargs "out_format")) in
  lift (validate_bucket_destination (kwargs_get kwargs "bucket_destination")) ;;
  validate_out h (kwargs_get kwargs "out") ;;
  ret (mk_validated_args (kwargs_get kwargs "lat_range")
         (kwargs_get kwargs "long_range") time_start time_end out_format
         (kwargs_get kwargs "bucket_destination") (kwargs_get kwargs "out")).

(** The host with another clock. *)
Definition with_clock (c : nat -> datetime) (h : Host) : Host :=
  mk_Host (env_INT_API_TOKEN h) (cwd h) c (http_get h) (json_loads h)
          (s3_upload h) (can_makedirs h) (can_write h) (can_open h)
          (precipitation_retriever h).

Definition with_long_range (v : validated_args) (range : pyval) : validated_args :=
  mk_validated_args (va_lat_range v) range (va_time_start v) (va_time_end v)
                    (va_out_format v) (va_bucket_destination v) (va_out v).

(** The outcome of a validation with the accepted longitude range put in
    place. *)
Definition put_long_range (range : pyval) (x : result validated_args * State)
    : result validated_args * State :=
  match x with
  | (Ok v, s') => (Ok (with_long_range v range), s')
  | (Raise e, s') => (Raise e, s')
  end.

(** A range value that is neither [None] nor a list of exactly two items. *)
Definition not_a_pair (range : pyval) : bool :=
  match range with
  | VNone | VList [_; _] => false
  | _ => true
  end.

(** Whether the value of a reading is written as [null]: [np.isnan] of it,
    where that is defined. *)
Definition missing (r : sensor_row) : bool :=
  match np_isnan (valore r) with
  | Ok b => b
  | Raise _ => false
  end.

(** A list or a tuple: NumPy reads it as an array. *)
Definition is_sequence (v : pyval) : bool :=
  match v with
  | VList _ | VTuple _ => true
  | _ => false
  end.

(** A value that is no sequence and on which [np.isnan] is not defined:
    [None], a string, a dictionary, a class, an integer that fits neither
    [int64] nor [uint64]. *)
Definition no_number (v : pyval) : bool :=
  match v with
  | VNone | VStr _ | VDict _ | VClass _ => true
  | VInt z => negb ((- 2 ^ 63 <=? z) && (z <? 2 ^ 64))
  | VBool _ | VFloat _ | VList _ | VTuple _ => false
  end.



(** What a run uploads: the file of the collection, when there is a
    bucket. *)
Definition uploaded (bucket : pyval) (fp : string) : list (string * string) :=
  match bucket with
  | VStr b => [(fp, bucket_uri b fp)]
  | _ => []
  end.

(** The host whose object store refuses every upload. *)
Definition store_down (h : Host) : Host :=
  mk_Host (env_INT_API_TOKEN h) (cwd h) (clock h) (http_get h) (json_loads h)
          (fun _ _ => false) (can_makedirs h) (can_write h) (can_open h)
          (precipitation_retriever h).

(** The host on which no write succeeds; [opens] tells whether the files
    can still be opened for writing. *)
Definition write_fails (opens : bool) (h : Host) : Host :=
  mk_Host (env_INT_API_TOKEN h) (cwd h) (clock h) (http_get h) (json_loads h)
          (s3_upload h) (can_makedirs h) (fun _ => false) (fun _ => opens)
          (precipitation_retriever h).

(** * Properties *)

(** ** Facts about the monad *)

Lemma bind_ok_inv {A B} (m : M A) (k : A -> M B) s b s' :
  bind m k s = (Ok b, s') ->
  exists a s1, m s = (Ok a, s1) /\ k a s1 = (Ok b, s').
Proof.
  unfold bind. destruct (m s) as [[a|e] s1]; intros H.
  - exists a, s1. split; [reflexivity | exact H].
  - discriminate.
Qed.

Lemma bind_ok {A B} (m : M A) (k : A -> M B) s a s1 :
  m s = (Ok a, s1) -> bind m k s = k a s1.
Proof. unfold bind. intros ->. reflexivity. Qed.

Lemma bind_raise {A B} (m : M A) (k : A -> M B) s e s1 :
  m s = (Raise e, s1) -> bind m k s = (Raise e, s1).
Proof. unfold bind. intros ->. reflexivity. Qed.

Lemma lift_ok_inv {A} (r : result A) s a s' :
  lift r s = (Ok a, s') -> r = Ok a /\ s' = s.
Proof. unfold lift. intros H. inversion H. auto. Qed.

Lemma raise_if_ok_inv c e s u s' :
  raise_if c e s = (Ok u, s') -> c = false /\ s' = s.
Proof.
  unfold raise_if, raise, ret. destruct c; intros H; inversion H. auto.
Qed.

Lemma ret_ok_inv {A} (a b : A) s s' :
  ret a s = (Ok b, s') -> a = b /\ s' = s.
Proof. unfold ret. intros H. inversion H. auto. Qed.

(** ** Comparison of numbers *)

Lemma float_cmp_antisym a b :
  float_cmp b a = option_map CompOpp (float_cmp a b).
Proof.
  destruct a as [|na|x], b as [|nb|y]; simpl; try reflexivity.
  - destruct na, nb; reflexivity.
  - destruct na; reflexivity.
  - destruct nb; reflexivity.
  - f_equal. symmetry. apply Qcompare_antisym.
Qed.

Lemma num_le_not_gt a b : num_le a b = true -> num_gt a b = false.
Proof.
  unfold num_le, num_gt, float_le, float_gt.
  destruct (num_of a), (num_of b); try discriminate.
  destruct (float_cmp p p0) as [[]|]; congruence.
Qed.

Lemma num_le_not_lt a b : num_le a b = true -> num_lt b a = false.
Proof.
  unfold num_le, num_lt, float_le, float_lt.
  destruct (num_of a) as [x|], (num_of b) as [y|]; try discriminate.
  rewrite (float_cmp_antisym x y).
  destruct (float_cmp x y) as [[]|]; simpl; congruence.
Qed.

Lemma kwargs_get_insert (kw : gmap string pyval) k v :
  kwargs_get (<[ k := v ]> kw) k = v.
Proof. unfold kwargs_get. rewrite lookup_insert_eq. reflexivity. Qed.

Lemma kwargs_get_insert_ne (kw : gmap string pyval) k k' v :
  k <> k' -> kwargs_get (<[ k := v ]> kw) k' = kwargs_get kw k'.
Proof.
  intros H. unfold kwargs_get. rewrite lookup_insert_ne by exact H. reflexivity.
Qed.

Lemma in_domain_not_out bound x :
  in_domain bound x = true -> out_of_domain bound x = false.
Proof.
  unfold in_domain, out_of_domain. intros H.
  apply andb_true_iff in H as [H1 H2].
  rewrite (num_le_not_lt _ _ H1), (num_le_not_gt _ _ H2). reflexivity.
Qed.

Lemma validate_range_ok label bound a b :
  is_int_or_float a = true -> is_int_or_float b = true ->
  in_domain bound a = true -> in_domain bound b = true -> num_le a b = true ->
  validate_range label bound (VList [a; b]) = Ok tt.
Proof.
  intros Ta Tb Da Db Hab. unfold validate_range. rewrite Ta, Tb. simpl.
  apply in_domain_not_out in Da, Db. unfold out_of_domain in Da, Db.
  apply orb_false_iff in Da as [-> ->]. apply orb_false_iff in Db as [-> ->].
  simpl. rewrite (num_le_not_gt _ _ Hab). reflexivity.
Qed.

Lemma validate_range_bad label bound a b :
  is_int_or_float a = true -> is_int_or_float b = true ->
  num_gt a b = true \/ out_of_domain bound a = true \/ out_of_domain bound b = true ->
  exists msg,
    validate_range label bound (VList [a; b]) = Raise (StatusException INVALID msg).
Proof.
  intros Ta Tb H. unfold validate_range, invalid. rewrite Ta, Tb. simpl.
  unfold out_of_domain in H.
  destruct (num_lt a (VInt (- bound)) || num_gt a (VInt bound)
            || num_lt b (VInt (- bound)) || num_gt b (VInt bound)) eqn:E.
  - eexists. reflexivity.
  - apply orb_false_iff in E as [E E4]. apply orb_false_iff in E as [E E3].
    apply orb_false_iff in E as [E1 E2].
    rewrite E1, E2, E3, E4 in H. simpl in H.
    destruct H as [H | [H | H]]; try discriminate.
    rewrite H. eexists. reflexivity.
Qed.

Lemma bind_put_lat_range {A} range (m : M A) (k1 k2 : A -> M validated_args) s :
  (forall a s1, k1 a s1 = put_lat_range range (k2 a s1)) ->
  bind m k1 s = put_lat_range range (bind m k2 s).
Proof.
  intros H. unfold bind. destruct (m s) as [[a|e] s1]; [apply H | reflexivity].
Qed.

Lemma kwargs_get_delete (kw : gmap string pyval) k :
  kwargs_get (delete k kw) k = VNone.
Proof. unfold kwargs_get. rewrite lookup_delete_eq. reflexivity. Qed.

Lemma kwargs_get_delete_ne (kw : gmap string pyval) k k' :
  k <> k' -> kwargs_get (delete k kw) k' = kwargs_get kw k'.
Proof.
  intros H. unfold kwargs_get. rewrite lookup_delete_ne by exact H. reflexivity.
Qed.

Lemma argument_validation_lat_independent h (kwargs : gmap string pyval) range s :
  validate_range "lat_range" 90 range = Ok tt ->
  argument_validation h (<[ "lat_range" := range ]> kwargs) s =
  put_lat_range range (argument_validation h (delete "lat_range" kwargs) s).
Proof.
  intros Hok. unfold argument_validation.
  rewrite kwargs_get_insert, kwargs_get_delete.
  rewrite !kwargs_get_insert_ne by discriminate.
  rewrite !kwargs_get_delete_ne by discriminate.
  rewrite Hok. simpl (validate_range _ _ VNone).
  repeat (apply bind_put_lat_range; intros ? ?).
  reflexivity.
Qed.

Lemma argument_validation_lat_rejected h (kwargs : gmap string pyval) range s ts te e :
  time_range_item (kwargs_get kwargs "time_range") 0
                  (kwargs_get kwargs "time_range") = Ok ts ->
  time_range_item (kwargs_get kwargs "time_range") 1 VNone = Ok te ->
  validate_range "lat_range" 90 range = Raise e ->
  argument_validation h (<[ "lat_range" := range ]> kwargs) s = (Raise e, s).
Proof.
  intros Hs He Hr. unfold argument_validation.
  rewrite kwargs_get_insert.
  rewrite !kwargs_get_insert_ne by discriminate.
  rewrite Hs, He, Hr. reflexivity.
Qed.

(** C8, at the failing input. The request has an inverted [lat_range] and
    a [time_range] list of one string. Line 67 reads [time_range[1]] before
    any range is checked and raises [IndexError]: the check of line 79,
    which would raise [StatusException INVALID], is never reached, and
    [run] reports the [IndexError] with status [ERROR]. Besides, a NaN
    bound lies outside [[-90, 90]] and passes every test of lines 77-80:
    the range [[nan, nan]] is accepted and returned. *)
Theorem lat_range_check_preempted :
  argument_validation (Example.world Example.noon 1 Example.service_ok)
    (<[ "lat_range" := VList [VInt 10; VInt 5] ]>
       (<[ "time_range" := VList [VStr "2025-07-23T10:02:00"] ]> ∅))
    (initial_state ∅)
  = (Raise (IndexError "list index out of range"), initial_state ∅)
  /\ validate_range "lat_range" 90 (VList [VInt 10; VInt 5])
     = Raise (StatusException INVALID "lat_range[0] must be less than lat_range[1]")
  /\ run (Example.world Example.noon 1 Example.service_ok)
         (VList [VInt 10; VInt 5]) VNone (VList [VStr "2025-07-23T10:02:00"])
         VNone VNone VNone (initial_state ∅)
     = (Raise (StatusException ERROR
                 "An error occurred while running the ARPAV Retriever: list index out of range"),
        initial_state ∅)
  /\ exists v s',
       argument_validation (Example.world Example.noon 1 Example.service_ok)
         (<[ "lat_range" := VList [nan; nan] ]>
            (<[ "time_range" := Example.window ]> ∅))
         (initial_state ∅)
       = (Ok v, s')
       /\ va_lat_range v = VList [nan; nan].
Proof.
  split; [vm_compute; reflexivity |].
  split; [vm_compute; reflexivity |].
  split; [vm_compute; reflexivity |].
  eexists _, _. split; [vm_compute; reflexivity | reflexivity].
Qed.

(** Inversion of a successful run of monadic code, step by step. *)
Ltac inv_monad :=
  repeat match goal with
  | H : bind _ _ _ = (Ok _, _) |- _ =>
      let H1 := fresh "Hstep" in
      apply bind_ok_inv in H as (? & ? & H1 & H)
  | H : lift _ _ = (Ok _, _) |- _ => apply lift_ok_inv in H as [H ?]; subst
  | H : raise_if _ _ _ = (Ok _, _) |- _ =>
      apply raise_if_ok_inv in H as [H ?]; subst
  | H : ret _ _ = (Ok _, _) |- _ => apply ret_ok_inv in H as [? ?]; subst
  end.

Lemma truncate_5min_eq t t' : truncate_5min t = Ok t' -> t' = truncated t.
Proof.
  unfold truncate_5min, replace_time, new_datetime, truncated.
  destruct (valid_fields _ _ _ _ _ _ _); intros H; inversion H. reflexivity.
Qed.

Lemma truncate_5min_idempotent t t' :
  truncate_5min t = Ok t' -> truncate_5min t' = Ok t'.
Proof.
  intros H. pose proof (truncate_5min_eq _ _ H) as ->.
  unfold truncate_5min, replace_time, new_datetime, truncated in *. simpl.
  rewrite Z.div_mul by lia.
  destruct (valid_fields _ _ _ _ _ _ _); [reflexivity | discriminate].
Qed.

Lemma truncate_5min_aligned t :
  valid_datetime t = true ->
  minute t mod 5 = 0 -> second t = 0 -> microsecond t = 0 ->
  truncate_5min t = Ok t.
Proof.
  intros Hv Hm Hs Hu. unfold truncate_5min, replace_time, new_datetime.
  assert (E : minute t / 5 * 5 = minute t).
  { pose proof (Z.div_mod (minute t) 5). lia. }
  rewrite E. unfold valid_datetime in Hv. rewrite Hs, Hu in Hv. rewrite Hv.
  destruct t; simpl in *; subst; reflexivity.
Qed.

(** What a successful validation says about its two times. *)
Lemma argument_validation_times h (kwargs : gmap string pyval) s v s' :
  argument_validation h kwargs s = (Ok v, s') ->
  let time_range := kwargs_get kwargs "time_range" in
  exists raw_start raw_end t0,
    time_range_item time_range 0 time_range = Ok raw_start
    /\ time_range_item time_range 1 VNone = Ok raw_end
    /\ parse_time "time_start" raw_start = Ok t0
    /\ truncate_5min t0 = Ok (va_time_start v)
    /\ (if is_none raw_end
        then dt_add (va_time_start v) (1 * us_per_hour) = Ok (va_time_end v)
        else exists t1, parse_time "time_end" raw_end = Ok t1
                        /\ dt_gt t0 t1 = Ok false
                        /\ truncate_5min t1 = Ok (va_time_end v)).
Proof.
  intros H. cbv zeta. unfold argument_validation in H.
  inv_monad.
  match goal with
  | H1 : time_range_item _ 0 _ = Ok ?rs, H2 : time_range_item _ 1 _ = Ok ?re,
    H3 : parse_time "time_start" ?rs = Ok ?t0 |- _ =>
      exists rs, re, t0; destruct (is_none re) eqn:En
  end; inv_monad; simpl; repeat split; eauto.
Qed.

(** C4. Every time that [argument_validation] returns from a given
    boundary is the parsed boundary with its minute mapped to
    [(minute // 5) * 5] and its seconds and microseconds zeroed; the
    truncation is idempotent and returns an aligned timestamp unchanged;
    and the window 10:02:00 to 10:58:00 of 2025-07-23 validates to 10:00:00
    through 10:55:00. *)
Theorem time_truncation :
  (forall h (kwargs : gmap string pyval) s v s',
     argument_validation h kwargs s = (Ok v, s') ->
     exists raw_start raw_end t0,
       time_range_item (kwargs_get kwargs "time_range") 0
                       (kwargs_get kwargs "time_range") = Ok raw_start
       /\ time_range_item (kwargs_get kwargs "time_range") 1 VNone = Ok raw_end
       /\ parse_time "time_start" raw_start = Ok t0
       /\ va_time_start v = truncated t0
       /\ (is_none raw_end = false ->
           exists t1, parse_time "time_end" raw_end = Ok t1
                      /\ va_time_end v = truncated t1))
  /\ (forall t t', truncate_5min t = Ok t' ->
        t' = truncated t /\ truncate_5min t' = Ok t')
  /\ (forall t, valid_datetime t = true ->
        minute t mod 5 = 0 -> second t = 0 -> microsecond t = 0 ->
        truncate_5min t = Ok t)
  /\ (forall h (kwargs : gmap string pyval) s v s',
        kwargs_get kwargs "time_range"
          = VList [VStr "2025-07-23T10:02:00"; VStr "2025-07-23T10:58:00"] ->
        argument_validation h kwargs s = (Ok v, s') ->
        va_time_start v = mk_datetime 2025 7 23 10 0 0 0 None
        /\ va_time_end v = mk_datetime 2025 7 23 10 55 0 0 None)
  /\ (exists v s',
        argument_validation (Example.world Example.noon 1 Example.service_ok)
          (<[ "time_range" := Example.window ]> ∅) (initial_state ∅) = (Ok v, s')
        /\ isoformat (va_time_start v) = "2025-07-23T10:00:00"
        /\ isoformat (va_time_end v) = "2025-07-23T10:55:00").
Proof.
  split; [| split; [| split; [| split]]].
  - intros h kwargs s v s' H.
    destruct (argument_validation_times _ _ _ _ _ H)
      as (rs & re & t0 & H1 & H2 & H3 & H4 & H5).
    exists rs, re, t0. repeat split; try assumption.
    + apply truncate_5min_eq. exact H4.
    + intros Hn. rewrite Hn in H5. destruct H5 as (t1 & P1 & _ & P2).
      exists t1. split; [exact P1 | apply truncate_5min_eq; exact P2].
  - intros t t' H. split.
    + apply truncate_5min_eq. exact H.
    + eapply truncate_5min_idempotent. exact H.
  - apply truncate_5min_aligned.
  - intros h kwargs s v s' Hw H.
    destruct (argument_validation_times _ _ _ _ _ H)
      as (rs & re & t0 & H1 & H2 & H3 & H4 & H5).
    rewrite Hw in H1, H2. simpl in H1, H2.
    inversion H1; subst rs. inversion H2; subst re. simpl in H5.
    destruct H5 as (t1 & P1 & _ & P2).
    vm_compute in H3. inversion H3; subst t0.
    vm_compute in P1. inversion P1; subst t1.
    apply truncate_5min_eq in H4, P2. rewrite H4, P2. split; reflexivity.
  - eexists _, _. split; [vm_compute; reflexivity | split; vm_compute; reflexivity].
Qed.

Lemma time_truncation_witness :
  truncate_5min (mk_datetime 2025 7 23 10 55 0 0 None)
    = Ok (mk_datetime 2025 7 23 10 55 0 0 None)
  /\ truncate_5min (truncated (mk_datetime 2025 7 23 10 58 31 250 None))
     = Ok (truncated (mk_datetime 2025 7 23 10 58 31 250 None)).
Proof.
  split.
  - apply (proj1 (proj2 (proj2 time_truncation))); reflexivity.
  - apply (proj1 (proj2 time_truncation) (mk_datetime 2025 7 23 10 58 31 250 None)).
    reflexivity.
Defined.

(** C6. [extract_level] returns a value for every payload and every
    behaviour of [json.loads]: the value under [LIVELLO] when the payload
    decodes to a dictionary that has the key, and NaN in every other case
    (the decoder raises, the result is no dictionary, the key is missing);
    so a row is never lost to its [valore]: [build_row] can only fail on
    its timestamp. *)
Theorem extract_level_never_raises (h : Host) (level : pyval) :
  (exists v, extract_level h level = Ok v)
  /\ (forall e, json_loads h level = Raise e -> extract_level h level = Ok nan)
  /\ (forall obj, json_loads h level = Ok obj ->
        (forall d, obj <> VDict d) -> extract_level h level = Ok nan)
  /\ (forall d, json_loads h level = Ok (VDict d) ->
        extract_level h level = Ok (default nan (dict_lookup d "LIVELLO")))
  /\ (forall r e, build_row h r = Raise e -> fromisoformat (dataora r) = Raise e).
Proof.
  unfold extract_level, py_get, dict_lookup.
  split; [| split; [| split; [| split]]].
  - destruct (json_loads h level) as [obj|e]; simpl; [| eauto].
    destruct obj; simpl; eauto.
  - intros e ->. reflexivity.
  - intros obj -> Hd. destruct obj; simpl; try reflexivity.
    exfalso. eapply Hd. reflexivity.
  - intros d ->. simpl. destruct (List.find _ d); reflexivity.
  - intros r e. unfold build_row, extract_level, py_get.
    destruct (fromisoformat (dataora r)) as [dt|e']; simpl; [| congruence].
    destruct (json_loads h (raw_valore r)) as [obj|e'']; simpl; [| discriminate].
    destruct obj; simpl; discriminate.
Qed.

Lemma extract_level_never_raises_witness :
  extract_level (Example.world Example.noon 1 Example.service_ok)
                (Example.livello "1.25")
  = Ok (VFloat (FFin (125 # 100)))
  /\ extract_level (Example.world Example.noon 1 Example.service_ok) (VStr "n/a")
     = Ok nan.
Proof.
  split.
  - apply (proj1 (proj2 (proj2 (proj2
             (extract_level_never_raises
                (Example.world Example.noon 1 Example.service_ok)
                (Example.livello "1.25")))))
           [("LIVELLO", VFloat (FFin (125 # 100)))]).
    vm_compute. reflexivity.
  - apply (proj1 (proj2
             (extract_level_never_raises
                (Example.world Example.noon 1 Example.service_ok) (VStr "n/a")))
           (ValueError "Expecting value")).
    vm_compute. reflexivity.
Defined.

(** ** The encoder on one station *)

Lemma string_compare_refl (k : string) : String.compare k k = Eq.
Proof.
  destruct (String.compare k k) eqn:E; [reflexivity | |];
    pose proof (String.compare_antisym k k) as H; rewrite E in H; discriminate.
Qed.

Lemma groupby_one_station (r1 r2 : sensor_row) :
  codice_stazione (columns r1) = codice_stazione (columns r2) ->
  groupby [r1; r2] = [[r1; r2]].
Proof.
  intros E. unfold groupby, group_keys, group_rows. simpl.
  rewrite E, string_compare_refl. simpl.
  rewrite ?E, !String.eqb_refl. reflexivity.
Qed.

(** C7, as amended. A frame of one station with two readings whose values
    are numbers ([np.isnan] is defined on them, NaN included) encodes to a
    collection with exactly one Feature, and its [water_level] property,
    read back, is the list of the two pairs [[isoformat-timestamp, value]]
    in the order of the rows, a NaN value written as null. *)
Theorem one_station_round_trip (r1 r2 : sensor_row) (nan1 nan2 : bool) :
  codice_stazione (columns r1) = codice_stazione (columns r2) ->
  np_isnan (valore r1) = Ok nan1 ->
  np_isnan (valore r2) = Ok nan2 ->
  exists ft,
    data_to_feature_collection [r1; r2]
      = Ok (mk_feature_collection [ft] build_metadata build_crs)
    /\ dict_lookup (properties ft) "water_level"
       = Some (VList [series_pair r1 nan1; series_pair r2 nan2])
    /\ (nan1 = true <-> valore r1 = nan)
    /\ (nan2 = true <-> valore r2 = nan).
Proof.
  intros E H1 H2. unfold data_to_feature_collection.
  rewrite (groupby_one_station _ _ E). simpl.
  unfold feature_of_group. simpl. unfold series_entry. rewrite H1, H2. simpl.
  eexists. split; [reflexivity |]. split; [reflexivity |].
  unfold np_isnan, nan in *.
  split.
  - destruct (valore r1) as [| | z |[| |]| | | | |]; simpl in *;
      try destruct ((- 2 ^ 63 <=? z) && (z <? 2 ^ 64));
      inversion H1; subst; split; congruence.
  - destruct (valore r2) as [| | z |[| |]| | | | |]; simpl in *;
      try destruct ((- 2 ^ 63 <=? z) && (z <? 2 ^ 64));
      inversion H2; subst; split; congruence.
Qed.

Lemma one_station_round_trip_witness :
  exists ft,
    data_to_feature_collection
      [Example.reading_83 Example.at_10_05 (VFloat (FFin (125 # 100)));
       Example.reading_83 Example.at_10_10 nan]
      = Ok (mk_feature_collection [ft] build_metadata build_crs)
    /\ dict_lookup (properties ft) "water_level"
       = Some (VList [VList [VStr "2025-07-23T10:05:00"; VFloat (FFin (125 # 100))];
                      VList [VStr "2025-07-23T10:10:00"; VNone]]).
Proof.
  destruct (one_station_round_trip
              (Example.reading_83 Example.at_10_05 (VFloat (FFin (125 # 100))))
              (Example.reading_83 Example.at_10_10 nan)
              false true eq_refl eq_refl eq_refl) as (ft & H1 & H2 & _).
  exists ft. split; [exact H1 | exact H2].
Defined.

(** A frame of one station with two readings, the first of which decoded
    to a string, is not encoded: [np.isnan] rejects the string. *)
Lemma one_station_round_trip_counterexample :
  data_to_feature_collection
    [Example.reading_83 Example.at_10_05 (VStr "1.25");
     Example.reading_83 Example.at_10_10 (VFloat (FFin (131 # 100)))]
  = Raise (TypeError "ufunc 'isnan' not supported for the input types").
Proof. reflexivity. Qed.

(** ** The processor *)

Section ProcessorFacts.

Import ARPAVRetrieverProcessor.

Lemma differs_from_false token expected :
  differs_from token expected = false <-> token = VStr expected.
Proof.
  unfold differs_from. split.
  - destruct token; try discriminate. intros H.
    apply negb_false_iff, String.eqb_eq in H. congruence.
  - intros ->. rewrite String.eqb_refl. reflexivity.
Qed.

(** The processor's validation never returns: it ends with one of its
    rejections or, for a request that passes them, with the [TypeError] of
    [os.path.exists] on the class it has just stored in
    [_tmp_data_folder]. Only [debug] can have changed the state. *)
Lemma processor_validation_outcomes h (data : gmap string pyval) s :
  exists s',
    ARPAVRetrieverProcessor.argument_validation h data s
    = (Raise (processor_rejection h data), s')
    /\ dirs s' = dirs s /\ files s' = files s
    /\ (self_tmp_data_folder s' = self_tmp_data_folder s
        \/ exists c, self_tmp_data_folder s' = VClass c).
Proof.
  unfold ARPAVRetrieverProcessor.argument_validation, processor_rejection.
  unfold bind, raise_if, raise, ret, lift, modify.
  destruct (is_none (kwargs_get data "token")
            || differs_from (kwargs_get data "token") (expected_token h));
    [eexists; split; [reflexivity | simpl; repeat split; eauto] |].
  destruct (default (VBool false) (data !! "debug")) as [|dbg| | | | | | |];
    try (eexists; split; [reflexivity | simpl; repeat split; eauto]).
  destruct (kwargs_get data "variable") as [| | | |v|l|l|d|c] eqn:Ev;
    destruct dbg; simpl;
    try solve [eexists; split; [reflexivity | simpl; repeat split; eauto]].
  all: unfold registered, registered_class; simpl.
  all: unfold _ARPAV_RETRIEVERS.
  all: repeat match goal with
              | |- context [String.eqb ?a ?b] => destruct (String.eqb a b)
              | |- context [forallb ?f ?l] => destruct (forallb f l)
              end; simpl.
  all: eexists; (split; [reflexivity | simpl; repeat split; eauto]).
Qed.

(** C10. The processor's validation raises [StatusException DENIED] exactly
    when the token of the request is missing ([None]) or is not the string
    that [os.getenv("INT_API_TOKEN", "token")] returns; with the variable
    unset that string is the literal [token], so the token [token] is not
    denied. *)
Theorem access_check (h : Host) (data : gmap string pyval) (s : State) :
  ((exists msg s',
      ARPAVRetrieverProcessor.argument_validation h data s
      = (Raise (StatusException DENIED msg), s'))
   <-> (kwargs_get data "token" = VNone
        \/ kwargs_get data "token" <> VStr (expected_token h)))
  /\ expected_token h = default "token" (env_INT_API_TOKEN h)
  /\ (env_INT_API_TOKEN h = None ->
      kwargs_get data "token" = VStr "token" ->
      forall msg s',
        ARPAVRetrieverProcessor.argument_validation h data s
        <> (Raise (StatusException DENIED msg), s')).
Proof.
  assert (Hiff :
    (exists msg s',
      ARPAVRetrieverProcessor.argument_validation h data s
      = (Raise (StatusException DENIED msg), s'))
    <-> (kwargs_get data "token" = VNone
         \/ kwargs_get data "token" <> VStr (expected_token h))).
  { destruct (processor_validation_outcomes h data s) as (s1 & Hout & _).
    rewrite Hout. clear Hout. unfold processor_rejection.
    destruct (differs_from (kwargs_get data "token") (expected_token h)) eqn:Ed.
    - rewrite orb_true_r. split.
      + intros _. right. intros Heq. apply differs_from_false in Heq. congruence.
      + intros _. eexists _, _. reflexivity.
    - apply differs_from_false in Ed. rewrite Ed. simpl. split.
      + intros (msg & s' & H). exfalso.
        destruct (default (VBool false) (data !! "debug")); try discriminate.
        destruct (is_none (kwargs_get data "variable")); try discriminate.
        destruct (registered (kwargs_get data "variable")) as [[|]|e] eqn:Er;
          try discriminate.
        unfold registered in Er.
        destruct (hashable (kwargs_get data "variable")); inversion Er; subst.
        inversion H.
      + intros [H | H]; [discriminate | congruence]. }
  split; [exact Hiff |]. split; [reflexivity |].
  intros Henv Htok msg s' H.
  assert (Hd : exists msg s',
      ARPAVRetrieverProcessor.argument_validation h data s
      = (Raise (StatusException DENIED msg), s')) by eauto.
  apply Hiff in Hd. unfold expected_token in Hd. rewrite Henv in Hd. simpl in Hd.
  rewrite Htok in Hd. destruct Hd as [Hd | Hd]; [discriminate | congruence].
Qed.

Lemma access_check_witness :
  exists msg s',
    ARPAVRetrieverProcessor.argument_validation
      (Example.world Example.noon 1 Example.service_ok)
      (<[ "token" := VStr "guess" ]> (<[ "variable" := VStr "water_level" ]> ∅))
      (initial_state ∅)
    = (Raise (StatusException DENIED msg), s').
Proof.
  apply (proj1 (access_check
                  (Example.world Example.noon 1 Example.service_ok)
                  (<[ "token" := VStr "guess" ]>
                     (<[ "variable" := VStr "water_level" ]> ∅))
                  (initial_state ∅))).
  right. vm_compute. discriminate.
Defined.

(** What [execute] makes of the end of the validation: a payload for a
    [StatusException], a [ProcessorExecuteError] for anything else. *)
Lemma execute_outcome h (data : gmap string pyval) s :
  fst (ARPAVRetrieverProcessor.execute h data s)
  = match processor_rejection h data with
    | StatusException st msg => Ok (mimetype, StatusPayload st msg)
    | e => Raise (ProcessorExecuteError (exn_str e))
    end.
Proof.
  destruct (processor_validation_outcomes h data s) as (s1 & Hout & _ & _ & Hf).
  unfold execute, execute_body, try_except.
  unfold bind at 1. unfold bind at 1. rewrite Hout.
  destruct (processor_rejection h data) as [st msg|c msg|msg]; simpl;
    try reflexivity.
  unfold bind, ret, garbage_folders.
  destruct (self_tmp_data_folder s1); reflexivity.
Qed.

(** No request gets [execute] past the validation of the processor: it
    returns the payload of a rejection, [DENIED] or [INVALID], or raises
    [ProcessorExecuteError]. *)
Lemma execute_never_runs h (data : gmap string pyval) s :
  (exists st msg,
     fst (ARPAVRetrieverProcessor.execute h data s)
     = Ok (mimetype, StatusPayload st msg)
     /\ (st = DENIED \/ st = INVALID))
  \/ exists msg,
       fst (ARPAVRetrieverProcessor.execute h data s)
       = Raise (ProcessorExecuteError msg).
Proof.
  rewrite execute_outcome. unfold processor_rejection.
  destruct (is_none (kwargs_get data "token") || _); [left; eauto |].
  destruct (default (VBool false) (data !! "debug"));
    try (left; eexists _, _; split; [reflexivity | auto]).
  destruct (is_none (kwargs_get data "variable"));
    [left; eexists _, _; split; [reflexivity | auto] |].
  unfold registered.
  destruct (hashable (kwargs_get data "variable")); [| right; eauto].
  destruct (kwargs_get data "variable") as [| | | |v| | | |];
    try (left; eexists _, _; split; [reflexivity | auto]).
  destruct (_ARPAV_RETRIEVERS v);
    [right; eauto | left; eexists _, _; split; [reflexivity | auto]].
Qed.

(** C1, at the failing input. [execute] does not answer the inverted
    latitude range with a payload of status [INVALID]: the validation of the
    processor ends in a [TypeError], which is re-raised as
    [ProcessorExecuteError]; and [run] on the same request reports the
    rejection of its own validation under the status [ERROR]. *)
Theorem execute_inverted_lat_range :
  fst (ARPAVRetrieverProcessor.execute
         (Example.world Example.noon 1 Example.service_ok)
         inverted_lat_request (initial_state ∅))
  = Raise (ProcessorExecuteError
             "stat: path should be string, bytes, os.PathLike or integer")
  /\ fst (run_data (Example.world Example.noon 1 Example.service_ok)
                   inverted_lat_request (initial_state ∅))
     = Raise (StatusException ERROR
                "An error occurred while running the ARPAV Retriever: lat_range[0] must be less than lat_range[1]").
Proof. split; vm_compute; reflexivity. Qed.

End ProcessorFacts.

(** ** The hour buckets *)

Lemma py_range_length a b : length (py_range a b) = Z.to_nat (b - a).
Proof. unfold py_range. rewrite length_map, length_seq. reflexivity. Qed.

Lemma py_range_lookup a b (i : nat) :
  (i < Z.to_nat (b - a))%nat -> py_range a b !! i = Some (a + Z.of_nat i).
Proof.
  intros Hi. unfold py_range. rewrite list_lookup_fmap.
  rewrite lookup_seq_lt by exact Hi. reflexivity.
Qed.

Lemma py_range_lookup_inv a b (i : nat) x :
  py_range a b !! i = Some x -> x = a + Z.of_nat i /\ a <= x < b.
Proof.
  intros H. pose proof (lookup_lt_Some _ _ _ H) as Hl.
  rewrite py_range_length in Hl.
  rewrite py_range_lookup in H by exact Hl. inversion H. lia.
Qed.

Lemma py_range_single a : py_range a (a + 1) = [a].
Proof.
  unfold py_range. replace (a + 1 - a) with 1 by lia. simpl.
  f_equal. lia.
Qed.

Lemma py_range_empty a b : b <= a -> py_range a b = [].
Proof.
  intros H. unfold py_range. replace (Z.to_nat (b - a)) with 0%nat by lia.
  reflexivity.
Qed.

(** ** The rounding of [total_seconds] *)

Lemma round_half_even_near n d :
  0 < d ->
  n / d <= round_half_even n d <= n / d + 1
  /\ - d <= 2 * (round_half_even n d * d - n) <= d.
Proof.
  intros Hd. unfold round_half_even.
  pose proof (Z.div_mod n d ltac:(lia)) as E.
  pose proof (Z.mod_pos_bound n d Hd) as B.
  destruct (2 * (n mod d) ?= d) eqn:C.
  - apply Z.compare_eq in C. destruct (Z.even (n / d)); nia.
  - apply -> Z.compare_lt_iff in C. nia.
  - apply -> Z.compare_gt_iff in C. nia.
Qed.

Lemma round_half_even_mono n1 n2 d :
  0 < d -> n1 <= n2 -> round_half_even n1 d <= round_half_even n2 d.
Proof.
  intros Hd Hn.
  pose proof (Z.div_le_mono n1 n2 d Hd Hn) as Hq.
  destruct (Z.eq_dec (n1 / d) (n2 / d)) as [Eq|Ne].
  - pose proof (Z.div_mod n1 d ltac:(lia)) as E1.
    pose proof (Z.div_mod n2 d ltac:(lia)) as E2.
    assert (Hr : n1 mod d <= n2 mod d) by nia.
    unfold round_half_even. rewrite Eq.
    destruct (2 * (n1 mod d) ?= d) eqn:C1;
      destruct (2 * (n2 mod d) ?= d) eqn:C2;
      try apply Z.compare_eq in C1; try apply Z.compare_eq in C2;
      try apply -> Z.compare_lt_iff in C1; try apply -> Z.compare_lt_iff in C2;
      try apply -> Z.compare_gt_iff in C1; try apply -> Z.compare_gt_iff in C2;
      destruct (Z.even (n2 / d)); lia.
  - pose proof (round_half_even_near n1 d Hd) as [[_ H1] _].
    pose proof (round_half_even_near n2 d Hd) as [[H2 _] _].
    lia.
Qed.

Lemma exponent72_spec a :
  0 < a ->
  0 <= exponent72 a
  /\ 2 ^ exponent72 a * us_per_second <= a * 2 ^ 20
     < 2 ^ (exponent72 a + 1) * us_per_second.
Proof.
  intros Ha. unfold exponent72.
  assert (Hx : 0 < a * 2 ^ 20 / us_per_second).
  { apply Z.div_str_pos. unfold us_per_second. change (2 ^ 20) with 1048576. lia. }
  pose proof (Z.log2_spec _ Hx) as [L1 L2].
  pose proof (Z.log2_nonneg (a * 2 ^ 20 / us_per_second)) as L0.
  pose proof (Z.div_mod (a * 2 ^ 20) us_per_second ltac:(discriminate)) as E.
  pose proof (Z.mod_pos_bound (a * 2 ^ 20) us_per_second ltac:(reflexivity)) as B.
  rewrite <- Z.add_1_r in L2.
  set (x := a * 2 ^ 20 / us_per_second) in *.
  set (l := Z.log2 x) in *.
  unfold us_per_second in *. split; [exact L0 |]. nia.
Qed.

Lemma exponent72_mono a b : 0 < a -> a <= b -> exponent72 a <= exponent72 b.
Proof.
  intros Ha Hab. unfold exponent72. apply Z.log2_le_mono.
  apply Z.div_le_mono; [reflexivity |]. change (2 ^ 20) with 1048576. lia.
Qed.

(** The mantissa has 53 bits (or is [2 ^ 53], when the rounding carries). *)
Lemma mantissa_of_bounds a :
  0 < a -> 2 ^ 52 <= mantissa_of a <= 2 ^ 53.
Proof.
  intros Ha. destruct (exponent72_spec a Ha) as (L0 & L1 & L2).
  unfold mantissa_of. set (l := exponent72 a) in *.
  assert (HD : 0 < us_per_second * 2 ^ Z.max 0 (l - 72)).
  { apply Z.mul_pos_pos; [reflexivity |]. apply Z.pow_pos_nonneg; lia. }
  assert (HN : 2 ^ 52 * (us_per_second * 2 ^ Z.max 0 (l - 72))
               <= a * 2 ^ Z.max 0 (- (l - 72))
               < 2 ^ 53 * (us_per_second * 2 ^ Z.max 0 (l - 72))).
  { destruct (Z.le_gt_cases 72 l) as [Hl|Hl].
    - rewrite (Z.max_r 0 (l - 72)) by lia. rewrite (Z.max_l 0 (- (l - 72))) by lia.
      rewrite Z.pow_0_r, Z.mul_1_r.
      replace (l + 1) with (73 + (l - 72)) in L2 by lia.
      replace l with (72 + (l - 72)) in L1 at 1 by lia.
      rewrite Z.pow_add_r in L1, L2 by lia.
      set (q := 2 ^ (l - 72)) in *.
      change (2 ^ 72) with (2 ^ 52 * 1048576) in L1.
      change (2 ^ 73) with (2 ^ 53 * 1048576) in L2.
      change (2 ^ 20) with 1048576 in L1, L2.
      change (2 ^ 52) with 4503599627370496 in *.
      change (2 ^ 53) with 9007199254740992 in *.
      unfold us_per_second in *. nia.
    - rewrite (Z.max_l 0 (l - 72)) by lia. rewrite (Z.max_r 0 (- (l - 72))) by lia.
      rewrite Z.pow_0_r, Z.mul_1_r.
      assert (P : 2 ^ l * 2 ^ (- (l - 72)) = 2 ^ 72).
      { rewrite <- Z.pow_add_r by lia. f_equal. lia. }
      assert (P1 : 2 ^ (l + 1) * 2 ^ (- (l - 72)) = 2 ^ 73).
      { rewrite <- Z.pow_add_r by lia. f_equal. lia. }
      assert (Pp : 0 < 2 ^ (- (l - 72))) by (apply Z.pow_pos_nonneg; lia).
      set (p := 2 ^ (- (l - 72))) in *.
      set (u := 2 ^ l) in *. set (u1 := 2 ^ (l + 1)) in *.
      change (2 ^ 72) with (4503599627370496 * 1048576) in P.
      change (2 ^ 73) with (9007199254740992 * 1048576) in P1.
      change (2 ^ 20) with 1048576 in L1, L2.
      change (2 ^ 52) with 4503599627370496 in *.
      change (2 ^ 53) with 9007199254740992 in *.
      unfold us_per_second in *. nia. }
  set (D := us_per_second * 2 ^ Z.max 0 (l - 72)) in *.
  set (N := a * 2 ^ Z.max 0 (- (l - 72))) in *.
  pose proof (round_half_even_near N D HD) as [[R1 R2] _].
  assert (2 ^ 52 <= N / D) by (apply Z.div_le_lower_bound; lia).
  assert (N / D < 2 ^ 53) by (apply Z.div_lt_upper_bound; lia).
  lia.
Qed.

Lemma scaled_seconds_mono a b :
  0 < a -> a <= b -> scaled_seconds a <= scaled_seconds b.
Proof.
  intros Ha Hab. unfold scaled_seconds.
  pose proof (exponent72_mono a b Ha Hab) as Hl.
  destruct (exponent72_spec a Ha) as (La & _).
  pose proof (mantissa_of_bounds a Ha) as [_ Ma].
  pose proof (mantissa_of_bounds b ltac:(lia)) as [Mb _].
  destruct (Z.eq_dec (exponent72 a) (exponent72 b)) as [E|E].
  - apply Z.mul_le_mono_nonneg.
    + pose proof (mantissa_of_bounds a Ha) as [M0 _].
      change (2 ^ 52) with 4503599627370496 in M0. lia.
    + unfold mantissa_of. rewrite E.
      apply round_half_even_mono.
      * apply Z.mul_pos_pos; [reflexivity |]. apply Z.pow_pos_nonneg; lia.
      * apply Z.mul_le_mono_nonneg_r; [| exact Hab].
        apply Z.pow_nonneg. lia.
    + apply Z.pow_nonneg. lia.
    + rewrite E. lia.
  - assert (Hlt : exponent72 a + 1 <= exponent72 b) by lia.
    pose proof (Z.pow_le_mono_r 2 _ _ ltac:(lia) Hlt) as Hp.
    rewrite Z.pow_add_r in Hp by lia. change (2 ^ 1) with 2 in Hp.
    assert (Pa : 0 < 2 ^ exponent72 a) by (apply Z.pow_pos_nonneg; lia).
    change (2 ^ 52) with 4503599627370496 in *.
    change (2 ^ 53) with 9007199254740992 in *.
    set (pa := 2 ^ exponent72 a) in *. set (pb := 2 ^ exponent72 b) in *.
    nia.
Qed.

Lemma scaled_seconds_pos a : 0 < a -> 0 < scaled_seconds a.
Proof.
  intros Ha. unfold scaled_seconds.
  destruct (exponent72_spec a Ha) as (La & _).
  pose proof (mantissa_of_bounds a Ha) as [Ma _].
  change (2 ^ 52) with 4503599627370496 in *.
  apply Z.mul_pos_pos; [lia |]. apply Z.pow_pos_nonneg; lia.
Qed.

(** The floor division in the common unit. *)
Lemma floordiv_scaled m e w :
  0 < w -> - 72 <= e ->
  floordiv (mk_double m e) w = m * 2 ^ (e + 72) / (w * 2 ^ 72).
Proof.
  intros Hw He. unfold floordiv. cbn [mantissa exponent].
  destruct (0 <=? e) eqn:C.
  - apply Z.leb_le in C. rewrite Z.pow_add_r by lia.
    rewrite Z.mul_assoc. rewrite Z.div_mul_cancel_r; [reflexivity | lia |].
    apply Z.pow_nonzero; lia.
  - apply Z.leb_gt in C.
    replace (2 ^ 72) with (2 ^ (- e) * 2 ^ (e + 72)).
    + rewrite Z.mul_assoc. rewrite Z.div_mul_cancel_r; [reflexivity | |].
      * apply Z.neq_mul_0. split; [lia |]. apply Z.pow_nonzero; lia.
      * apply Z.pow_nonzero; lia.
    + rewrite <- Z.pow_add_r by lia. f_equal. lia.
Qed.

Lemma whole_hours_scaled us :
  whole_hours us
  = Z.sgn us * scaled_seconds (Z.abs us) / (3600 * 2 ^ 72).
Proof.
  unfold whole_hours, total_seconds.
  destruct (us =? 0) eqn:Z0.
  - apply Z.eqb_eq in Z0. subst us. reflexivity.
  - apply Z.eqb_neq in Z0.
    assert (Ha : 0 < Z.abs us) by lia.
    destruct (exponent72_spec _ Ha) as (La & _).
    fold (exponent72 (Z.abs us)).
    replace (exponent72 (Z.abs us) - 20 - 52) with (exponent72 (Z.abs us) - 72) by lia.
    fold (mantissa_of (Z.abs us)).
    rewrite floordiv_scaled by lia.
    replace (exponent72 (Z.abs us) - 72 + 72) with (exponent72 (Z.abs us)) by lia.
    unfold scaled_seconds. rewrite Z.mul_assoc. reflexivity.
Qed.

(** The offset in hours grows with the difference. *)
Lemma whole_hours_mono us1 us2 : us1 <= us2 -> whole_hours us1 <= whole_hours us2.
Proof.
  intros H. rewrite !whole_hours_scaled.
  apply Z.div_le_mono; [reflexivity |].
  destruct (Z.lt_trichotomy us1 0) as [N1|[Z1|P1]];
    destruct (Z.lt_trichotomy us2 0) as [N2|[Z2|P2]]; try lia.
  - rewrite (Z.sgn_neg us1), (Z.sgn_neg us2) by lia.
    pose proof (scaled_seconds_mono (Z.abs us2) (Z.abs us1) ltac:(lia) ltac:(lia)).
    lia.
  - subst us2. rewrite (Z.sgn_neg us1) by lia.
    pose proof (scaled_seconds_pos (Z.abs us1) ltac:(lia)). change (Z.sgn 0) with 0. lia.
  - rewrite (Z.sgn_neg us1), (Z.sgn_pos us2) by lia.
    pose proof (scaled_seconds_pos (Z.abs us1) ltac:(lia)).
    pose proof (scaled_seconds_pos (Z.abs us2) ltac:(lia)). lia.
  - subst us1. rewrite (Z.sgn_pos us2) by lia.
    pose proof (scaled_seconds_pos (Z.abs us2) ltac:(lia)). change (Z.sgn 0) with 0. lia.
  - rewrite (Z.sgn_pos us1), (Z.sgn_pos us2) by lia.
    pose proof (scaled_seconds_mono (Z.abs us1) (Z.abs us2) ltac:(lia) ltac:(lia)).
    lia.
Qed.

(** For a difference shorter than [2 ^ 34] seconds (some 544 years) the
    rounding to a double does not cross a whole hour: the offset is the
    floor of the exact quotient. *)
Lemma whole_hours_exact us :
  Z.abs us < 2 ^ 34 * us_per_second -> whole_hours us = us / us_per_hour.
Proof.
  intros Hb. unfold whole_hours, total_seconds.
  destruct (us =? 0) eqn:Z0.
  { apply Z.eqb_eq in Z0. subst us. reflexivity. }
  apply Z.eqb_neq in Z0.
  assert (Ha : 0 < Z.abs us) by lia.
  destruct (exponent72_spec _ Ha) as (La & L1 & _).
  fold (exponent72 (Z.abs us)).
  set (l := exponent72 (Z.abs us)) in *.
  assert (Hl : l <= 53).
  { destruct (Z.le_gt_cases l 53) as [?|G]; [assumption | exfalso].
    pose proof (Z.pow_le_mono_r 2 54 l ltac:(lia) ltac:(lia)) as P.
    change (2 ^ 54) with 18014398509481984 in P.
    change (2 ^ 34) with 17179869184 in Hb. change (2 ^ 20) with 1048576 in L1.
    unfold us_per_second in *. nia. }
  replace (l - 20 - 52) with (l - 72) by lia.
  rewrite (Z.max_r 0 (- (l - 72))) by lia. rewrite (Z.max_l 0 (l - 72)) by lia.
  rewrite Z.pow_0_r, Z.mul_1_r.
  unfold floordiv. cbn [mantissa exponent].
  replace (0 <=? l - 72) with false by (symmetry; apply Z.leb_gt; lia).
  assert (HK : 2 ^ 19 <= 2 ^ (- (l - 72))) by (apply Z.pow_le_mono_r; lia).
  change (2 ^ 19) with 524288 in HK.
  set (K := 2 ^ (- (l - 72))) in *.
  pose proof (round_half_even_near (Z.abs us * K) us_per_second ltac:(reflexivity))
    as [_ R].
  set (m := round_half_even (Z.abs us * K) us_per_second) in *.
  pose proof (Z.div_mod us us_per_hour ltac:(discriminate)) as E.
  pose proof (Z.mod_pos_bound us us_per_hour ltac:(reflexivity)) as B.
  set (n := us / us_per_hour) in *. set (r := us mod us_per_hour) in *.
  unfold us_per_hour, us_per_second in *.
  symmetry. apply Z.div_unique with (r := Z.sgn us * m - 3600 * K * n); [| lia].
  left.
  destruct (Z.lt_trichotomy us 0) as [N|[?|P]]; [| lia |].
  - rewrite (Z.sgn_neg us) by lia. rewrite (Z.abs_neq us) in R by lia.
    assert (X : - us * K = - (3600 * 1000000) * (n * K) - r * K) by nia.
    assert (Y : 0 <= r * K) by nia.
    assert (Y' : r * K <= (3600 * 1000000 - 1) * K) by nia.
    set (nK := n * K) in *. set (rK := r * K) in *.
    assert (r <> 0 \/ r = 0) as [Rn|R0] by lia.
    + assert (K <= rK) by (unfold rK; nia). lia.
    + assert (rK = 0) by (unfold rK; nia). lia.
  - rewrite (Z.sgn_pos us) by lia. rewrite (Z.abs_eq us) in R by lia.
    assert (X : us * K = (3600 * 1000000) * (n * K) + r * K) by nia.
    assert (Y : 0 <= r * K) by nia.
    assert (Y' : r * K <= (3600 * 1000000 - 1) * K) by nia.
    set (nK := n * K) in *. set (rK := r * K) in *.
    lia.
Qed.

(** Beyond that distance the two differ: one microsecond before a whole
    hour, some 975 years away, the double is the whole hour itself. *)
Lemma whole_hours_rounds_up :
  whole_hours (8541780 * us_per_hour - 1) = 8541780
  /\ (8541780 * us_per_hour - 1) / us_per_hour = 8541779.
Proof. split; vm_compute; reflexivity. Qed.

Lemma hour_delta_of_naive h t s :
  tzinfo t = None ->
  hour_delta_of h t s
  = (Ok (whole_hours (to_micros t - to_micros (clock h (ticks s)))),
     with_ticks (S (ticks s)) s).
Proof.
  intros Ht. unfold hour_delta_of, now_naive, now_utc, bind, lift, ret, dt_sub.
  simpl. rewrite Ht. reflexivity.
Qed.

(** The buckets are computed from two readings of the clock: the first for
    the start of the window, the second for its end. *)
Lemma hour_buckets_naive h ts te s :
  tzinfo ts = None -> tzinfo te = None ->
  hour_buckets h ts te s
  = (Ok (py_range
           (whole_hours (to_micros ts - to_micros (clock h (ticks s))))
           (whole_hours (to_micros te - to_micros (clock h (S (ticks s)))) + 1)),
     with_ticks (S (S (ticks s))) s).
Proof.
  intros Hs He. unfold hour_buckets.
  rewrite (bind_ok _ _ _ _ _ (hour_delta_of_naive h ts s Hs)).
  rewrite (bind_ok _ _ _ _ _ (hour_delta_of_naive h te _ He)).
  reflexivity.
Qed.

(** When both readings show the same instant, the buckets of a window with
    [time_start <= time_end] run from the offset of the start through the
    offset of the end: they are contiguous, there is at least one, and
    [time_start = time_end] gives exactly one. The offsets are the floors
    of the hours from now to the start and to the end, for a window within
    [2 ^ 34] seconds of now. *)
Lemma hour_buckets_single_reading h ts te s :
  tzinfo ts = None -> tzinfo te = None ->
  to_micros (clock h (S (ticks s))) = to_micros (clock h (ticks s)) ->
  to_micros ts <= to_micros te ->
  let now := to_micros (clock h (ticks s)) in
  let first := whole_hours (to_micros ts - now) in
  let last := whole_hours (to_micros te - now) in
  exists hours,
    fst (hour_buckets h ts te s) = Ok hours
    /\ first <= last
    /\ length hours = Z.to_nat (last - first + 1)
    /\ (forall i x, hours !! i = Some x -> x = first + Z.of_nat i)
    /\ hours !! 0%nat = Some first
    /\ (to_micros ts = to_micros te -> hours = [first])
    /\ (Z.abs (to_micros ts - now) < 2 ^ 34 * us_per_second ->
        first = (to_micros ts - now) / us_per_hour)
    /\ (Z.abs (to_micros te - now) < 2 ^ 34 * us_per_second ->
        last = (to_micros te - now) / us_per_hour).
Proof.
  intros Hs He Hclock Hle now first last.
  rewrite (hour_buckets_naive h ts te s Hs He). rewrite Hclock.
  fold now. fold first. fold last. simpl.
  assert (Hfl : first <= last).
  { unfold first, last. apply whole_hours_mono. lia. }
  eexists. split; [reflexivity |]. split; [exact Hfl |].
  split; [rewrite py_range_length; f_equal; lia |].
  split; [intros i x Hx; apply py_range_lookup_inv in Hx; tauto |].
  split; [rewrite py_range_lookup by lia; f_equal; lia |].
  split.
  - intros Heq. unfold last. rewrite <- Heq. fold first. apply py_range_single.
  - split; intros Hb; apply whole_hours_exact; exact Hb.
Qed.

(** C5, at the failing input. The clock shows 12:00:00.000000 when the
    offset of the start is computed and 12:00:00.000001 when the offset of
    the end is computed; for the window from 10:00:00 to 10:00:00 the
    offsets are -2 and -3, the range of buckets is empty, and [run] fails
    in [pd.concat] without a single request. *)
Theorem hour_buckets_clock_race :
  fst (hour_buckets
         (Example.world (mk_datetime 2025 7 23 11 59 59 999999 None) 1
                        Example.service_ok)
         (mk_datetime 2025 7 23 10 0 0 0 None)
         (mk_datetime 2025 7 23 10 0 0 0 None)
         (with_ticks 1 (initial_state ∅)))
  = Ok []
  /\ run (Example.world (mk_datetime 2025 7 23 11 59 59 999999 None) 1
                        Example.service_ok)
         VNone VNone
         (VList [VStr "2025-07-23T10:00:00"; VStr "2025-07-23T10:00:00"])
         VNone VNone VNone (initial_state ∅)
     = (Raise (StatusException ERROR
                 "An error occurred while running the ARPAV Retriever: No objects to concatenate"),
        with_ticks 3 (initial_state ∅)).
Proof. split; vm_compute; reflexivity. Qed.

(** ** The fetch loop *)

Lemma fetch_hour_not_200 h x s resp :
  http_get h x = Ok resp -> status_code resp <> 200 ->
  fetch_hour h x s
  = (Raise (upstream_error resp), with_requests (requests s ++ [x]) s).
Proof.
  intros Hget Hcode. unfold fetch_hour, requests_get, bind, raise_if, raise.
  rewrite Hget. apply Z.eqb_neq in Hcode. rewrite Hcode. reflexivity.
Qed.

Lemma fetch_hour_requests h x s r s' :
  fetch_hour h x s = (r, s') -> s' = with_requests (requests s ++ [x]) s.
Proof.
  unfold fetch_hour, requests_get, bind, raise_if, raise, ret, lift.
  destruct (http_get h x) as [resp|e]; [| intros H; inversion H; reflexivity].
  destruct (negb (status_code resp =? 200)); intros H; inversion H; reflexivity.
Qed.

Lemma fetch_hour_ok_inv h x s df s' :
  fetch_hour h x s = (Ok df, s') ->
  exists resp, http_get h x = Ok resp /\ status_code resp = 200
               /\ json_data resp = Ok df.
Proof.
  unfold fetch_hour, requests_get, bind, raise_if, raise, ret, lift.
  destruct (http_get h x) as [resp|e]; [| discriminate].
  destruct (status_code resp =? 200) eqn:E; simpl; [| discriminate].
  intros H. inversion H. exists resp. apply Z.eqb_eq in E. auto.
Qed.

(** A failure at a bucket ends the loop there: the buckets after it are
    not requested and the frames fetched so far are dropped. *)
Lemma fetch_hours_stops h pre x post s dfs s1 e s2 :
  fetch_hours h pre s = (Ok dfs, s1) ->
  fetch_hour h x s1 = (Raise e, s2) ->
  fetch_hours h (pre ++ x :: post)%list s = (Raise e, s2).
Proof.
  revert s dfs. induction pre as [|y pre IH]; intros s dfs Hpre Hx; simpl in *.
  - apply ret_ok_inv in Hpre as [_ ->].
    apply bind_raise. exact Hx.
  - apply bind_ok_inv in Hpre as (df & s3 & Hy & Hpre).
    apply bind_ok_inv in Hpre as (dfs' & s4 & Hrest & Hret).
    apply ret_ok_inv in Hret as [_ ->].
    rewrite (bind_ok _ _ _ _ _ Hy).
    apply bind_raise. eapply IH; eauto.
Qed.

Lemma with_requests_nil s : with_requests (requests s ++ []) s = s.
Proof. rewrite app_nil_r. destruct s; reflexivity. Qed.

Lemma with_requests_twice s l1 l2 :
  with_requests (requests (with_requests (requests s ++ l1) s) ++ l2)
                (with_requests (requests s ++ l1) s)
  = with_requests (requests s ++ l1 ++ l2) s.
Proof. simpl. rewrite <- app_assoc. reflexivity. Qed.

(** The loop requests its buckets in order, each at most once. *)
Lemma fetch_hours_requests h hours s r s' :
  fetch_hours h hours s = (r, s') ->
  exists done, s' = with_requests (requests s ++ done) s
               /\ done `prefix_of` hours
               /\ (is_ok r = true -> done = hours).
Proof.
  revert s r s'. induction hours as [|x hours IH]; intros s r s' H; simpl in H.
  - unfold ret in H. injection H as <- <-. exists [].
    rewrite with_requests_nil.
    split; [reflexivity |]. split; [apply prefix_nil | reflexivity].
  - unfold bind at 1 in H. destruct (fetch_hour h x s) as [[df|e] s1] eqn:Ex.
    + apply fetch_hour_requests in Ex. subst s1.
      unfold bind at 1 in H.
      destruct (fetch_hours h hours _) as [[dfs|e] s2] eqn:Er;
        apply IH in Er as (done & -> & Hp & Hall);
        rewrite with_requests_twice in H;
        unfold ret in H; injection H as <- <-;
        exists (x :: done);
        (split; [reflexivity |]); (split; [apply prefix_cons; exact Hp |]).
      * intros _. f_equal. apply Hall. reflexivity.
      * discriminate.
    + apply fetch_hour_requests in Ex. subst s1. injection H as <- <-.
      exists [x]. split; [reflexivity |].
      split; [apply prefix_cons, prefix_nil | discriminate].
Qed.

(** The loop completes only if every bucket was answered with status 200. *)
Lemma fetch_hours_ok_all_200 h hours s dfs s' :
  fetch_hours h hours s = (Ok dfs, s') ->
  forall x, In x hours ->
  exists resp, http_get h x = Ok resp /\ status_code resp = 200.
Proof.
  revert s dfs s'. induction hours as [|y hours IH]; intros s dfs s' H x Hin.
  - destruct Hin.
  - simpl in H. apply bind_ok_inv in H as (df & s1 & Hy & H).
    apply bind_ok_inv in H as (dfs' & s2 & Hrest & _).
    destruct Hin as [<- | Hin].
    + apply fetch_hour_ok_inv in Hy as (resp & ? & ? & _). eauto.
    + eapply IH; eauto.
Qed.

Lemma retrieve_data_ok_inv h lat_range long_range ts te s gdf s' :
  retrieve_data h lat_range long_range ts te s = (Ok gdf, s') ->
  exists hours s1 dfs,
    hour_buckets h ts te s = (Ok hours, s1)
    /\ fetch_hours h hours s1 = (Ok dfs, s').
Proof.
  unfold retrieve_data. intros H.
  apply bind_ok_inv in H as (hours & s1 & Hb & H).
  apply bind_ok_inv in H as (dfs & s2 & Hf & H).
  repeat (apply bind_ok_inv in H as (? & ? & Hl & H);
          apply lift_ok_inv in Hl as [_ ->]).
  apply ret_ok_inv in H as [_ ->]. eauto.
Qed.

(** C3. When the buckets before [x] have been fetched and the service
    answers the request for bucket [x] with a status code other than 200,
    [retrieve_data] raises the [StatusException] of status [ERROR] whose
    message carries that status code and the body text; the request for
    [x] is the last one made (the later buckets are not requested, nothing
    is requested twice) and no frame is returned. More generally no frame
    is returned whenever some bucket of the sequence is answered with a
    status code other than 200. *)
Theorem non_200_aborts_retrieval (h : Host) (lat_range long_range : pyval)
    (ts te : datetime) (s s1 s2 : State) (pre post : list Z) (x : Z)
    (dfs : list (list raw_row)) (resp : response) :
  hour_buckets h ts te s = (Ok (pre ++ x :: post)%list, s1) ->
  fetch_hours h pre s1 = (Ok dfs, s2) ->
  http_get h x = Ok resp ->
  status_code resp <> 200 ->
  retrieve_data h lat_range long_range ts te s
  = (Raise (StatusException ERROR
              ("Failed to retrieve data from ARPAV service: "
               ++ str_of_Z (status_code resp) ++ " - " ++ text resp)),
     with_requests (requests s1 ++ pre ++ [x])%list s1)
  /\ forall y resp', In y (pre ++ x :: post)%list ->
       http_get h y = Ok resp' -> status_code resp' <> 200 ->
       forall gdf s', retrieve_data h lat_range long_range ts te s <> (Ok gdf, s').
Proof.
  intros Hb Hpre Hget Hcode. split.
  - unfold retrieve_data. rewrite (bind_ok _ _ _ _ _ Hb).
    pose proof (fetch_hour_not_200 h x s2 resp Hget Hcode) as Hx.
    pose proof (fetch_hours_stops h pre x post s1 dfs s2 _ _ Hpre Hx) as Hstop.
    rewrite (bind_raise _ _ _ _ _ Hstop).
    apply fetch_hours_requests in Hpre as (done & -> & _ & Hall).
    rewrite (Hall eq_refl). unfold upstream_error. simpl.
    rewrite <- app_assoc. destruct s1; reflexivity.
  - intros y resp' Hin Hget' Hcode' gdf s' Hok.
    apply retrieve_data_ok_inv in Hok as (hours & s3 & dfs' & Hb' & Hf).
    rewrite Hb in Hb'. inversion Hb'; subst hours s3.
    destruct (fetch_hours_ok_all_200 _ _ _ _ _ Hf y Hin) as (r & Hr & H200).
    congruence.
Qed.

Lemma non_200_aborts_retrieval_witness :
  retrieve_data (Example.world Example.noon 1 Example.service_500) VNone VNone
    (mk_datetime 2025 7 23 10 0 0 0 None) (mk_datetime 2025 7 23 10 55 0 0 None)
    (initial_state ∅)
  = (Raise (StatusException ERROR
              "Failed to retrieve data from ARPAV service: 500 - Internal Server Error"),
     with_requests [-2] (with_ticks 2 (initial_state ∅))).
Proof.
  apply (proj1 (non_200_aborts_retrieval
                  (Example.world Example.noon 1 Example.service_500) VNone VNone
                  (mk_datetime 2025 7 23 10 0 0 0 None)
                  (mk_datetime 2025 7 23 10 55 0 0 None)
                  (initial_state ∅) (with_ticks 2 (initial_state ∅))
                  (with_ticks 2 (initial_state ∅)) [] [] (-2) []
                  (mk_response 500 "Internal Server Error" (Ok []))
                  ltac:(vm_compute; reflexivity) ltac:(vm_compute; reflexivity)
                  ltac:(vm_compute; reflexivity) ltac:(discriminate))).
Defined.

(** ** What the steps of a run leave untouched *)

Lemma keeps_ret {T A} (proj : State -> T) (a : A) : keeps proj (ret a).
Proof. intros s r s' H. inversion H. reflexivity. Qed.

Lemma keeps_raise {T A} (proj : State -> T) e : keeps proj (@raise A e).
Proof. intros s r s' H. inversion H. reflexivity. Qed.

Lemma keeps_lift {T A} (proj : State -> T) (x : result A) : keeps proj (lift x).
Proof. intros s r s' H. inversion H. reflexivity. Qed.

Lemma keeps_raise_if {T} (proj : State -> T) c e : keeps proj (raise_if c e).
Proof. destruct c; [apply keeps_raise | apply keeps_ret]. Qed.

Lemma keeps_bind {T A B} (proj : State -> T) (m : M A) (k : A -> M B) :
  keeps proj m -> (forall a, keeps proj (k a)) -> keeps proj (bind m k).
Proof.
  intros Hm Hk s r s'. unfold bind.
  destruct (m s) as [[a|e] s1] eqn:E; intros H.
  - rewrite (Hk a _ _ _ H). eapply Hm. exact E.
  - inversion H; subst. eapply Hm. exact E.
Qed.

Lemma keeps_files_now_utc h : keeps files (now_utc h).
Proof. intros s r s' H. inversion H. reflexivity. Qed.

Lemma keeps_files_exists p : keeps files (os_path_exists p).
Proof.
  destruct p as [| | | |path| | | |]; try apply keeps_raise.
  intros s r s' H. inversion H. reflexivity.
Qed.

Lemma keeps_files_makedirs h p : keeps files (os_makedirs h p).
Proof.
  destruct p as [| | | |path| | | |]; try apply keeps_raise. simpl.
  destruct (can_makedirs h path); [| apply keeps_raise].
  intros s r s' H. inversion H. reflexivity.
Qed.

Lemma keeps_files_requests_get h x : keeps files (requests_get h x).
Proof. intros s r s' H. inversion H. reflexivity. Qed.

Lemma keeps_files_upload h p u : keeps files (s3_upload_file h p u).
Proof. intros s r s' H. inversion H. reflexivity. Qed.

Ltac keeps_files :=
  repeat first
    [ apply keeps_bind; [| intros ?]
    | apply keeps_ret | apply keeps_raise | apply keeps_lift
    | apply keeps_raise_if | apply keeps_files_now_utc
    | apply keeps_files_exists | apply keeps_files_makedirs
    | apply keeps_files_requests_get | apply keeps_files_upload
    | match goal with
      | |- keeps _ (match ?x with _ => _ end) => destruct x
      end ].




Lemma keeps_files_upload_files h b fps : keeps files (upload_files h b fps).
Proof.
  induction fps as [|fp fps IH]; simpl; [apply keeps_ret |].
  keeps_files. exact IH.
Qed.

(** ** What a successful validation returns *)

Lemma validate_out_format_ok fmt r :
  validate_out_format fmt = Ok r -> r = VStr "geojson".
Proof.
  unfold validate_out_format, invalid.
  destruct fmt as [| | | |f| | | |]; try discriminate.
  - intros H. inversion H. reflexivity.
  - destruct (String.eqb f "geojson") eqn:E; [| discriminate].
    apply String.eqb_eq in E. subst. intros H. inversion H. reflexivity.
Qed.

Lemma validate_bucket_destination_ok b u :
  validate_bucket_destination b = Ok u ->
  b = VNone \/ exists uri, b = VStr uri /\ startswith uri "s3://" = true.
Proof.
  unfold validate_bucket_destination, invalid.
  destruct b as [| | | |uri| | | |]; try discriminate; [auto |].
  destruct (startswith uri "s3://") eqn:E; [| discriminate]. eauto.
Qed.

Lemma validate_out_ok h out s u s' :
  validate_out h out s = (Ok u, s') ->
  out = VNone \/ exists p, out = VStr p /\ endswith p ".geojson" = true.
Proof.
  unfold validate_out, lift, invalid.
  destruct out as [| | | |p| | | |]; try discriminate; [auto |].
  destruct (endswith p ".geojson") eqn:E; [| discriminate]. eauto.
Qed.

Lemma dt_compare_ok_tz a b c :
  dt_compare a b = Ok c ->
  (tzinfo a = None /\ tzinfo b = None)
  \/ (exists oa ob, tzinfo a = Some oa /\ tzinfo b = Some ob).
Proof.
  unfold dt_compare. destruct (tzinfo a), (tzinfo b); try discriminate; eauto.
Qed.

Lemma truncate_5min_tzinfo t t' : truncate_5min t = Ok t' -> tzinfo t' = tzinfo t.
Proof. intros H. rewrite (truncate_5min_eq _ _ H). reflexivity. Qed.

Lemma dt_add_tzinfo t d t' : dt_add t d = Ok t' -> tzinfo t' = tzinfo t.
Proof.
  unfold dt_add, of_micros.
  destruct ((0 <? _) && _); [| discriminate].
  destruct (ord2ymd _) as [[y m] d']. intros H. inversion H. reflexivity.
Qed.

(** Everything a successful validation has checked. *)
Lemma argument_validation_ok_inv h (kwargs : gmap string pyval) s v s' :
  argument_validation h kwargs s = (Ok v, s') ->
  exists raw_start raw_end t0 limit,
    time_range_item (kwargs_get kwargs "time_range") 0
                    (kwargs_get kwargs "time_range") = Ok raw_start
    /\ time_range_item (kwargs_get kwargs "time_range") 1 VNone = Ok raw_end
    /\ validate_range "lat_range" 90 (kwargs_get kwargs "lat_range") = Ok tt
    /\ validate_range "long_range" 180 (kwargs_get kwargs "long_range") = Ok tt
    /\ parse_time "time_start" raw_start = Ok t0
    /\ truncate_5min t0 = Ok (va_time_start v)
    /\ (if is_none raw_end
        then dt_add (va_time_start v) (1 * us_per_hour) = Ok (va_time_end v)
        else exists t1, parse_time "time_end" raw_end = Ok t1
                        /\ dt_gt t0 t1 = Ok false
                        /\ truncate_5min t1 = Ok (va_time_end v))
    /\ dt_lt (va_time_end v) (replace_tzinfo_none limit) = Ok false
    /\ va_lat_range v = kwargs_get kwargs "lat_range"
    /\ va_long_range v = kwargs_get kwargs "long_range"
    /\ va_out_format v = VStr "geojson"
    /\ va_bucket_destination v = kwargs_get kwargs "bucket_destination"
    /\ va_out v = kwargs_get kwargs "out"
    /\ validate_bucket_destination (va_bucket_destination v) = Ok tt
    /\ (va_out v = VNone
        \/ exists p, va_out v = VStr p /\ endswith p ".geojson" = true).
Proof.
  intros H. unfold argument_validation in H.
  inv_monad.
  repeat match goal with u : unit |- _ => destruct u end.
  match goal with
  | Hf : validate_out_format _ = Ok _ |- _ =>
      apply validate_out_format_ok in Hf; subst
  end.
  match goal with
  | Ho : validate_out _ _ _ = (Ok _, _) |- _ => apply validate_out_ok in Ho
  end.
  match goal with
  | H1 : time_range_item _ 0 _ = Ok ?rs, H2 : time_range_item _ 1 _ = Ok ?re,
    H3 : parse_time "time_start" ?rs = Ok ?t0,
    H4 : dt_add _ (- (48 * us_per_hour)) = Ok ?lim |- _ =>
      exists rs, re, t0, lim; destruct (is_none re) eqn:En
  end; inv_monad; simpl; repeat split; eauto.
Qed.

(** The validated arguments: both times are naive, the bucket and the
    output path are [None] or strings. *)
Lemma argument_validation_shapes h (kwargs : gmap string pyval) s v s' :
  argument_validation h kwargs s = (Ok v, s') ->
  tzinfo (va_time_start v) = None
  /\ tzinfo (va_time_end v) = None
  /\ (va_bucket_destination v = VNone
      \/ exists uri, va_bucket_destination v = VStr uri)
  /\ (va_out v = VNone \/ exists p, va_out v = VStr p).
Proof.
  intros H.
  destruct (argument_validation_ok_inv _ _ _ _ _ H)
    as (rs & re & t0 & lim & _ & _ & _ & _ & _ & Hts & Hte & Hlim & _ & _ & _
        & _ & _ & Hb & Ho).
  assert (Hend : tzinfo (va_time_end v) = None).
  { unfold dt_lt in Hlim.
    destruct (dt_compare _ (replace_tzinfo_none lim)) as [c|] eqn:Ec;
      [| discriminate].
    apply dt_compare_ok_tz in Ec as [[Hn _] | (oa & ob & _ & Hob)];
      [exact Hn | discriminate]. }
  split; [| split; [exact Hend | split]].
  - destruct (is_none re).
    + apply dt_add_tzinfo in Hte. congruence.
    + destruct Hte as (t1 & _ & Hgt & Htr).
      apply truncate_5min_tzinfo in Htr, Hts.
      unfold dt_gt in Hgt. destruct (dt_compare t0 t1) as [c|] eqn:Ec;
        [| discriminate].
      apply dt_compare_ok_tz in Ec as [[Hn _] | (oa & ob & _ & Hob)];
        congruence.
  - apply validate_bucket_destination_ok in Hb as [Hb | (u & Hb & _)]; eauto.
  - destruct Ho as [Ho | (p & Ho & _)]; eauto.
Qed.

(** ** The exact window *)





Lemma run_unfold h lat_range long_range time_range out_format bucket out s :
  run h lat_range long_range time_range out_format bucket out s
  = match run_body h lat_range long_range time_range out_format bucket out s with
    | (Ok o, s0) => (Ok o, cleaned h s0)
    | (Raise e, s0) =>
        (Raise (StatusException ERROR
                  ("An error occurred while running the ARPAV Retriever: "
                   ++ exn_str e)), cleaned h s0)
    end.
Proof.
  unfold run, try_finally, try_except, garbage_folders, modify, raise.
  destruct (run_body _ _ _ _ _ _ _ s) as [[o|e] s0]; reflexivity.
Qed.

Lemma write_json_ok_inv h fp fc s u s' :
  write_json h fp fc s = (Ok u, s') ->
  can_write h fp = true /\ s' = with_files (<[ fp := fc ]> (files s)) s.
Proof.
  unfold write_json, bind, modify, raise.
  destruct (can_write h fp); [| destruct (can_open h fp); discriminate].
  intros H. inversion H. auto.
Qed.

Lemma upload_files_single h b fp s uris s' :
  upload_files h b [fp] s = (Ok uris, s') ->
  uris = [bucket_uri b fp]
  /\ s3_upload h fp (bucket_uri b fp) = true
  /\ files s' = files s
  /\ dirs s' = dirs s
  /\ uploads s' = (uploads s ++ [(fp, bucket_uri b fp)])%list.
Proof.
  simpl. intros H. inv_monad.
  match goal with
  | Hu : s3_upload_file _ _ _ _ = _ |- _ =>
      unfold s3_upload_file in Hu; inversion Hu; subst; clear Hu
  end.
  match goal with
  | Hn : negb _ = false |- _ => apply negb_false_iff in Hn
  end.
  simpl. auto.
Qed.


(** ** Paths below the temporary folder *)

Lemma append_cons (a : ascii) (s t : string) : String a s ++ t = String a (s ++ t).
Proof. reflexivity. Qed.

Lemma string_app_assoc (a b c : string) : (a ++ b) ++ c = a ++ b ++ c.
Proof.
  induction a as [|x a IH]; [reflexivity |].
  rewrite !append_cons. f_equal. exact IH.
Qed.

Lemma string_length_app (a b : string) :
  String.length (a ++ b) = (String.length a + String.length b)%nat.
Proof.
  induction a as [|x a IH]; [reflexivity |].
  rewrite append_cons. simpl. f_equal. exact IH.
Qed.


Lemma endswith_slash_app (c x : string) :
  x <> "" -> endswith (c ++ x) "/" = endswith x "/".
Proof.
  intros Hx. induction c as [|a c IH]; [reflexivity |].
  rewrite <- IH. rewrite append_cons. unfold endswith. simpl String.length.
  rewrite string_length_app.
  destruct (String.length c + String.length x)%nat as [|m] eqn:El.
  - exfalso. destruct x; [congruence | simpl in El; lia].
  - simpl. rewrite Nat.sub_0_r. reflexivity.
Qed.

Lemma tmp_data_folder_shape h :
  _tmp_data_folder h <> ""
  /\ endswith (_tmp_data_folder h) "/" = false.
Proof.
  unfold _tmp_data_folder, os_path_join.
  change (startswith (name ++ "_water_level_tmp") "/") with false.
  cbv iota.
  destruct (String.eqb (cwd h) "" || endswith (cwd h) "/").
  - split.
    + intros H. apply (f_equal String.length) in H.
      rewrite string_length_app in H. simpl in H. lia.
    + rewrite endswith_slash_app by discriminate. reflexivity.
  - split.
    + intros H. apply (f_equal String.length) in H.
      rewrite string_length_app in H. simpl in H. lia.
    + rewrite <- string_app_assoc.
      rewrite endswith_slash_app by discriminate. reflexivity.
Qed.


Lemma the_kwargs_get lat_range long_range time_range out_format bucket out :
  let kw := the_kwargs lat_range long_range time_range out_format bucket out in
  kwargs_get kw "lat_range" = lat_range
  /\ kwargs_get kw "long_range" = long_range
  /\ kwargs_get kw "time_range" = time_range
  /\ kwargs_get kw "out_format" = out_format
  /\ kwargs_get kw "bucket_destination" = bucket
  /\ kwargs_get kw "out" = out.
Proof.
  cbv zeta. unfold the_kwargs.
  repeat split;
    repeat first [ rewrite kwargs_get_insert; reflexivity
                 | rewrite kwargs_get_insert_ne by discriminate ].
Qed.


Lemma cleaned_files_below h s p :
  startswith p (_tmp_data_folder h ++ "/") = true -> files (cleaned h s) !! p = None.
Proof.
  intros Hp. unfold cleaned. simpl.
  apply map_lookup_filter_None. right. intros fc Hfc. simpl. intros Hkeep.
  rewrite Hp in Hkeep. exact Hkeep.
Qed.

Lemma cleaned_dirs h s : _tmp_data_folder h ∉ dirs (cleaned h s).
Proof.
  unfold cleaned. simpl. apply not_elem_of_difference. right.
  apply elem_of_singleton. reflexivity.
Qed.



Lemma retrieve_data_fails h lat_range long_range ts te s hours s1 x resp :
  hour_buckets h ts te s = (Ok hours, s1) ->
  In x hours -> http_get h x = Ok resp -> status_code resp <> 200 ->
  exists e s', retrieve_data h lat_range long_range ts te s = (Raise e, s').
Proof.
  intros Hb Hin Hget Hcode.
  destruct (retrieve_data h lat_range long_range ts te s) as [[gdf|e] s'] eqn:E;
    [| eauto].
  exfalso. apply retrieve_data_ok_inv in E as (hours' & s2 & dfs & Hb' & Hf).
  rewrite Hb in Hb'. injection Hb' as <- <-.
  destruct (fetch_hours_ok_all_200 _ _ _ _ _ Hf x Hin) as (r & Hr & H200).
  congruence.
Qed.

(** C9. However [run] ends, the temporary folder does not exist when it
    returns or raises, and no file below it is left; [run] either returns
    or raises a [StatusException] of status [ERROR]. In particular a
    rejection by the validation is re-raised under that status with the
    folder removed, and so is the failure of the fetch when a bucket of the
    sequence is answered with HTTP 500. *)
Theorem run_removes_tmp_folder (h : Host)
    (lat_range long_range time_range out_format bucket out : pyval) (s : State) :
  (forall r s',
     run h lat_range long_range time_range out_format bucket out s = (r, s') ->
     (_tmp_data_folder h ∉ dirs s')
     /\ (forall p, startswith p (_tmp_data_folder h ++ "/") = true ->
                   files s' !! p = None)
     /\ ((exists o, r = Ok o)
         \/ exists msg, r = Raise (StatusException ERROR msg)))
  /\ (forall e s1,
        argument_validation h
          (the_kwargs lat_range long_range time_range out_format bucket out) s
        = (Raise e, s1) ->
        run h lat_range long_range time_range out_format bucket out s
        = (Raise (StatusException ERROR
                    ("An error occurred while running the ARPAV Retriever: "
                     ++ exn_str e)),
           cleaned h s1)
        /\ _tmp_data_folder h ∉ dirs (cleaned h s1))
  /\ (forall v s1 hours s2 x resp,
        argument_validation h
          (the_kwargs lat_range long_range time_range out_format bucket out) s
        = (Ok v, s1) ->
        hour_buckets h (va_time_start v) (va_time_end v) s1 = (Ok hours, s2) ->
        In x hours -> http_get h x = Ok resp -> status_code resp = 500 ->
        exists msg s',
          run h lat_range long_range time_range out_format bucket out s
          = (Raise (StatusException ERROR msg), s')
          /\ _tmp_data_folder h ∉ dirs s').
Proof.
  split; [| split].
  - intros r s' H. rewrite run_unfold in H.
    destruct (run_body _ _ _ _ _ _ _ s) as [[o|e] s0];
      injection H as <- <-;
      (split; [apply cleaned_dirs |]);
      (split; [intros p Hp; apply cleaned_files_below; exact Hp |]); eauto.
  - intros e s1 Hv. rewrite run_unfold. unfold run_body.
    rewrite (bind_raise _ _ _ _ _ Hv). split; [reflexivity | apply cleaned_dirs].
  - intros v s1 hours s2 x resp Hv Hb Hin Hget H500.
    assert (Hcode : status_code resp <> 200) by lia.
    destruct (retrieve_data_fails h (va_lat_range v) (va_long_range v) _ _ _ _ _ _ _
                Hb Hin Hget Hcode) as (e & s3 & Hr).
    rewrite run_unfold. unfold run_body.
    rewrite (bind_ok _ _ _ _ _ Hv). cbv zeta.
    rewrite (bind_raise _ _ _ _ _ Hr).
    eexists _, _. split; [reflexivity | apply cleaned_dirs].
Qed.

Lemma run_removes_tmp_folder_witness :
  exists msg s',
    run (Example.world Example.noon 1 Example.service_500)
        VNone VNone Example.window VNone VNone VNone
        (initial_state {[ Example.tmp_folder ]})
    = (Raise (StatusException ERROR msg), s')
    /\ _tmp_data_folder (Example.world Example.noon 1 Example.service_500)
       ∉ dirs s'.
Proof.
  apply (proj2 (proj2 (run_removes_tmp_folder
           (Example.world Example.noon 1 Example.service_500)
           VNone VNone Example.window VNone VNone VNone
           (initial_state {[ Example.tmp_folder ]})))
         (mk_validated_args VNone VNone (mk_datetime 2025 7 23 10 0 0 0 None)
            (mk_datetime 2025 7 23 10 55 0 0 None) (VStr "geojson") VNone VNone)
         (with_ticks 1 (initial_state {[ Example.tmp_folder ]}))
         [-3; -2]
         (with_ticks 3 (initial_state {[ Example.tmp_folder ]}))
         (-2) (mk_response 500 "Internal Server Error" (Ok []))).
  - vm_compute. reflexivity.
  - vm_compute. reflexivity.
  - simpl. auto.
  - vm_compute. reflexivity.
  - reflexivity.
Defined.

(** * Further properties *)

From Stdlib Require Import Sorted.

Lemma all_from_spec fuel i p :
  all_from fuel i p = true ->
  forall j, i <= j < i + Z.of_nat fuel -> p j = true.
Proof.
  revert i. induction fuel as [|fuel IH]; intros i H j Hj; [lia |].
  simpl in H. apply andb_true_iff in H as [Hi Hrest].
  destruct (Z.eq_dec j i) as [-> | Hne]; [exact Hi |].
  apply (IH (i + 1) Hrest). lia.
Qed.

Lemma month_day_in_year leapyear n :
  0 <= n < 365 -> month_day_ok leapyear n = true.
Proof.
  intros Hn.
  assert (H : all_from 365 0 (month_day_ok true)
              && all_from 365 0 (month_day_ok false) = true)
    by (vm_compute; reflexivity).
  apply andb_true_iff in H as [Ht Hf].
  destruct leapyear; eapply all_from_spec; eauto; lia.
Qed.

Lemma days_before_month_leap y m :
  days_before_month y m
  = days_before_month 1 m + (if (2 <? m) && is_leap y then 1 else 0).
Proof.
  unfold days_before_month. change (is_leap 1) with false.
  rewrite andb_false_r. lia.
Qed.

Lemma ord2ymd_eq ordinal :
  ord2ymd ordinal
  = let n := ordinal - 1 in
    let n400 := n / 146097 in
    let n := n mod 146097 in
    let n100 := n / 36524 in
    let n := n mod 36524 in
    let n4 := n / 1461 in
    let n := n mod 1461 in
    let n1 := n / 365 in
    let n := n mod 365 in
    let y := n400 * 400 + 1 + n100 * 100 + n4 * 4 + n1 in
    if (n1 =? 4) || (n100 =? 4) then (y - 1, 12, 31)
    else
      let '(m, d) :=
        month_day ((n1 =? 3) && (negb (n4 =? 24) || (n100 =? 3))) n in
      (y, m, d).
Proof.
  unfold ord2ymd, month_day. cbv zeta.
  destruct ((_ =? 4) || (_ =? 4)); [reflexivity |].
  destruct (_ <? _); reflexivity.
Qed.

Lemma is_leap_in_cycle n400 n100 n4 n1 :
  0 <= n100 <= 3 -> 0 <= n4 <= 24 -> 0 <= n1 <= 3 ->
  is_leap (n400 * 400 + 1 + n100 * 100 + n4 * 4 + n1)
  = (n1 =? 3) && (negb (n4 =? 24) || (n100 =? 3)).
Proof.
  intros H100 H4 H1. unfold is_leap.
  repeat match goal with
  | |- context [?a =? ?b] => destruct (Z.eqb_spec a b)
  end; simpl; try reflexivity; exfalso;
    Z.div_mod_to_equations; lia.
Qed.

Lemma ymd2ord_ord2ymd n :
  let '(y, m, d) := ord2ymd n in ymd2ord y m d = n.
Proof.
  rewrite ord2ymd_eq. cbv zeta.
  set (n0 := n - 1).
  set (n400 := n0 / 146097). set (a := n0 mod 146097).
  set (n100 := a / 36524). set (b := a mod 36524).
  set (n4 := b / 1461). set (c := b mod 1461).
  set (n1 := c / 365). set (e := c mod 365).
  assert (Hn0 : n0 = 146097 * n400 + a /\ 0 <= a < 146097)
    by (subst n400 a; Z.div_mod_to_equations; lia).
  assert (Ha : a = 36524 * n100 + b /\ 0 <= b < 36524)
    by (subst n100 b; Z.div_mod_to_equations; lia).
  assert (Hb : b = 1461 * n4 + c /\ 0 <= c < 1461)
    by (subst n4 c; Z.div_mod_to_equations; lia).
  assert (Hc : c = 365 * n1 + e /\ 0 <= e < 365)
    by (subst n1 e; Z.div_mod_to_equations; lia).
  assert (Hn : n = n0 + 1) by (subst n0; lia).
  clearbody n0 n400 a n100 b n4 c n1 e.
  destruct (Z.eqb_spec n1 4) as [E1|E1]; simpl.
  - (* the last day of a cycle of four years *)
    unfold ymd2ord, days_before_year. rewrite days_before_month_leap.
    assert (Hl : is_leap (n400 * 400 + 1 + n100 * 100 + n4 * 4 + n1 - 1) = true).
    { unfold is_leap.
      repeat match goal with
      | |- context [?x =? ?z] => destruct (Z.eqb_spec x z)
      end; simpl; try reflexivity; exfalso; Z.div_mod_to_equations; lia. }
    rewrite Hl. change (days_before_month 1 12) with 334.
      change (if (2 <? 12) && true then 1 else 0) with 1.
      cbv zeta. Z.div_mod_to_equations. lia.
  - destruct (Z.eqb_spec n100 4) as [E100|E100]; simpl.
    + (* the last day of a cycle of four hundred years *)
      unfold ymd2ord, days_before_year. rewrite days_before_month_leap.
      assert (Hl : is_leap (n400 * 400 + 1 + n100 * 100 + n4 * 4 + n1 - 1) = true).
      { unfold is_leap.
        repeat match goal with
        | |- context [?x =? ?z] => destruct (Z.eqb_spec x z)
        end; simpl; try reflexivity; exfalso; Z.div_mod_to_equations; lia. }
      rewrite Hl. change (days_before_month 1 12) with 334.
      change (if (2 <? 12) && true then 1 else 0) with 1.
      cbv zeta. Z.div_mod_to_equations. lia.
    + assert (H100 : 0 <= n100 <= 3) by lia.
      assert (H4 : 0 <= n4 <= 24) by lia.
      assert (H1 : 0 <= n1 <= 3) by lia.
      pose proof (month_day_in_year
                    ((n1 =? 3) && (negb (n4 =? 24) || (n100 =? 3))) e
                    ltac:(lia)) as Hmd.
      unfold month_day_ok in Hmd.
      destruct (month_day _ e) as [m d].
      apply Z.eqb_eq in Hmd.
      unfold ymd2ord. rewrite days_before_month_leap.
      rewrite is_leap_in_cycle by assumption.
      unfold days_before_year. cbv zeta. Z.div_mod_to_equations. lia.
Qed.

(** ** Instants *)

(** A datetime built from a count of microseconds denotes that count. *)
Lemma to_micros_of_micros us tz : to_micros (of_micros us tz) = us.
Proof.
  unfold to_micros, of_micros.
  pose proof (ymd2ord_ord2ymd (us / us_per_day)) as Hord.
  destruct (ord2ymd (us / us_per_day)) as [[y m] d]. simpl.
  rewrite Hord. unfold us_per_day, us_per_hour, us_per_second.
  Z.div_mod_to_equations. lia.
Qed.

Lemma dt_add_micros t delta t' :
  dt_add t delta = Ok t' -> to_micros t' = to_micros t + delta.
Proof.
  unfold dt_add. destruct ((0 <? _) && _); [| discriminate].
  intros H. inversion H. apply to_micros_of_micros.
Qed.

Lemma new_datetime_valid y m d hh mi ss us tz t :
  new_datetime y m d hh mi ss us tz = Ok t -> valid_datetime t = true.
Proof.
  unfold new_datetime, valid_datetime.
  destruct (valid_fields y m d hh mi ss us) eqn:E; [| discriminate].
  intros H. inversion H. exact E.
Qed.

Lemma fromisoformat_valid txt t :
  fromisoformat txt = Ok t -> valid_datetime t = true.
Proof.
  unfold fromisoformat.
  destruct (parse_isoformat_date _) as [[[[y m] d] [|c rest]]|];
    try discriminate.
  - apply new_datetime_valid.
  - destruct (parse_isoformat_time rest) as [[[[[hh mi] ss] f] tz]|];
      [apply new_datetime_valid | discriminate].
Qed.

Lemma parse_time_ok label v t :
  parse_time label v = Ok t -> exists txt, v = VStr txt /\ fromisoformat txt = Ok t.
Proof.
  unfold parse_time, invalid. destruct v as [| | | |txt| | | |]; try discriminate.
  destruct (fromisoformat txt) as [t0|e] eqn:E.
  - intros H. inversion H; subst. eauto.
  - intros H. exfalso. revert H.
    destruct e as [| cls msg |]; try discriminate.
    repeat match goal with
    | |- context [match ?x with _ => _ end] => destruct x; try discriminate
    end.
Qed.

Lemma parse_time_valid label v t :
  parse_time label v = Ok t -> valid_datetime t = true.
Proof.
  intros H. apply parse_time_ok in H as (txt & _ & H).
  eapply fromisoformat_valid; eauto.
Qed.

Lemma valid_datetime_time t :
  valid_datetime t = true ->
  0 <= hour t <= 23 /\ 0 <= minute t <= 59 /\ 0 <= second t <= 59
  /\ 0 <= microsecond t <= 999999.
Proof.
  unfold valid_datetime, valid_fields. rewrite !andb_true_iff. lia.
Qed.

(** Truncation moves the instant down to a multiple of five minutes. *)
Lemma to_micros_truncated t :
  valid_datetime t = true ->
  to_micros (truncated t)
  = to_micros t / (300 * us_per_second) * (300 * us_per_second).
Proof.
  intros Hv. apply valid_datetime_time in Hv.
  unfold to_micros, truncated. simpl.
  generalize (ymd2ord (year t) (month t) (day t)). intros o.
  unfold us_per_day, us_per_hour, us_per_second.
  Z.div_mod_to_equations. lia.
Qed.

Lemma truncated_mono a b :
  valid_datetime a = true -> valid_datetime b = true ->
  to_micros a <= to_micros b ->
  to_micros (truncated a) <= to_micros (truncated b).
Proof.
  intros Ha Hb Hle. rewrite !to_micros_truncated by assumption.
  apply Z.mul_le_mono_nonneg_r; [unfold us_per_second; lia |].
  apply Z.div_le_mono; [unfold us_per_second; lia | exact Hle].
Qed.

Lemma truncated_le t :
  valid_datetime t = true ->
  to_micros t - 300 * us_per_second < to_micros (truncated t) <= to_micros t.
Proof.
  intros Hv. rewrite to_micros_truncated by exact Hv.
  unfold us_per_second. Z.div_mod_to_equations. lia.
Qed.

(** The fields of a datetime built from a multiple of five minutes. *)
Lemma of_micros_aligned us tz :
  us mod (300 * us_per_second) = 0 ->
  minute (of_micros us tz) mod 5 = 0
  /\ second (of_micros us tz) = 0
  /\ microsecond (of_micros us tz) = 0.
Proof.
  intros H. unfold of_micros.
  destruct (ord2ymd (us / us_per_day)) as [[y m] d]. simpl.
  unfold us_per_day, us_per_hour, us_per_second in *.
  Z.div_mod_to_equations. lia.
Qed.

Lemma bind_lift {A B} (r : result A) (k : A -> M B) s :
  bind (lift r) k s = match r with Ok a => k a s | Raise e => (Raise e, s) end.
Proof. unfold bind, lift. destruct r; reflexivity. Qed.

Lemma bind_raise_if {B} c e (k : unit -> M B) s :
  bind (raise_if c e) k s = if c then (Raise e, s) else k tt s.
Proof. unfold bind, raise_if, raise, ret. destruct c; reflexivity. Qed.

Lemma bind_ret {A B} (a : A) (k : A -> M B) s : bind (ret a) k s = k a s.
Proof. reflexivity. Qed.

(** [argument_validation] in three stages: the checks on the request alone,
    the reading of the clock with the test of the age, and the checks of the
    output options. *)
Lemma argument_validation_stages h (kwargs : gmap string pyval) s :
  argument_validation h kwargs s
  = match checked_times kwargs with
    | Raise e => (Raise e, s)
    | Ok (time_start, time_end) =>
        match checked_age (clock h (ticks s)) time_end with
        | Raise e => (Raise e, with_ticks (S (ticks s)) s)
        | Ok _ =>
            checked_outputs h kwargs time_start time_end
              (with_ticks (S (ticks s)) s)
        end
    end.
Proof.
  unfold argument_validation, checked_times.
  rewrite bind_lift.
  destruct (time_range_item _ 0 _) as [rs|e]; cbn [rbind]; [| reflexivity].
  rewrite bind_lift.
  destruct (time_range_item _ 1 _) as [re|e]; cbn [rbind]; [| reflexivity].
  rewrite bind_lift.
  destruct (validate_range "lat_range" _ _) as [[]|e]; cbn [rbind]; [| reflexivity].
  rewrite bind_lift.
  destruct (validate_range "long_range" _ _) as [[]|e]; cbn [rbind]; [| reflexivity].
  rewrite bind_raise_if.
  destruct (is_none rs); cbn [rbind]; [reflexivity |].
  rewrite bind_lift.
  destruct (parse_time "time_start" rs) as [t0|e]; cbn [rbind]; [| reflexivity].
  unfold bind at 1.
  assert (Hend :
    (if is_none re then ret None
     else let! te := lift (parse_time "time_end" re) in
          let! later := lift (dt_gt t0 te) in
          raise_if later
            (StatusException INVALID "time_start must be less than time_end") ;;
          ret (Some te)) s
    = match (if is_none re then Ok None
             else let? te := parse_time "time_end" re in
                  let? later := dt_gt t0 te in
                  if later
                  then Raise (StatusException INVALID
                                "time_start must be less than time_end")
                  else Ok (Some te)) with
      | Ok x => (Ok x, s)
      | Raise e => (Raise e, s)
      end).
  { destruct (is_none re); [reflexivity |].
    rewrite bind_lift.
    destruct (parse_time "time_end" re) as [te|e]; cbn [rbind]; [| reflexivity].
    rewrite bind_lift.
    destruct (dt_gt t0 te) as [later|e]; cbn [rbind]; [| reflexivity].
    rewrite bind_raise_if. destruct later; reflexivity. }
  rewrite Hend. clear Hend.
  match goal with
  | |- context [rbind ?x _] => destruct x as [oe|e]; cbn [rbind]; [| reflexivity]
  end.
  rewrite bind_lift.
  destruct (truncate_5min t0) as [ts|e]; cbn [rbind]; [| reflexivity].
  unfold bind at 1.
  assert (Hte :
    match oe with
    | Some te => lift (truncate_5min te)
    | None => lift (dt_add ts (1 * us_per_hour))
    end s
    = (match oe with
       | Some te => truncate_5min te
       | None => dt_add ts (1 * us_per_hour)
       end, s)) by (destruct oe; reflexivity).
  rewrite Hte. clear Hte.
  match goal with
  | |- context [rbind ?x _] => destruct x as [te|e]; cbn [rbind]; [| reflexivity]
  end.
  unfold bind at 1, now_utc at 1. unfold checked_age.
  rewrite bind_lift.
  destruct (dt_add _ (- (48 * us_per_hour))) as [limit|e]; cbn [rbind];
    [| reflexivity].
  rewrite bind_lift.
  destruct (dt_lt te (replace_tzinfo_none limit)) as [too_old|e]; cbn [rbind];
    [| reflexivity].
  rewrite bind_raise_if. destruct too_old; reflexivity.
Qed.

Lemma dt_gt_false_naive a b :
  tzinfo a = None -> tzinfo b = None ->
  dt_gt a b = Ok false -> to_micros a <= to_micros b.
Proof.
  intros Ha Hb. unfold dt_gt, dt_compare. rewrite Ha, Hb. cbn [rbind].
  destruct (to_micros a ?= to_micros b) eqn:E; try discriminate; intros _.
  - apply Z.compare_eq in E. lia.
  - apply -> Z.compare_lt_iff in E. lia.
Qed.

Lemma dt_le_naive a b :
  tzinfo a = None -> tzinfo b = None ->
  dt_le a b = Ok (to_micros a <=? to_micros b).
Proof.
  intros Ha Hb. unfold dt_le, dt_compare. rewrite Ha, Hb. cbn [rbind].
  unfold Z.leb. destruct (to_micros a ?= to_micros b); reflexivity.
Qed.

Lemma dt_lt_naive a b :
  tzinfo a = None -> tzinfo b = None ->
  dt_lt a b = Ok (to_micros a <? to_micros b).
Proof.
  intros Ha Hb. unfold dt_lt, dt_compare. rewrite Ha, Hb. cbn [rbind].
  unfold Z.ltb. destruct (to_micros a ?= to_micros b); reflexivity.
Qed.

Lemma truncated_fields t :
  minute (truncated t) mod 5 = 0 /\ second (truncated t) = 0
  /\ microsecond (truncated t) = 0.
Proof. simpl. split; [apply Z.mod_mul; lia | split; reflexivity]. Qed.

Lemma dt_add_eq t delta t' :
  dt_add t delta = Ok t' -> t' = of_micros (to_micros t + delta) (tzinfo t).
Proof.
  unfold dt_add. destruct ((0 <? _) && _); [| discriminate].
  intros H. inversion H. reflexivity.
Qed.

(** The two times of an accepted request, traced back to the request. *)
Lemma validated_times h (kwargs : gmap string pyval) s v s' :
  argument_validation h kwargs s = (Ok v, s') ->
  exists raw_start raw_end t0,
    time_range_item (kwargs_get kwargs "time_range") 0
                    (kwargs_get kwargs "time_range") = Ok raw_start
    /\ time_range_item (kwargs_get kwargs "time_range") 1 VNone = Ok raw_end
    /\ parse_time "time_start" raw_start = Ok t0
    /\ valid_datetime t0 = true /\ tzinfo t0 = None
    /\ va_time_start v = truncated t0
    /\ tzinfo (va_time_start v) = None /\ tzinfo (va_time_end v) = None
    /\ (if is_none raw_end
        then va_time_end v
             = of_micros (to_micros (va_time_start v) + us_per_hour) None
        else exists t1, parse_time "time_end" raw_end = Ok t1
                        /\ valid_datetime t1 = true /\ tzinfo t1 = None
                        /\ to_micros t0 <= to_micros t1
                        /\ va_time_end v = truncated t1).
Proof.
  intros H.
  destruct (argument_validation_shapes _ _ _ _ _ H) as (Ns & Ne & _ & _).
  destruct (argument_validation_ok_inv _ _ _ _ _ H)
    as (rs & re & t0 & lim & H1 & H2 & _ & _ & H3 & H4 & H5 & _).
  pose proof (truncate_5min_eq _ _ H4) as Es.
  assert (N0 : tzinfo t0 = None).
  { apply truncate_5min_tzinfo in H4. congruence. }
  exists rs, re, t0. split; [exact H1 |]. split; [exact H2 |].
  split; [exact H3 |]. split; [eapply parse_time_valid; exact H3 |].
  split; [exact N0 |]. split; [exact Es |]. split; [exact Ns |].
  split; [exact Ne |].
  destruct (is_none re).
  - apply dt_add_eq in H5. rewrite H5, Ns. reflexivity.
  - destruct H5 as (t1 & P1 & P2 & P3).
    pose proof (truncate_5min_eq _ _ P3) as Ee.
    assert (N1 : tzinfo t1 = None).
    { apply truncate_5min_tzinfo in P3. congruence. }
    exists t1. split; [exact P1 |].
    split; [eapply parse_time_valid; exact P1 |]. split; [exact N1 |].
    split; [apply dt_gt_false_naive; assumption | exact Ee].
Qed.

(** X1. Every request that [argument_validation] accepts comes out with a
    window in naive datetimes that starts no later than it ends, and both
    ends lie on a minute that is a multiple of five, with seconds and
    microseconds zero (the default end, one hour after the start,
    included). *)
Theorem validated_window (h : Host) (kwargs : gmap string pyval)
    (s : State) (v : validated_args) (s' : State) :
  argument_validation h kwargs s = (Ok v, s') ->
  tzinfo (va_time_start v) = None
  /\ tzinfo (va_time_end v) = None
  /\ dt_le (va_time_start v) (va_time_end v) = Ok true
  /\ minute (va_time_start v) mod 5 = 0
  /\ second (va_time_start v) = 0 /\ microsecond (va_time_start v) = 0
  /\ minute (va_time_end v) mod 5 = 0
  /\ second (va_time_end v) = 0 /\ microsecond (va_time_end v) = 0.
Proof.
  intros H.
  destruct (validated_times _ _ _ _ _ H)
    as (rs & re & t0 & _ & _ & Hp & V0 & N0 & Es & Ns & Ne & Hend).
  split; [exact Ns |]. split; [exact Ne |].
  pose proof (to_micros_truncated t0 V0) as Hts. rewrite <- Es in Hts.
  assert (Hle : to_micros (va_time_start v) <= to_micros (va_time_end v)).
  { destruct (is_none re).
    - rewrite Hend, to_micros_of_micros. unfold us_per_hour, us_per_second. lia.
    - destruct Hend as (t1 & _ & V1 & _ & Hle & Ee). rewrite Es, Ee.
      apply truncated_mono; assumption. }
  split.
  { rewrite dt_le_naive by assumption. f_equal. apply Z.leb_le. exact Hle. }
  destruct (truncated_fields t0) as (A1 & A2 & A3). rewrite <- Es in A1, A2, A3.
  repeat (split; [assumption |]).
  destruct (is_none re).
  - rewrite Hend. apply of_micros_aligned. rewrite Hts.
    unfold us_per_hour, us_per_second. Z.div_mod_to_equations. lia.
  - destruct Hend as (t1 & _ & _ & _ & _ & Ee).
    destruct (truncated_fields t1) as (B1 & B2 & B3). rewrite <- Ee in B1, B2, B3.
    auto.
Qed.

Lemma dt_sub_naive a b :
  tzinfo a = None -> tzinfo b = None -> dt_sub a b = Ok (to_micros a - to_micros b).
Proof. intros Ha Hb. unfold dt_sub. rewrite Ha, Hb. reflexivity. Qed.

(** X2. A request whose [time_range] is a single ISO string, or a list whose
    second item is [None], is validated to the window that starts at the
    given time, truncated to five minutes, and ends exactly one hour
    later. *)
Theorem default_window (h : Host) (kwargs : gmap string pyval) (s : State)
    (v : validated_args) (s' : State) (txt : string) :
  (kwargs_get kwargs "time_range" = VStr txt
   \/ exists rest, kwargs_get kwargs "time_range" = VList (VStr txt :: VNone :: rest)) ->
  argument_validation h kwargs s = (Ok v, s') ->
  exists t0,
    fromisoformat txt = Ok t0
    /\ va_time_start v = truncated t0
    /\ dt_sub (va_time_end v) (va_time_start v) = Ok (3600 * us_per_second)
    /\ to_micros (va_time_start v) <= to_micros t0
       < to_micros (va_time_start v) + 300 * us_per_second.
Proof.
  intros Htr H.
  destruct (validated_times _ _ _ _ _ H)
    as (rs & re & t0 & H1 & H2 & Hp & V0 & N0 & Es & Ns & Ne & Hend).
  assert (rs = VStr txt /\ re = VNone) as [-> ->].
  { destruct Htr as [Htr | [rest Htr]]; rewrite Htr in H1, H2;
      simpl in H1, H2; inversion H1; inversion H2; auto. }
  apply parse_time_ok in Hp as (txt' & Ht & Hp). inversion Ht; subst txt'.
  exists t0. split; [exact Hp |]. split; [exact Es |]. split.
  - rewrite dt_sub_naive by assumption. simpl in Hend.
    rewrite Hend, to_micros_of_micros. f_equal. unfold us_per_hour. lia.
  - pose proof (truncated_le t0 V0) as Hle. rewrite <- Es in Hle. lia.
Qed.

Lemma default_window_witness :
  exists t0,
    fromisoformat "2025-07-23T10:02:30" = Ok t0
    /\ mk_datetime 2025 7 23 10 0 0 0 None = truncated t0
    /\ dt_sub (mk_datetime 2025 7 23 11 0 0 0 None)
              (mk_datetime 2025 7 23 10 0 0 0 None) = Ok (3600 * us_per_second)
    /\ to_micros (mk_datetime 2025 7 23 10 0 0 0 None) <= to_micros t0
       < to_micros (mk_datetime 2025 7 23 10 0 0 0 None) + 300 * us_per_second.
Proof.
  apply (default_window (Example.world Example.noon 1 Example.service_ok)
           (<[ "time_range" := VStr "2025-07-23T10:02:30" ]> ∅) (initial_state ∅)
           (mk_validated_args VNone VNone (mk_datetime 2025 7 23 10 0 0 0 None)
              (mk_datetime 2025 7 23 11 0 0 0 None) (VStr "geojson") VNone VNone)
           (with_ticks 1 (initial_state ∅)) "2025-07-23T10:02:30").
  - left. reflexivity.
  - vm_compute. reflexivity.
Defined.

Lemma validated_window_witness :
  tzinfo (mk_datetime 2025 7 23 10 0 0 0 None) = None
  /\ tzinfo (mk_datetime 2025 7 23 10 55 0 0 None) = None
  /\ dt_le (mk_datetime 2025 7 23 10 0 0 0 None)
           (mk_datetime 2025 7 23 10 55 0 0 None) = Ok true
  /\ 0 mod 5 = 0 /\ 0 = 0 /\ 0 = 0 /\ 55 mod 5 = 0 /\ 0 = 0 /\ 0 = 0.
Proof.
  apply (validated_window (Example.world Example.noon 1 Example.service_ok)
           (<[ "time_range" := Example.window ]> ∅) (initial_state ∅)
           (mk_validated_args VNone VNone (mk_datetime 2025 7 23 10 0 0 0 None)
              (mk_datetime 2025 7 23 10 55 0 0 None) (VStr "geojson") VNone VNone)
           (with_ticks 1 (initial_state ∅))).
  vm_compute. reflexivity.
Defined.

Lemma checked_outputs_ok_inv h (kwargs : gmap string pyval) ts te s v s' :
  checked_outputs h kwargs ts te s = (Ok v, s') ->
  va_time_start v = ts /\ va_time_end v = te
  /\ va_lat_range v = kwargs_get kwargs "lat_range"
  /\ va_long_range v = kwargs_get kwargs "long_range"
  /\ validate_out_format (kwargs_get kwargs "out_format") = Ok (va_out_format v)
  /\ validate_bucket_destination (kwargs_get kwargs "bucket_destination") = Ok tt
  /\ va_bucket_destination v = kwargs_get kwargs "bucket_destination"
  /\ va_out v = kwargs_get kwargs "out"
  /\ validate_out h (kwargs_get kwargs "out") s = (Ok tt, s').
Proof.
  unfold checked_outputs. intros H. inv_monad.
  repeat match goal with u : unit |- _ => destruct u end.
  simpl. repeat split; assumption.
Qed.

Lemma to_micros_replace_tzinfo_none t :
  to_micros (replace_tzinfo_none t) = to_micros t.
Proof. unfold to_micros. reflexivity. Qed.

Lemma to_micros_at_utc t :
  to_micros (mk_datetime (year t) (month t) (day t) (hour t) (minute t)
                         (second t) (microsecond t) (Some 0))
  = to_micros t.
Proof. unfold to_micros. reflexivity. Qed.

Lemma checked_age_naive now te :
  tzinfo te = None ->
  0 < (to_micros now - 48 * us_per_hour) / us_per_day <= 3652059 ->
  checked_age now te
  = if to_micros te <? to_micros now - 48 * us_per_hour
    then Raise (StatusException INVALID
                  "Time range must be within the last 48 hours")
    else Ok tt.
Proof.
  intros Hte Hrange. unfold checked_age, dt_add.
  rewrite to_micros_at_utc.
  replace (to_micros now + - (48 * us_per_hour))
    with (to_micros now - 48 * us_per_hour) by lia.
  destruct (0 <? _) eqn:E1; [| apply Z.ltb_ge in E1; lia].
  destruct (_ <=? 3652059) eqn:E2; [| apply Z.leb_gt in E2; lia].
  cbn [andb rbind].
  rewrite dt_lt_naive; [| exact Hte | reflexivity]. cbn [rbind].
  rewrite to_micros_replace_tzinfo_none, to_micros_of_micros. reflexivity.
Qed.

Lemma checked_age_ok now te :
  tzinfo te = None ->
  checked_age now te = Ok tt ->
  to_micros now - 48 * us_per_hour <= to_micros te.
Proof.
  intros Hte. unfold checked_age.
  destruct (dt_add _ _) as [limit|e] eqn:El; [| discriminate]. cbn [rbind].
  apply dt_add_micros in El. rewrite to_micros_at_utc in El.
  rewrite dt_lt_naive; [| exact Hte | reflexivity]. cbn [rbind].
  rewrite to_micros_replace_tzinfo_none.
  destruct (to_micros te <? to_micros limit) eqn:E; [discriminate |].
  intros _. apply Z.ltb_ge in E. lia.
Qed.

(** X3. The 48-hour rule. [argument_validation] reads the clock once, and an
    accepted window ends no earlier than 48 hours before that reading.
    The reading matters for nothing else: under any other clock the same
    request is rejected with [INVALID] when its validated end is older
    than 48 hours, and accepted with the same result otherwise, however
    far in the future the window lies. *)
Theorem window_48h (h : Host) (kwargs : gmap string pyval) (s : State)
    (v : validated_args) (s' : State) :
  argument_validation h kwargs s = (Ok v, s') ->
  ticks s' = S (ticks s)
  /\ to_micros (clock h (ticks s)) - 48 * us_per_hour <= to_micros (va_time_end v)
  /\ forall c : nat -> datetime,
       0 < (to_micros (c (ticks s)) - 48 * us_per_hour) / us_per_day <= 3652059 ->
       argument_validation (with_clock c h) kwargs s
       = if to_micros (va_time_end v) <? to_micros (c (ticks s)) - 48 * us_per_hour
         then (Raise (StatusException INVALID
                        "Time range must be within the last 48 hours"),
               with_ticks (S (ticks s)) s)
         else (Ok v, s').
Proof.
  intros H.
  destruct (argument_validation_shapes _ _ _ _ _ H) as (_ & Ne & _ & _).
  pose proof H as Hst. rewrite argument_validation_stages in Hst.
  destruct (checked_times kwargs) as [[ts te]|e] eqn:Et; [| discriminate].
  destruct (checked_age (clock h (ticks s)) te) as [[]|e] eqn:Ea; [| discriminate].
  pose proof (checked_outputs_ok_inv _ _ _ _ _ _ _ Hst)
    as (_ & Ee & _ & _ & _ & _ & _ & _ & Hout).
  rewrite Ee in *. split; [| split].
  - unfold validate_out in Hout.
    destruct (kwargs_get kwargs "out") as [| | | |p| | | |];
      try (unfold lift, invalid in Hout; discriminate).
    + inversion Hout. reflexivity.
    + destruct (endswith p ".geojson");
        [| unfold lift, invalid in Hout; discriminate].
      unfold bind, os_path_exists, os_makedirs, modify, raise, ret in Hout.
      destruct (negb _ && negb _); [| inversion Hout; reflexivity].
      destruct (can_makedirs h _); inversion Hout. reflexivity.
  - apply checked_age_ok; assumption.
  - intros c Hc. rewrite argument_validation_stages, Et.
    change (clock (with_clock c h)) with c.
    rewrite checked_age_naive by assumption.
    destruct (to_micros te <? _); [reflexivity | exact Hst].
Qed.

Lemma window_48h_witness :
  ticks (with_ticks 1 (initial_state ∅)) = S (ticks (initial_state ∅))
  /\ to_micros (clock (Example.world Example.noon 1 Example.service_ok)
                      (ticks (initial_state ∅))) - 48 * us_per_hour
     <= to_micros (mk_datetime 2025 7 23 10 55 0 0 None)
  /\ argument_validation
       (with_clock (fun _ => mk_datetime 2025 7 25 11 0 0 0 None)
                   (Example.world Example.noon 1 Example.service_ok))
       (<[ "time_range" := Example.window ]> ∅) (initial_state ∅)
     = (Raise (StatusException INVALID
                 "Time range must be within the last 48 hours"),
        with_ticks 1 (initial_state ∅)).
Proof.
  assert (Hacc :
    argument_validation (Example.world Example.noon 1 Example.service_ok)
      (<[ "time_range" := Example.window ]> ∅) (initial_state ∅)
    = (Ok (mk_validated_args VNone VNone (mk_datetime 2025 7 23 10 0 0 0 None)
             (mk_datetime 2025 7 23 10 55 0 0 None) (VStr "geojson") VNone VNone),
       with_ticks 1 (initial_state ∅)))
    by (vm_compute; reflexivity).
  destruct (window_48h _ _ _ _ _ Hacc) as (H1 & H2 & H3).
  split; [exact H1 |]. split; [exact H2 |].
  apply (H3 (fun _ => mk_datetime 2025 7 25 11 0 0 0 None)).
  vm_compute. split; [reflexivity | discriminate].
Defined.

(** ** How [time_range] is unpacked *)




(** ** The longitude range *)

Lemma bind_put_long_range {A} range (m : M A) (k1 k2 : A -> M validated_args) s :
  (forall a s1, k1 a s1 = put_long_range range (k2 a s1)) ->
  bind m k1 s = put_long_range range (bind m k2 s).
Proof.
  intros H. unfold bind. destruct (m s) as [[a|e] s1]; [apply H | reflexivity].
Qed.

Lemma argument_validation_long_independent h (kwargs : gmap string pyval) range s :
  validate_range "long_range" 180 range = Ok tt ->
  argument_validation h (<[ "long_range" := range ]> kwargs) s =
  put_long_range range (argument_validation h (delete "long_range" kwargs) s).
Proof.
  intros Hok. unfold argument_validation.
  rewrite kwargs_get_insert, kwargs_get_delete.
  rewrite !kwargs_get_insert_ne by discriminate.
  rewrite !kwargs_get_delete_ne by discriminate.
  rewrite Hok. simpl (validate_range _ _ VNone).
  repeat (apply bind_put_long_range; intros ? ?).
  reflexivity.
Qed.

Lemma argument_validation_long_rejected h (kwargs : gmap string pyval) range s
    ts te e :
  time_range_item (kwargs_get kwargs "time_range") 0
                  (kwargs_get kwargs "time_range") = Ok ts ->
  time_range_item (kwargs_get kwargs "time_range") 1 VNone = Ok te ->
  validate_range "lat_range" 90 (kwargs_get kwargs "lat_range") = Ok tt ->
  validate_range "long_range" 180 range = Raise e ->
  argument_validation h (<[ "long_range" := range ]> kwargs) s = (Raise e, s).
Proof.
  intros Hs He Hlat Hr. unfold argument_validation.
  rewrite kwargs_get_insert.
  rewrite !kwargs_get_insert_ne by discriminate.
  rewrite Hs, He, Hlat, Hr. reflexivity.
Qed.

Lemma validate_range_pass label bound a b :
  is_int_or_float a = true -> is_int_or_float b = true ->
  out_of_domain bound a = false -> out_of_domain bound b = false ->
  num_gt a b = false ->
  validate_range label bound (VList [a; b]) = Ok tt.
Proof.
  intros Ta Tb Da Db Hab. unfold validate_range. rewrite Ta, Tb. simpl.
  unfold out_of_domain in Da, Db.
  apply orb_false_iff in Da as [-> ->]. apply orb_false_iff in Db as [-> ->].
  simpl. rewrite Hab. reflexivity.
Qed.

Lemma nan_passes bound x :
  out_of_domain bound nan = false
  /\ num_gt nan x = false /\ num_gt x nan = false.
Proof.
  unfold out_of_domain, num_lt, num_gt, float_lt, float_gt, nan. simpl.
  split; [reflexivity |]. split; [destruct (num_of x); reflexivity |].
  destruct (num_of x) as [[]|]; reflexivity.
Qed.

(** X5. Lines 82-90. A [long_range = [a, b]] of numbers passes when neither
    bound is below -180 or above 180 and [a] is not greater than [b]: the
    validation then behaves as on the request without [long_range] and
    returns the range unchanged. That is so for [a <= b] inside
    [[-180, 180]], and also when a bound is NaN, of which every comparison
    is false. When a test fails, the validation raises
    [StatusException INVALID], provided [time_range] was unpacked and
    [lat_range] has passed its own checks, which come first. *)
Theorem long_range_validation (h : Host) (kwargs : gmap string pyval) (a b : pyval) :
  is_int_or_float a = true -> is_int_or_float b = true ->
  (out_of_domain 180 a = false -> out_of_domain 180 b = false ->
   num_gt a b = false ->
     forall s,
       argument_validation h (<[ "long_range" := VList [a; b] ]> kwargs) s =
       put_long_range (VList [a; b])
         (argument_validation h (delete "long_range" kwargs) s))
  /\ (num_gt a b = true \/ out_of_domain 180 a = true \/ out_of_domain 180 b = true ->
      exists msg,
        forall s ts te,
          time_range_item (kwargs_get kwargs "time_range") 0
                          (kwargs_get kwargs "time_range") = Ok ts ->
          time_range_item (kwargs_get kwargs "time_range") 1 VNone = Ok te ->
          validate_range "lat_range" 90 (kwargs_get kwargs "lat_range") = Ok tt ->
          argument_validation h (<[ "long_range" := VList [a; b] ]> kwargs) s
            = (Raise (StatusException INVALID msg), s))
  /\ (num_le a b = true -> in_domain 180 a = true -> in_domain 180 b = true ->
      out_of_domain 180 a = false /\ out_of_domain 180 b = false
      /\ num_gt a b = false)
  /\ (a = nan \/ b = nan -> num_gt a b = false)
  /\ out_of_domain 180 nan = false.
Proof.
  intros Ta Tb. split; [| split; [| split; [| split]]].
  - intros Da Db Hab s.
    apply argument_validation_long_independent.
    apply validate_range_pass; assumption.
  - intros Hbad.
    destruct (validate_range_bad "long_range" 180 a b Ta Tb Hbad) as [msg Hmsg].
    exists msg. intros s ts te Hs He Hlat.
    eapply argument_validation_long_rejected; eauto.
  - intros Hab Da Db.
    split; [apply in_domain_not_out; exact Da |].
    split; [apply in_domain_not_out; exact Db | apply num_le_not_gt; exact Hab].
  - intros [-> | ->]; [apply (nan_passes 180 b) | apply (nan_passes 180 a)].
  - reflexivity.
Qed.

Lemma long_range_validation_witness :
  (argument_validation (Example.world Example.noon 1 Example.service_ok)
     (<[ "long_range" := VList [VFloat (FFin (1220 # 100)); VFloat (FFin (1283 # 100))] ]>
        (<[ "time_range" := Example.window ]> ∅))
     (initial_state ∅)
   = put_long_range (VList [VFloat (FFin (1220 # 100)); VFloat (FFin (1283 # 100))])
       (argument_validation (Example.world Example.noon 1 Example.service_ok)
          (delete "long_range" (<[ "time_range" := Example.window ]> ∅))
          (initial_state ∅)))
  /\ (argument_validation (Example.world Example.noon 1 Example.service_ok)
        (<[ "long_range" := VList [nan; VInt 12] ]>
           (<[ "time_range" := Example.window ]> ∅))
        (initial_state ∅)
      = put_long_range (VList [nan; VInt 12])
          (argument_validation (Example.world Example.noon 1 Example.service_ok)
             (delete "long_range" (<[ "time_range" := Example.window ]> ∅))
             (initial_state ∅)))
  /\ exists msg,
       argument_validation (Example.world Example.noon 1 Example.service_ok)
         (<[ "long_range" := VList [VInt 181; VInt 182] ]>
            (<[ "time_range" := Example.window ]> ∅))
         (initial_state ∅)
       = (Raise (StatusException INVALID msg), initial_state ∅).
Proof.
  split; [| split].
  - apply (proj1 (long_range_validation
                    (Example.world Example.noon 1 Example.service_ok)
                    (<[ "time_range" := Example.window ]> ∅)
                    (VFloat (FFin (1220 # 100))) (VFloat (FFin (1283 # 100)))
                    eq_refl eq_refl));
      reflexivity.
  - apply (proj1 (long_range_validation
                    (Example.world Example.noon 1 Example.service_ok)
                    (<[ "time_range" := Example.window ]> ∅)
                    nan (VInt 12) eq_refl eq_refl));
      reflexivity.
  - destruct (proj1 (proj2 (long_range_validation
                       (Example.world Example.noon 1 Example.service_ok)
                       (<[ "time_range" := Example.window ]> ∅)
                       (VInt 181) (VInt 182) eq_refl eq_refl))
                    (or_intror (or_introl eq_refl))) as (msg & Hav).
    exists msg.
    apply (Hav (initial_state ∅) (VStr "2025-07-23T10:02:00")
               (VStr "2025-07-23T10:58:00")); reflexivity.
Defined.

(** ** The latitude range *)

(** X24. Lines 72-80. A [lat_range = [a, b]] of numbers passes when neither
    bound is below -90 or above 90 and [a] is not greater than [b]: the
    validation then behaves as on the request without [lat_range] and
    returns the range unchanged. That is so for [a <= b] inside
    [[-90, 90]], and also when a bound is NaN. When a test fails, the
    validation raises [StatusException INVALID], provided [time_range] was
    unpacked (lines 66-67 run before the range checks). *)
Theorem lat_range_validation (h : Host) (kwargs : gmap string pyval) (a b : pyval) :
  is_int_or_float a = true -> is_int_or_float b = true ->
  (out_of_domain 90 a = false -> out_of_domain 90 b = false ->
   num_gt a b = false ->
     validate_range "lat_range" 90 (VList [a; b]) = Ok tt
     /\ forall s,
          argument_validation h (<[ "lat_range" := VList [a; b] ]> kwargs) s =
          put_lat_range (VList [a; b])
            (argument_validation h (delete "lat_range" kwargs) s))
  /\ (num_gt a b = true \/ out_of_domain 90 a = true \/ out_of_domain 90 b = true ->
      exists msg,
        validate_range "lat_range" 90 (VList [a; b])
          = Raise (StatusException INVALID msg)
        /\ forall s ts te,
             time_range_item (kwargs_get kwargs "time_range") 0
                             (kwargs_get kwargs "time_range") = Ok ts ->
             time_range_item (kwargs_get kwargs "time_range") 1 VNone = Ok te ->
             argument_validation h (<[ "lat_range" := VList [a; b] ]> kwargs) s
               = (Raise (StatusException INVALID msg), s))
  /\ (num_le a b = true -> in_domain 90 a = true -> in_domain 90 b = true ->
      out_of_domain 90 a = false /\ out_of_domain 90 b = false
      /\ num_gt a b = false)
  /\ (a = nan \/ b = nan -> num_gt a b = false)
  /\ out_of_domain 90 nan = false.
Proof.
  intros Ta Tb. split; [| split; [| split; [| split]]].
  - intros Da Db Hab.
    pose proof (validate_range_pass "lat_range" 90 a b Ta Tb Da Db Hab) as Hok.
    split; [exact Hok |]. intros s.
    apply argument_validation_lat_independent. exact Hok.
  - intros Hbad.
    destruct (validate_range_bad "lat_range" 90 a b Ta Tb Hbad) as [msg Hmsg].
    exists msg. split; [exact Hmsg |]. intros s ts te Hs He.
    eapply argument_validation_lat_rejected; eauto.
  - intros Hab Da Db.
    split; [apply in_domain_not_out; exact Da |].
    split; [apply in_domain_not_out; exact Db | apply num_le_not_gt; exact Hab].
  - intros [-> | ->]; [apply (nan_passes 90 b) | apply (nan_passes 90 a)].
  - reflexivity.
Qed.

Lemma lat_range_validation_witness :
  validate_range "lat_range" 90
    (VList [VFloat (FFin (4392 # 100)); VFloat (FFin (4477 # 100))]) = Ok tt
  /\ validate_range "lat_range" 90 (VList [nan; nan]) = Ok tt
  /\ exists msg,
       validate_range "lat_range" 90 (VList [VInt 10; VInt 5])
       = Raise (StatusException INVALID msg)
       /\ argument_validation (Example.world Example.noon 1 Example.service_ok)
            (<[ "lat_range" := VList [VInt 10; VInt 5] ]>
               (<[ "time_range" := Example.window ]> ∅))
            (initial_state ∅)
          = (Raise (StatusException INVALID msg), initial_state ∅).
Proof.
  split; [| split].
  - apply (proj1 (lat_range_validation
                    (Example.world Example.noon 1 Example.service_ok) ∅
                    (VFloat (FFin (4392 # 100))) (VFloat (FFin (4477 # 100)))
                    eq_refl eq_refl));
      reflexivity.
  - apply (proj1 (lat_range_validation
                    (Example.world Example.noon 1 Example.service_ok) ∅
                    nan nan eq_refl eq_refl));
      reflexivity.
  - destruct (proj1 (proj2 (lat_range_validation
                       (Example.world Example.noon 1 Example.service_ok)
                       (<[ "time_range" := Example.window ]> ∅)
                       (VInt 10) (VInt 5) eq_refl eq_refl))
                    (or_introl eq_refl)) as (msg & Hmsg & Hav).
    exists msg. split; [exact Hmsg |].
    apply (Hav (initial_state ∅) (VStr "2025-07-23T10:02:00")
               (VStr "2025-07-23T10:58:00")); reflexivity.
Defined.

(** ** The shape of the two coordinate ranges *)

Lemma validate_range_not_a_pair label bound range :
  not_a_pair range = true ->
  validate_range label bound range
  = Raise (StatusException INVALID (label ++ " must be a list of 2 elements")).
Proof.
  unfold not_a_pair, validate_range, invalid.
  destruct range as [| | | | |[|a [|b [|c l]]]| | |]; try discriminate; reflexivity.
Qed.

Lemma validate_range_not_numbers label bound a b :
  is_int_or_float a && is_int_or_float b = false ->
  validate_range label bound (VList [a; b])
  = Raise (StatusException INVALID (label ++ " elements must be float")).
Proof.
  intros H. unfold validate_range, invalid.
  destruct (is_int_or_float a), (is_int_or_float b); try discriminate; reflexivity.
Qed.

(** X6. Lines 72-76 and 82-86. In every request whose [time_range] was
    unpacked (lines 66-67 raise [IndexError] on a list or tuple with fewer
    than two items before any range is checked), a coordinate range that
    is not a list of exactly two items (a tuple, a number, a longer list)
    is rejected with [INVALID] and the message that it must be a list of 2
    elements; a pair with an item that is neither an [int] nor a [float]
    (a [bool], a string, [None]) is rejected with the message that the
    elements must be float. [lat_range] is checked first, then
    [long_range]. *)
Theorem range_type_errors (h : Host) (kwargs : gmap string pyval) (s : State)
    (ts te : pyval) :
  time_range_item (kwargs_get kwargs "time_range") 0
                  (kwargs_get kwargs "time_range") = Ok ts ->
  time_range_item (kwargs_get kwargs "time_range") 1 VNone = Ok te ->
  (forall range, not_a_pair range = true ->
     argument_validation h (<[ "lat_range" := range ]> kwargs) s
     = (Raise (StatusException INVALID "lat_range must be a list of 2 elements"), s))
  /\ (forall a b, is_int_or_float a && is_int_or_float b = false ->
        argument_validation h (<[ "lat_range" := VList [a; b] ]> kwargs) s
        = (Raise (StatusException INVALID "lat_range elements must be float"), s))
  /\ (validate_range "lat_range" 90 (kwargs_get kwargs "lat_range") = Ok tt ->
      (forall range, not_a_pair range = true ->
         argument_validation h (<[ "long_range" := range ]> kwargs) s
         = (Raise (StatusException INVALID
                     "long_range must be a list of 2 elements"), s))
      /\ (forall a b, is_int_or_float a && is_int_or_float b = false ->
            argument_validation h (<[ "long_range" := VList [a; b] ]> kwargs) s
            = (Raise (StatusException INVALID
                        "long_range elements must be float"), s))).
Proof.
  intros Hs He. split; [| split].
  - intros range Hr.
    apply (argument_validation_lat_rejected h kwargs range s ts te _ Hs He).
    apply (validate_range_not_a_pair "lat_range" 90 range Hr).
  - intros a b Hab.
    apply (argument_validation_lat_rejected h kwargs _ s ts te _ Hs He).
    apply (validate_range_not_numbers "lat_range" 90 a b Hab).
  - intros Hlat. split.
    + intros range Hr.
      apply (argument_validation_long_rejected h kwargs range s ts te _ Hs He Hlat).
      apply (validate_range_not_a_pair "long_range" 180 range Hr).
    + intros a b Hab.
      apply (argument_validation_long_rejected h kwargs _ s ts te _ Hs He Hlat).
      apply (validate_range_not_numbers "long_range" 180 a b Hab).
Qed.

Lemma range_type_errors_witness :
  argument_validation (Example.world Example.noon 1 Example.service_ok)
    (<[ "lat_range" := VTuple [VInt 44; VInt 45] ]>
       (<[ "time_range" := Example.window ]> ∅))
    (initial_state ∅)
  = (Raise (StatusException INVALID "lat_range must be a list of 2 elements"),
     initial_state ∅)
  /\ argument_validation (Example.world Example.noon 1 Example.service_ok)
       (<[ "long_range" := VList [VBool true; VInt 12] ]>
          (<[ "time_range" := Example.window ]> ∅))
       (initial_state ∅)
     = (Raise (StatusException INVALID "long_range elements must be float"),
        initial_state ∅).
Proof.
  assert (H0 : time_range_item
                 (kwargs_get (<[ "time_range" := Example.window ]> ∅) "time_range")
                 0 (kwargs_get (<[ "time_range" := Example.window ]> ∅) "time_range")
               = Ok (VStr "2025-07-23T10:02:00")) by reflexivity.
  assert (H1 : time_range_item
                 (kwargs_get (<[ "time_range" := Example.window ]> ∅) "time_range")
                 1 VNone
               = Ok (VStr "2025-07-23T10:58:00")) by reflexivity.
  destruct (range_type_errors (Example.world Example.noon 1 Example.service_ok)
              (<[ "time_range" := Example.window ]> ∅) (initial_state ∅)
              _ _ H0 H1) as (A & _ & B).
  split.
  - apply A. reflexivity.
  - apply (proj2 (B eq_refl)). reflexivity.
Defined.

(** ** Validated ranges and the coordinate filters *)

Lemma validate_range_ok_inv label bound range :
  validate_range label bound range = Ok tt ->
  range = VNone
  \/ exists a b,
       range = VList [a; b]
       /\ is_int_or_float a = true /\ is_int_or_float b = true
       /\ out_of_domain bound a = false /\ out_of_domain bound b = false
       /\ num_gt a b = false.
Proof.
  unfold validate_range, invalid, out_of_domain.
  destruct range as [| | | | |[|a [|b [|c l]]]| | |]; try discriminate; [auto |].
  destruct (is_int_or_float a) eqn:Ta; [| discriminate].
  destruct (is_int_or_float b) eqn:Tb; [| discriminate]. simpl.
  destruct (num_lt a (VInt (- bound)) || num_gt a (VInt bound)
            || num_lt b (VInt (- bound)) || num_gt b (VInt bound)) eqn:E;
    [discriminate |].
  destruct (num_gt a b) eqn:G; [discriminate |]. intros _. right.
  apply orb_false_iff in E as [E E4]. apply orb_false_iff in E as [E E3].
  apply orb_false_iff in E as [E1 E2].
  exists a, b. rewrite E1, E2, E3, E4. repeat split; assumption || reflexivity.
Qed.

Lemma filter_coordinate_pair coord a b gdf :
  filter_coordinate coord (VList [a; b]) gdf
  = Ok (List.filter
          (fun r => num_ge (VFloat (coord r)) a && num_le (VFloat (coord r)) b)
          gdf).
Proof.
  unfold filter_coordinate. induction gdf as [|r gdf IH]; [reflexivity |].
  cbn [filter_result List.filter]. rewrite IH.
  unfold in_range, py_index. cbn [lookup list_lookup rbind].
  destruct (num_ge (VFloat (coord r)) a && num_le (VFloat (coord r)) b);
    reflexivity.
Qed.

Lemma filter_none {A} (l : list A) : List.filter (fun _ => false) l = [].
Proof. induction l as [|x l IH]; [reflexivity | exact IH]. Qed.

Lemma num_ge_nan x : num_ge x nan = false.
Proof.
  unfold num_ge, float_ge, nan. simpl.
  destruct (num_of x) as [[]|]; reflexivity.
Qed.

Lemma num_le_nan x : num_le x nan = false.
Proof.
  unfold num_le, float_le, nan. simpl.
  destruct (num_of x) as [[]|]; reflexivity.
Qed.

(** X7. Lines 72-90 with 185-188. The ranges of an accepted request are [None]
    or a pair of numbers [[a, b]] that has passed the tests of the
    validation: neither bound is below or above the limits of the domain
    and [a] is not greater than [b] (tests that a NaN bound passes). The
    coordinate filters of [retrieve_data] never raise on them: a range
    [None] keeps every row, a pair keeps the rows whose coordinate lies
    between [a] and [b], bounds included, and a pair with a NaN bound keeps
    no row. *)
Theorem validated_ranges_filter (h : Host) (kwargs : gmap string pyval) (s : State)
    (v : validated_args) (s' : State) :
  argument_validation h kwargs s = (Ok v, s') ->
  forall range bound coord,
    (range = va_lat_range v /\ bound = 90)
    \/ (range = va_long_range v /\ bound = 180) ->
    (range = VNone /\ forall gdf, filter_coordinate coord range gdf = Ok gdf)
    \/ exists a b,
         range = VList [a; b]
         /\ is_int_or_float a = true /\ is_int_or_float b = true
         /\ out_of_domain bound a = false /\ out_of_domain bound b = false
         /\ num_gt a b = false
         /\ (forall gdf,
               filter_coordinate coord range gdf
               = Ok (List.filter
                       (fun r => num_ge (VFloat (coord r)) a
                                 && num_le (VFloat (coord r)) b)
                       gdf))
         /\ (a = nan \/ b = nan ->
             forall gdf, filter_coordinate coord range gdf = Ok []).
Proof.
  intros H range bound coord Hr.
  destruct (argument_validation_ok_inv _ _ _ _ _ H)
    as (rs & re & t0 & lim & _ & _ & Hlat & Hlong & _ & _ & _ & _ & Elat & Elong & _).
  assert (Hv : validate_range (if bound =? 90 then "lat_range" else "long_range")
                              bound range = Ok tt).
  { destruct Hr as [[-> ->] | [-> ->]]; simpl; congruence. }
  apply validate_range_ok_inv in Hv
    as [-> | (a & b & -> & Ta & Tb & Da & Db & Hab)].
  - left. split; [reflexivity | intros gdf; reflexivity].
  - right. exists a, b. repeat (split; [assumption || reflexivity |]).
    split; [intros gdf; apply filter_coordinate_pair |].
    intros Hnan gdf. rewrite filter_coordinate_pair. f_equal.
    rewrite <- (filter_none gdf). apply List.filter_ext. intros r.
    destruct Hnan as [-> | ->].
    + rewrite num_ge_nan. reflexivity.
    + rewrite num_le_nan. apply andb_false_r.
Qed.

Lemma validated_ranges_filter_witness :
  exists a b,
    VList [VInt 44; VInt 46] = VList [a; b]
    /\ is_int_or_float a = true /\ is_int_or_float b = true
    /\ out_of_domain 90 a = false /\ out_of_domain 90 b = false
    /\ num_gt a b = false
    /\ (forall gdf,
          filter_coordinate geometry_y (VList [VInt 44; VInt 46]) gdf
          = Ok (List.filter
                  (fun r => num_ge (VFloat (geometry_y r)) a
                            && num_le (VFloat (geometry_y r)) b)
                  gdf))
    /\ (a = nan \/ b = nan ->
        forall gdf,
          filter_coordinate geometry_y (VList [VInt 44; VInt 46]) gdf = Ok []).
Proof.
  assert (Hacc :
    argument_validation (Example.world Example.noon 1 Example.service_ok)
      (<[ "lat_range" := VList [VInt 44; VInt 46] ]>
         (<[ "time_range" := Example.window ]> ∅)) (initial_state ∅)
    = (Ok (mk_validated_args (VList [VInt 44; VInt 46]) VNone
             (mk_datetime 2025 7 23 10 0 0 0 None)
             (mk_datetime 2025 7 23 10 55 0 0 None) (VStr "geojson") VNone VNone),
       with_ticks 1 (initial_state ∅)))
    by (vm_compute; reflexivity).
  destruct (validated_ranges_filter _ _ _ _ _ Hacc (VList [VInt 44; VInt 46]) 90
              geometry_y (or_introl (conj eq_refl eq_refl)))
    as [[Hn _] | Hp]; [discriminate Hn | exact Hp].
Defined.

(** ** The output options *)

Lemma checked_times_insert (kwargs : gmap string pyval) k x :
  k <> "time_range" -> k <> "lat_range" -> k <> "long_range" ->
  checked_times (<[ k := x ]> kwargs) = checked_times kwargs.
Proof.
  intros. unfold checked_times.
  rewrite !kwargs_get_insert_ne by assumption. reflexivity.
Qed.

Lemma checked_times_delete (kwargs : gmap string pyval) k :
  k <> "time_range" -> k <> "lat_range" -> k <> "long_range" ->
  checked_times (delete k kwargs) = checked_times kwargs.
Proof.
  intros. unfold checked_times.
  rewrite !kwargs_get_delete_ne by assumption. reflexivity.
Qed.

Lemma validate_out_format_bad fmt :
  fmt <> VNone -> fmt <> VStr "geojson" ->
  exists msg, validate_out_format fmt = Raise (StatusException INVALID msg).
Proof.
  intros H1 H2. unfold validate_out_format, invalid.
  destruct fmt as [| | | |f| | | |]; try congruence; eauto.
  destruct (String.eqb_spec f "geojson"); [subst; congruence | eauto].
Qed.

(** What the stages say of a request that is accepted once its output
    options are left out. *)
Lemma accepted_without_outputs h (kwargs : gmap string pyval) s v0 s1 :
  argument_validation h
    (delete "out" (delete "bucket_destination" (delete "out_format" kwargs))) s
  = (Ok v0, s1) ->
  exists ts te,
    checked_times kwargs = Ok (ts, te)
    /\ checked_age (clock h (ticks s)) te = Ok tt
    /\ s1 = with_ticks (S (ticks s)) s.
Proof.
  rewrite argument_validation_stages.
  rewrite !checked_times_delete by discriminate.
  destruct (checked_times kwargs) as [[ts te]|e]; [| discriminate].
  destruct (checked_age _ te) as [[]|e] eqn:Ea; [| discriminate].
  unfold checked_outputs.
  rewrite kwargs_get_delete.
  rewrite (kwargs_get_delete_ne _ "out" "bucket_destination") by discriminate.
  rewrite kwargs_get_delete.
  rewrite !(kwargs_get_delete_ne _ _ "out_format") by discriminate.
  rewrite kwargs_get_delete.
  intros H. inversion H. exists ts, te. auto.
Qed.

(** X8. Lines 118-124. [out_format] may be left out, [None] or the string
    [geojson], with the same outcome in the three cases; every other value
    (the string [dataframe] included) is rejected with [INVALID] in every
    request that is accepted without its output options; and an accepted
    request always comes out with [out_format] equal to [geojson]. *)
Theorem out_format_validation (h : Host) (kwargs : gmap string pyval) (s : State)
    (fmt : pyval) :
  (fmt = VNone \/ fmt = VStr "geojson" ->
   argument_validation h (<[ "out_format" := fmt ]> kwargs) s
   = argument_validation h (delete "out_format" kwargs) s)
  /\ (fmt <> VNone -> fmt <> VStr "geojson" ->
      forall v0 s1,
        argument_validation h
          (delete "out" (delete "bucket_destination" (delete "out_format" kwargs))) s
        = (Ok v0, s1) ->
        exists msg,
          argument_validation h (<[ "out_format" := fmt ]> kwargs) s
          = (Raise (StatusException INVALID msg), s1))
  /\ (forall v s',
        argument_validation h kwargs s = (Ok v, s') ->
        va_out_format v = VStr "geojson"
        /\ (kwargs_get kwargs "out_format" = VNone
            \/ kwargs_get kwargs "out_format" = VStr "geojson")).
Proof.
  split; [| split].
  - intros Hf. rewrite !argument_validation_stages.
    rewrite checked_times_insert, checked_times_delete by discriminate.
    destruct (checked_times kwargs) as [[ts te]|e]; [| reflexivity].
    destruct (checked_age _ te) as [[]|e]; [| reflexivity].
    unfold checked_outputs.
    rewrite kwargs_get_insert, kwargs_get_delete.
    rewrite !kwargs_get_insert_ne by discriminate.
    rewrite !kwargs_get_delete_ne by discriminate.
    destruct Hf as [-> | ->]; reflexivity.
  - intros H1 H2 v0 s1 Hacc.
    apply accepted_without_outputs in Hacc as (ts & te & Et & Ea & ->).
    destruct (validate_out_format_bad fmt H1 H2) as [msg Hmsg].
    exists msg. rewrite argument_validation_stages.
    rewrite checked_times_insert by discriminate. rewrite Et, Ea.
    unfold checked_outputs. rewrite kwargs_get_insert, Hmsg. reflexivity.
  - intros v s' H.
    destruct (argument_validation_ok_inv _ _ _ _ _ H)
      as (rs & re & t0 & lim & _ & _ & _ & _ & _ & _ & _ & _ & _ & _ & Hfmt & _).
    split; [exact Hfmt |].
    rewrite argument_validation_stages in H.
    destruct (checked_times kwargs) as [[ts te]|e]; [| discriminate].
    destruct (checked_age _ te) as [[]|e]; [| discriminate].
    apply checked_outputs_ok_inv in H as (_ & _ & _ & _ & Hv & _).
    unfold validate_out_format, invalid in Hv.
    destruct (kwargs_get kwargs "out_format") as [| | | |f| | | |];
      try discriminate; [auto |].
    destruct (String.eqb_spec f "geojson"); [subst; auto | discriminate].
Qed.

Lemma out_format_validation_witness :
  exists msg,
    argument_validation (Example.world Example.noon 1 Example.service_ok)
      (<[ "out_format" := VStr "dataframe" ]>
         (<[ "time_range" := Example.window ]> ∅)) (initial_state ∅)
    = (Raise (StatusException INVALID msg), with_ticks 1 (initial_state ∅)).
Proof.
  assert (Hacc :
    argument_validation (Example.world Example.noon 1 Example.service_ok)
      (delete "out" (delete "bucket_destination" (delete "out_format"
         (<[ "time_range" := Example.window ]> ∅)))) (initial_state ∅)
    = (Ok (mk_validated_args VNone VNone (mk_datetime 2025 7 23 10 0 0 0 None)
             (mk_datetime 2025 7 23 10 55 0 0 None) (VStr "geojson") VNone VNone),
       with_ticks 1 (initial_state ∅)))
    by (vm_compute; reflexivity).
  assert (H1 : VStr "dataframe" <> VNone) by discriminate.
  assert (H2 : VStr "dataframe" <> VStr "geojson") by discriminate.
  exact (proj1 (proj2 (out_format_validation
                         (Example.world Example.noon 1 Example.service_ok)
                         (<[ "time_range" := Example.window ]> ∅)
                         (initial_state ∅) (VStr "dataframe")))
               H1 H2 _ _ Hacc).
Defined.

Lemma validate_bucket_destination_bad b :
  b <> VNone ->
  (forall uri, b = VStr uri -> startswith uri "s3://" = false) ->
  exists msg, validate_bucket_destination b = Raise (StatusException INVALID msg).
Proof.
  intros H1 H2. unfold validate_bucket_destination, invalid.
  destruct b as [| | | |uri| | | |]; try congruence; eauto.
  rewrite (H2 uri eq_refl). eauto.
Qed.

Lemma accepted_without_bucket h (kwargs : gmap string pyval) s v0 s1 :
  argument_validation h (delete "out" (delete "bucket_destination" kwargs)) s
  = (Ok v0, s1) ->
  exists ts te fmt,
    checked_times kwargs = Ok (ts, te)
    /\ checked_age (clock h (ticks s)) te = Ok tt
    /\ validate_out_format (kwargs_get kwargs "out_format") = Ok fmt
    /\ s1 = with_ticks (S (ticks s)) s.
Proof.
  rewrite argument_validation_stages.
  rewrite !checked_times_delete by discriminate.
  destruct (checked_times kwargs) as [[ts te]|e]; [| discriminate].
  destruct (checked_age _ te) as [[]|e] eqn:Ea; [| discriminate].
  unfold checked_outputs.
  rewrite kwargs_get_delete.
  rewrite (kwargs_get_delete_ne _ "out" "bucket_destination") by discriminate.
  rewrite kwargs_get_delete.
  rewrite !(kwargs_get_delete_ne _ _ "out_format") by discriminate.
  rewrite bind_lift.
  destruct (validate_out_format _) as [fmt|e] eqn:Ef; [| discriminate].
  intros H. inversion H. exists ts, te, fmt. auto.
Qed.

(** X9. Lines 126-130. An accepted request has no [bucket_destination] or one
    that is a string starting with [s3://], returned unchanged; any other
    value is rejected with [INVALID] in every request that is accepted
    without its bucket and its output path. *)
Theorem bucket_destination_validation (h : Host) (kwargs : gmap string pyval)
    (s : State) :
  (forall v s',
     argument_validation h kwargs s = (Ok v, s') ->
     va_bucket_destination v = kwargs_get kwargs "bucket_destination"
     /\ (va_bucket_destination v = VNone
         \/ exists uri, va_bucket_destination v = VStr uri
                        /\ startswith uri "s3://" = true))
  /\ (forall b v0 s1,
        b <> VNone ->
        (forall uri, b = VStr uri -> startswith uri "s3://" = false) ->
        argument_validation h (delete "out" (delete "bucket_destination" kwargs)) s
        = (Ok v0, s1) ->
        exists msg,
          argument_validation h (<[ "bucket_destination" := b ]> kwargs) s
          = (Raise (StatusException INVALID msg), s1)).
Proof.
  split.
  - intros v s' H.
    destruct (argument_validation_ok_inv _ _ _ _ _ H)
      as (rs & re & t0 & lim & _ & _ & _ & _ & _ & _ & _ & _ & _ & _ & _ & Hb
          & _ & Hvb & _).
    split; [exact Hb |]. apply validate_bucket_destination_ok in Hvb. exact Hvb.
  - intros b v0 s1 H1 H2 Hacc.
    apply accepted_without_bucket in Hacc as (ts & te & fmt & Et & Ea & Ef & ->).
    destruct (validate_bucket_destination_bad b H1 H2) as [msg Hmsg].
    exists msg. rewrite argument_validation_stages.
    rewrite checked_times_insert by discriminate. rewrite Et, Ea.
    unfold checked_outputs. rewrite kwargs_get_insert.
    rewrite !kwargs_get_insert_ne by discriminate.
    rewrite Ef, Hmsg. reflexivity.
Qed.

Lemma bucket_destination_validation_witness :
  exists msg,
    argument_validation (Example.world Example.noon 1 Example.service_ok)
      (<[ "bucket_destination" := VStr "gs://bucket/prefix" ]>
         (<[ "time_range" := Example.window ]> ∅)) (initial_state ∅)
    = (Raise (StatusException INVALID msg), with_ticks 1 (initial_state ∅)).
Proof.
  assert (Hacc :
    argument_validation (Example.world Example.noon 1 Example.service_ok)
      (delete "out" (delete "bucket_destination"
         (<[ "time_range" := Example.window ]> ∅))) (initial_state ∅)
    = (Ok (mk_validated_args VNone VNone (mk_datetime 2025 7 23 10 0 0 0 None)
             (mk_datetime 2025 7 23 10 55 0 0 None) (VStr "geojson") VNone VNone),
       with_ticks 1 (initial_state ∅)))
    by (vm_compute; reflexivity).
  assert (H1 : VStr "gs://bucket/prefix" <> VNone) by discriminate.
  assert (H2 : forall uri, VStr "gs://bucket/prefix" = VStr uri ->
                           startswith uri "s3://" = false)
    by (intros uri E; inversion E; reflexivity).
  exact (proj2 (bucket_destination_validation
                  (Example.world Example.noon 1 Example.service_ok)
                  (<[ "time_range" := Example.window ]> ∅) (initial_state ∅))
               _ _ _ H1 H2 Hacc).
Defined.

Lemma path_ancestors_head p :
  p <> "" -> p ∈ path_ancestors (String.length p) p.
Proof.
  intros Hp. destruct p as [|c p]; [congruence |].
  cbn [String.length path_ancestors]. cbn [String.eqb].
  apply elem_of_cons. left. reflexivity.
Qed.

Lemma validate_out_effects h out s u s' :
  validate_out h out s = (Ok u, s') ->
  ticks s' = ticks s /\ files s' = files s /\ dirs s ⊆ dirs s'
  /\ (out = VNone -> s' = s)
  /\ (forall p, out = VStr p ->
        endswith p ".geojson" = true
        /\ (fst (os_path_split p) = "" \/ fst (os_path_split p) ∈ dirs s')).
Proof.
  unfold validate_out.
  destruct out as [| | | |p| | | |];
    try (unfold lift, invalid; discriminate).
  - intros H. inversion H.
    split; [reflexivity |]. split; [reflexivity |]. split; [reflexivity |].
    split; [reflexivity | discriminate].
  - destruct (endswith p ".geojson") eqn:Ee;
      [| unfold lift, invalid; discriminate].
    unfold bind, os_path_exists.
    destruct (String.eqb_spec (fst (os_path_split p)) "") as [E0|E0]; cbn [negb andb].
    + intros H. inversion H.
      split; [reflexivity |]. split; [reflexivity |]. split; [reflexivity |].
      split; [discriminate |].
      intros p' Hp. inversion Hp; subst. auto.
    + destruct (bool_decide (fst (os_path_split p) ∈ dirs s)) eqn:Ed; cbn [negb].
      * apply bool_decide_eq_true in Ed.
        intros H. inversion H; subst.
        split; [reflexivity |]. split; [reflexivity |]. split; [reflexivity |].
        split; [discriminate |].
        intros p' Hp. inversion Hp; subst. auto.
      * unfold os_makedirs, modify, raise.
        destruct (can_makedirs h _); [| discriminate].
        intros H. inversion H; subst. cbn [ticks files dirs with_dirs].
        split; [reflexivity |]. split; [reflexivity |].
        split; [apply union_subseteq_r |]. split; [discriminate |].
        intros p' Hp. inversion Hp; subst. split; [exact Ee |]. right.
        apply elem_of_union. left. apply elem_of_list_to_set.
        apply path_ancestors_head. exact E0.
Qed.

Lemma validate_out_bad h o s :
  o <> VNone ->
  (forall p, o = VStr p -> endswith p ".geojson" = false) ->
  exists msg, validate_out h o s = (Raise (StatusException INVALID msg), s).
Proof.
  intros H1 H2. unfold validate_out, lift, invalid.
  destruct o as [| | | |p| | | |]; try congruence; eauto.
  rewrite (H2 p eq_refl). eauto.
Qed.

Lemma accepted_without_out h (kwargs : gmap string pyval) s v0 s1 :
  argument_validation h (delete "out" kwargs) s = (Ok v0, s1) ->
  exists ts te fmt,
    checked_times kwargs = Ok (ts, te)
    /\ checked_age (clock h (ticks s)) te = Ok tt
    /\ validate_out_format (kwargs_get kwargs "out_format") = Ok fmt
    /\ validate_bucket_destination (kwargs_get kwargs "bucket_destination") = Ok tt
    /\ s1 = with_ticks (S (ticks s)) s.
Proof.
  rewrite argument_validation_stages.
  rewrite !checked_times_delete by discriminate.
  destruct (checked_times kwargs) as [[ts te]|e]; [| discriminate].
  destruct (checked_age _ te) as [[]|e] eqn:Ea; [| discriminate].
  unfold checked_outputs.
  rewrite kwargs_get_delete.
  rewrite !kwargs_get_delete_ne by discriminate.
  rewrite bind_lift.
  destruct (validate_out_format _) as [fmt|e] eqn:Ef; [| discriminate].
  rewrite bind_lift.
  destruct (validate_bucket_destination _) as [[]|e] eqn:Eb; [| discriminate].
  intros H. inversion H. exists ts, te, fmt. auto.
Qed.

(** X10. Lines 132-139. An accepted request has no [out] or one that is a
    string ending in [.geojson], returned unchanged; the directory part of
    the path, when there is one, exists once the validation has returned
    (it is created when missing), no directory is removed and no file is
    touched. Any other value of [out] is rejected with [INVALID] in every
    request that is accepted without it. *)
Theorem out_validation (h : Host) (kwargs : gmap string pyval) (s : State) :
  (forall v s',
     argument_validation h kwargs s = (Ok v, s') ->
     va_out v = kwargs_get kwargs "out"
     /\ files s' = files s
     /\ dirs s ⊆ dirs s'
     /\ (kwargs_get kwargs "out" = VNone -> dirs s' = dirs s)
     /\ (forall p, kwargs_get kwargs "out" = VStr p ->
           endswith p ".geojson" = true
           /\ (fst (os_path_split p) = ""
               \/ fst (os_path_split p) ∈ dirs s')))
  /\ (forall o v0 s1,
        o <> VNone ->
        (forall p, o = VStr p -> endswith p ".geojson" = false) ->
        argument_validation h (delete "out" kwargs) s = (Ok v0, s1) ->
        exists msg,
          argument_validation h (<[ "out" := o ]> kwargs) s
          = (Raise (StatusException INVALID msg), s1)).
Proof.
  split.
  - intros v s' H. rewrite argument_validation_stages in H.
    destruct (checked_times kwargs) as [[ts te]|e]; [| discriminate].
    destruct (checked_age _ te) as [[]|e]; [| discriminate].
    apply checked_outputs_ok_inv in H as (_ & _ & _ & _ & _ & _ & _ & Ho & Hv).
    apply validate_out_effects in Hv as (_ & Hf & Hd & Hn & Hp).
    split; [exact Ho |]. split; [exact Hf |]. split; [exact Hd |].
    split; [| exact Hp].
    intros E. rewrite (Hn E). reflexivity.
  - intros o v0 s1 H1 H2 Hacc.
    apply accepted_without_out in Hacc as (ts & te & fmt & Et & Ea & Ef & Eb & ->).
    destruct (validate_out_bad h o (with_ticks (S (ticks s)) s) H1 H2)
      as [msg Hmsg].
    exists msg. rewrite argument_validation_stages.
    rewrite checked_times_insert by discriminate. rewrite Et, Ea.
    unfold checked_outputs. rewrite kwargs_get_insert.
    rewrite !kwargs_get_insert_ne by discriminate.
    rewrite Ef, Eb. rewrite !bind_lift.
    unfold bind at 1. rewrite Hmsg. reflexivity.
Qed.

Lemma out_validation_witness :
  endswith "out/run/x.geojson" ".geojson" = true
  /\ (fst (os_path_split "out/run/x.geojson") = ""
      \/ fst (os_path_split "out/run/x.geojson")
         ∈ dirs (with_dirs {[ "out/run"; "out" ]} (with_ticks 1 (initial_state ∅)))).
Proof.
  assert (Hacc :
    argument_validation (Example.world Example.noon 1 Example.service_ok)
      (<[ "out" := VStr "out/run/x.geojson" ]>
         (<[ "time_range" := Example.window ]> ∅)) (initial_state ∅)
    = (Ok (mk_validated_args VNone VNone (mk_datetime 2025 7 23 10 0 0 0 None)
             (mk_datetime 2025 7 23 10 55 0 0 None) (VStr "geojson") VNone
             (VStr "out/run/x.geojson")),
       with_dirs {[ "out/run"; "out" ]} (with_ticks 1 (initial_state ∅))))
    by (vm_compute; reflexivity).
  destruct (proj1 (out_validation
                     (Example.world Example.noon 1 Example.service_ok)
                     (<[ "out" := VStr "out/run/x.geojson" ]>
                        (<[ "time_range" := Example.window ]> ∅))
                     (initial_state ∅)) _ _ Hacc) as (_ & _ & _ & _ & Hp).
  apply (Hp "out/run/x.geojson"). reflexivity.
Defined.

(** ** The effects of a retrieval *)

Lemma hour_delta_of_ok_inv h t s d s' :
  hour_delta_of h t s = (Ok d, s') ->
  tzinfo t = None
  /\ d = whole_hours (to_micros t - to_micros (clock h (ticks s)))
  /\ s' = with_ticks (S (ticks s)) s.
Proof.
  destruct (tzinfo t) as [o|] eqn:Et.
  - unfold hour_delta_of, now_naive, now_utc, bind, lift, ret, dt_sub.
    cbn [tzinfo replace_tzinfo_none]. rewrite Et. discriminate.
  - rewrite hour_delta_of_naive by exact Et. intros H. inversion H. auto.
Qed.

Lemma hour_buckets_ok_inv h ts te s hours s' :
  hour_buckets h ts te s = (Ok hours, s') ->
  tzinfo ts = None /\ tzinfo te = None
  /\ hours
     = py_range
         (whole_hours (to_micros ts - to_micros (clock h (ticks s))))
         (whole_hours (to_micros te - to_micros (clock h (S (ticks s)))) + 1)
  /\ s' = with_ticks (S (S (ticks s))) s.
Proof.
  unfold hour_buckets. intros H.
  apply bind_ok_inv in H as (d1 & s1 & H1 & H).
  apply bind_ok_inv in H as (d2 & s2 & H2 & H).
  apply ret_ok_inv in H as [<- ->].
  apply hour_delta_of_ok_inv in H1 as (N1 & -> & ->).
  apply hour_delta_of_ok_inv in H2 as (N2 & -> & ->).
  repeat split; assumption || reflexivity.
Qed.

Lemma fetch_hours_length h hours s dfs s' :
  fetch_hours h hours s = (Ok dfs, s') -> length dfs = length hours.
Proof.
  revert s dfs s'. induction hours as [|x hours IH]; intros s dfs s' H; simpl in H.
  - apply ret_ok_inv in H as [<- _]. reflexivity.
  - apply bind_ok_inv in H as (df & s1 & _ & H).
    apply bind_ok_inv in H as (dfs' & s2 & Hr & H).
    apply ret_ok_inv in H as [<- _]. simpl. f_equal. eapply IH; eauto.
Qed.

Lemma retrieve_data_ok_steps h lat_range long_range ts te s gdf s' :
  retrieve_data h lat_range long_range ts te s = (Ok gdf, s') ->
  exists hours s1 dfs,
    hour_buckets h ts te s = (Ok hours, s1)
    /\ fetch_hours h hours s1 = (Ok dfs, s')
    /\ dfs <> [].
Proof.
  unfold retrieve_data. intros H.
  apply bind_ok_inv in H as (hours & s1 & Hb & H).
  apply bind_ok_inv in H as (dfs & s2 & Hf & H).
  apply bind_ok_inv in H as (df & s3 & Hc & H).
  apply lift_ok_inv in Hc as [Hc ->].
  repeat (apply bind_ok_inv in H as (? & ? & Hl & H);
          apply lift_ok_inv in Hl as [_ ->]).
  apply ret_ok_inv in H as [_ ->].
  exists hours, s1, dfs. split; [exact Hb |]. split; [exact Hf |].
  intros ->. discriminate Hc.
Qed.

Lemma retrieve_data_ok_state h lat_range long_range ts te s gdf s' :
  retrieve_data h lat_range long_range ts te s = (Ok gdf, s') ->
  s' = with_requests
         (requests s
          ++ py_range
               (whole_hours (to_micros ts - to_micros (clock h (ticks s))))
               (whole_hours (to_micros te - to_micros (clock h (S (ticks s))))
                + 1))
         (with_ticks (S (S (ticks s))) s).
Proof.
  intros H.
  apply retrieve_data_ok_steps in H as (hours' & s1 & dfs & Hb & Hf & _).
  apply hour_buckets_ok_inv in Hb as (_ & _ & -> & ->).
  destruct (fetch_hours_requests _ _ _ _ _ Hf) as (done & -> & _ & Hall).
  rewrite (Hall eq_refl). reflexivity.
Qed.

(** X11. Lines 153-168. A retrieval that returns a frame has read the clock
    exactly twice and has sent exactly one request per hour bucket, in
    increasing order of the bucket, each answered with status 200. The
    buckets run from the offset [int(total_seconds() // 3600)] of the start
    from the first reading through that of the end from the second
    reading; there was at least one, both ends of the window were naive
    datetimes, and nothing else of the state has changed: no directory, no
    file, no upload. *)
Theorem retrieve_data_effects (h : Host) (lat_range long_range : pyval)
    (ts te : datetime) (s : State) (gdf : list sensor_row) (s' : State) :
  retrieve_data h lat_range long_range ts te s = (Ok gdf, s') ->
  let hours :=
    py_range (whole_hours (to_micros ts - to_micros (clock h (ticks s))))
             (whole_hours (to_micros te - to_micros (clock h (S (ticks s)))) + 1) in
  tzinfo ts = None /\ tzinfo te = None
  /\ hours <> []
  /\ s' = with_requests (requests s ++ hours) (with_ticks (S (S (ticks s))) s)
  /\ forall x, In x hours ->
       exists resp, http_get h x = Ok resp /\ status_code resp = 200.
Proof.
  intros H hours.
  apply retrieve_data_ok_steps in H as (hours' & s1 & dfs & Hb & Hf & Hne).
  apply hour_buckets_ok_inv in Hb as (Ns & Ne & Eh & ->). fold hours in Eh.
  subst hours'.
  split; [exact Ns |]. split; [exact Ne |]. split; [| split].
  - intros E. apply fetch_hours_length in Hf. rewrite E in Hf.
    destruct dfs; [congruence | discriminate].
  - destruct (fetch_hours_requests _ _ _ _ _ Hf) as (done & -> & _ & Hall).
    rewrite (Hall eq_refl). reflexivity.
  - intros x Hx. exact (fetch_hours_ok_all_200 _ _ _ _ _ Hf x Hx).
Qed.

Lemma retrieve_data_effects_witness :
  with_requests [-2] (with_ticks 2 (initial_state ∅))
  = with_requests (requests (initial_state ∅) ++ [-2])
                  (with_ticks 2 (initial_state ∅))
  /\ exists resp,
       http_get (Example.world Example.noon 1 Example.service_ok) (-2) = Ok resp
       /\ status_code resp = 200.
Proof.
  assert (Hret :
    retrieve_data (Example.world Example.noon 1 Example.service_ok) VNone VNone
      (mk_datetime 2025 7 23 10 0 0 0 None) (mk_datetime 2025 7 23 10 55 0 0 None)
      (initial_state ∅)
    = (Ok Example.frame, with_requests [-2] (with_ticks 2 (initial_state ∅))))
    by (vm_compute; reflexivity).
  destruct (retrieve_data_effects _ _ _ _ _ _ _ _ Hret) as (_ & _ & _ & H4 & H5).
  split.
  - vm_compute in H4. vm_compute. exact H4.
  - apply (H5 (-2)). vm_compute. left. reflexivity.
Defined.

(** ** Rows that cannot be decoded *)

Lemma extract_level_ok h level : exists v, extract_level h level = Ok v.
Proof.
  unfold extract_level.
  destruct (let? obj := json_loads h level in py_get obj "LIVELLO" nan); eauto.
Qed.

Lemma build_row_timestamp h r :
  match fromisoformat (dataora r) with
  | Ok t => exists level,
      build_row h r
      = Ok (mk_sensor_row (raw_columns r) t level
              (longitudine (raw_columns r), latitudine (raw_columns r)))
  | Raise e => build_row h r = Raise e
  end.
Proof.
  unfold build_row. destruct (fromisoformat (dataora r)) as [t|e]; [| reflexivity].
  cbn [rbind]. destruct (extract_level_ok h (raw_valore r)) as [v ->]. eauto.
Qed.

Lemma map_result_raise {A B} (f : A -> result B) l x e :
  In x l -> f x = Raise e ->
  exists x' e', In x' l /\ f x' = Raise e' /\ map_result f l = Raise e'.
Proof.
  induction l as [|y l IH]; intros Hin Hx; [destruct Hin |].
  cbn [map_result]. destruct (f y) as [b|e0] eqn:Ey.
  - destruct Hin as [-> | Hin]; [congruence |].
    destruct (IH Hin Hx) as (x' & e' & Hin' & Hx' & Hm).
    exists x', e'. split; [right; exact Hin' |]. split; [exact Hx' |].
    cbn [rbind]. rewrite Hm. reflexivity.
  - exists y, e0. split; [left; reflexivity |]. split; [exact Ey | reflexivity].
Qed.

(** X12. Line 173. When the buckets have been fetched and some row of some
    bucket carries a [dataora] that [fromisoformat] rejects, the retrieval
    returns no frame: it raises the [ValueError] of such a row, after all
    the requests have been made. (A payload [valore] that cannot be decoded
    costs only its value, never the retrieval.) *)
Theorem malformed_timestamp_aborts (h : Host) (lat_range long_range : pyval)
    (ts te : datetime) (s s1 s2 : State) (hours : list Z)
    (dfs : list (list raw_row)) (r : raw_row) (e : exn) :
  hour_buckets h ts te s = (Ok hours, s1) ->
  fetch_hours h hours s1 = (Ok dfs, s2) ->
  In r (concat dfs) ->
  fromisoformat (dataora r) = Raise e ->
  exists r' e',
    In r' (concat dfs)
    /\ fromisoformat (dataora r') = Raise e'
    /\ retrieve_data h lat_range long_range ts te s = (Raise e', s2).
Proof.
  intros Hb Hf Hin He.
  assert (Hbr : build_row h r = Raise e).
  { pose proof (build_row_timestamp h r) as Hr. rewrite He in Hr. exact Hr. }
  destruct (map_result_raise (build_row h) _ _ _ Hin Hbr)
    as (r' & e' & Hin' & Hr' & Hm).
  exists r', e'. split; [exact Hin' |]. split.
  - pose proof (build_row_timestamp h r') as Hr.
    destruct (fromisoformat (dataora r')) as [t|e0].
    + destruct Hr as [level Hr]. congruence.
    + congruence.
  - unfold retrieve_data.
    rewrite (bind_ok _ _ _ _ _ Hb), (bind_ok _ _ _ _ _ Hf).
    rewrite bind_lift.
    assert (Hc : pd_concat dfs = Ok (concat dfs)).
    { unfold pd_concat. destruct dfs; [destruct Hin | reflexivity]. }
    rewrite Hc, bind_lift, Hm. reflexivity.
Qed.

Lemma malformed_timestamp_aborts_witness :
  exists r' e',
    In r' (concat [[mk_raw_row (Example.station "83" (121 # 10) (455 # 10))
                               "23/07/2025 10:05" (Example.livello "1.25")]])
    /\ fromisoformat (dataora r') = Raise e'
    /\ retrieve_data
         (Example.world Example.noon 1
            (fun _ => Ok (mk_response 200 "ok"
                            (Ok [mk_raw_row (Example.station "83" (121 # 10) (455 # 10))
                                            "23/07/2025 10:05"
                                            (Example.livello "1.25")]))))
         VNone VNone
         (mk_datetime 2025 7 23 10 0 0 0 None) (mk_datetime 2025 7 23 10 55 0 0 None)
         (initial_state ∅)
       = (Raise e', with_requests [-2] (with_ticks 2 (initial_state ∅))).
Proof.
  apply (malformed_timestamp_aborts
           (Example.world Example.noon 1
              (fun _ => Ok (mk_response 200 "ok"
                              (Ok [mk_raw_row (Example.station "83" (121 # 10) (455 # 10))
                                              "23/07/2025 10:05"
                                              (Example.livello "1.25")]))))
           VNone VNone
           (mk_datetime 2025 7 23 10 0 0 0 None) (mk_datetime 2025 7 23 10 55 0 0 None)
           (initial_state ∅) (with_ticks 2 (initial_state ∅))
           (with_requests [-2] (with_ticks 2 (initial_state ∅))) [-2]
           [[mk_raw_row (Example.station "83" (121 # 10) (455 # 10))
                        "23/07/2025 10:05" (Example.livello "1.25")]]
           (mk_raw_row (Example.station "83" (121 # 10) (455 # 10))
                       "23/07/2025 10:05" (Example.livello "1.25"))
           (ValueError "Invalid isoformat string: 23/07/2025 10:05")).
  - vm_compute. reflexivity.
  - vm_compute. reflexivity.
  - left. reflexivity.
  - vm_compute. reflexivity.
Defined.

(** ** When a retrieval returns *)









(** ** The groups of the encoder *)




Lemma insert_key_in k0 keys k :
  In k (insert_key k0 keys) <-> k = k0 \/ In k keys.
Proof.
  induction keys as [|x keys IH]; simpl.
  - intuition.
  - destruct (String.compare k0 x) eqn:E; simpl.
    + apply String.compare_eq_iff in E. subst. intuition.
    + intuition.
    + rewrite IH. intuition.
Qed.



Lemma group_keys_in gdf k :
  In k (group_keys gdf) <-> exists r, In r gdf /\ codice_stazione (columns r) = k.
Proof.
  unfold group_keys. induction gdf as [|r gdf IH]; simpl.
  - split; [intros [] | intros (r & [] & _)].
  - rewrite insert_key_in, IH. split.
    + intros [-> | (r' & Hin & Hk)]; eauto.
    + intros (r' & [<- | Hin] & Hk); eauto.
Qed.


Lemma group_rows_in gdf k r :
  In r (group_rows gdf k) <-> In r gdf /\ codice_stazione (columns r) = k.
Proof.
  unfold group_rows. rewrite List.filter_In, String.eqb_eq. reflexivity.
Qed.







(** ** One Feature per station *)







(** ** Values that are not numbers *)

Lemma map_result_raise_inv {A B} (f : A -> result B) l e :
  map_result f l = Raise e -> exists x, In x l /\ f x = Raise e.
Proof.
  induction l as [|x l IH]; [discriminate |].
  cbn [map_result]. destruct (f x) as [y|e0] eqn:Ex; cbn [rbind].
  - destruct (map_result f l) as [ys|e1]; cbn [rbind]; [discriminate |].
    intros H. inversion H; subst.
    destruct (IH eq_refl) as (x' & Hin & Hx'). exists x'. auto using in_cons.
  - intros H. inversion H; subst. exists x. split; [left; reflexivity | exact Ex].
Qed.

Lemma np_isnan_raise v e :
  np_isnan v = Raise e -> exists msg, e = TypeError msg.
Proof.
  unfold np_isnan.
  destruct v as [| |z|[| |]| | | | |]; try discriminate;
    try (intros H; inversion H; eexists; reflexivity).
  destruct ((- 2 ^ 63 <=? z) && (z <? 2 ^ 64)); [discriminate |].
  intros H. inversion H. eexists. reflexivity.
Qed.

Lemma np_isnan_no_number v :
  is_sequence v = false ->
  ((exists e, np_isnan v = Raise e) <-> no_number v = true).
Proof.
  unfold np_isnan, no_number, is_sequence.
  destruct v as [| |z|[| |]| | | | |]; try discriminate; intros _;
    try (split; [intros [e H]; discriminate H | discriminate]);
    try (split; [reflexivity | intros _; eexists; reflexivity]).
  destruct ((- 2 ^ 63 <=? z) && (z <? 2 ^ 64)); simpl;
    [split; [intros [e H]; discriminate H | discriminate]
    | split; [reflexivity | intros _; eexists; reflexivity]].
Qed.

(** X15. Line 231. For a frame in which no reading is a list or a tuple (of
    those NumPy makes an array, and the outcome of the test depends on its
    size), the encoder fails exactly when some reading is [None], a
    string, a dictionary or an integer that does not fit 64 bits, values on
    which [np.isnan] is not defined; the exception it raises is then a
    [TypeError], and it raises nothing else. *)
Theorem encoding_fails_on_non_numbers (gdf : list sensor_row) :
  (forall r, In r gdf -> is_sequence (valore r) = false) ->
  ((exists e, data_to_feature_collection gdf = Raise e)
   <-> exists r, In r gdf /\ no_number (valore r) = true)
  /\ forall e, data_to_feature_collection gdf = Raise e ->
       exists msg, e = TypeError msg.
Proof.
  intros Hseq.
  assert (Hinv : forall e, data_to_feature_collection gdf = Raise e ->
            exists r, In r gdf /\ np_isnan (valore r) = Raise e).
  { intros e H. unfold data_to_feature_collection in H.
    destruct (map_result feature_of_group (groupby gdf)) as [fts|e0] eqn:Em;
      [discriminate |].
    cbn [rbind] in H. inversion H; subst e0.
    apply map_result_raise_inv in Em as (group & Hg & Hf).
    unfold groupby in Hg. apply in_map_iff in Hg as (k & <- & Hk).
    unfold feature_of_group in Hf.
    destruct (map_result series_entry (group_rows gdf k)) as [series|e1] eqn:Es;
      [discriminate |].
    cbn [rbind] in Hf. inversion Hf; subst e1.
    apply map_result_raise_inv in Es as (r & Hr & Hs).
    apply group_rows_in in Hr as [Hr _]. exists r. split; [exact Hr |].
    unfold series_entry in Hs.
    destruct (np_isnan (valore r)) as [b|e2]; [discriminate |].
    cbn [rbind] in Hs. inversion Hs. reflexivity. }
  split; [split |].
  - intros [e H]. destruct (Hinv e H) as (r & Hr & Hn). exists r.
    split; [exact Hr |]. apply np_isnan_no_number; [auto | eauto].
  - intros (r & Hr & Hno).
    apply np_isnan_no_number in Hno as [e Hn]; [| auto].
    destruct (data_to_feature_collection gdf) as [fc|e'] eqn:Ed; [| eauto].
    exfalso. unfold data_to_feature_collection in Ed.
    destruct (map_result feature_of_group (groupby gdf)) as [fts|e0] eqn:Em;
      [| discriminate].
    assert (Hk : In (codice_stazione (columns r)) (group_keys gdf))
      by (apply group_keys_in; eauto).
    assert (Hg : In (group_rows gdf (codice_stazione (columns r))) (groupby gdf))
      by (unfold groupby; apply in_map; exact Hk).
    assert (Hs : series_entry r = Raise e)
      by (unfold series_entry; rewrite Hn; reflexivity).
    assert (Hr' : In r (group_rows gdf (codice_stazione (columns r))))
      by (apply group_rows_in; auto).
    destruct (map_result_raise series_entry _ _ _ Hr' Hs)
      as (r1 & e1 & _ & _ & Hm1).
    assert (Hf : feature_of_group (group_rows gdf (codice_stazione (columns r)))
                 = Raise e1)
      by (unfold feature_of_group; rewrite Hm1; reflexivity).
    destruct (map_result_raise feature_of_group _ _ _ Hg Hf)
      as (g2 & e2 & _ & _ & Hm2).
    congruence.
  - intros e H. destruct (Hinv e H) as (r & _ & Hn).
    eapply np_isnan_raise; eauto.
Qed.

Lemma encoding_fails_on_non_numbers_witness :
  exists e,
    data_to_feature_collection
      [Example.reading_83 Example.at_10_05 (VFloat (FFin (125 # 100)));
       Example.reading_83 Example.at_10_10 VNone]
    = Raise e.
Proof.
  assert (Hseq : forall r,
            In r [Example.reading_83 Example.at_10_05 (VFloat (FFin (125 # 100)));
                  Example.reading_83 Example.at_10_10 VNone] ->
            is_sequence (valore r) = false).
  { intros r [<- | [<- | []]]; reflexivity. }
  apply (proj2 (proj1 (encoding_fails_on_non_numbers _ Hseq))).
  exists (Example.reading_83 Example.at_10_10 VNone).
  split; [right; left; reflexivity | reflexivity].
Defined.

(** ** The state after the steps of a run *)

Lemma validate_out_state h out s u s' :
  validate_out h out s = (Ok u, s') ->
  exists d, s' = with_dirs d s /\ dirs s ⊆ d.
Proof.
  unfold validate_out.
  destruct out as [| | | |p| | | |];
    try (unfold lift, invalid; discriminate).
  - intros H. inversion H; subst. exists (dirs s'). split; [| reflexivity].
    destruct s'; reflexivity.
  - destruct (endswith p ".geojson"); [| unfold lift, invalid; discriminate].
    unfold bind, os_path_exists.
    destruct (negb _ && negb _).
    + unfold os_makedirs, modify, raise.
      destruct (can_makedirs h _); [| discriminate].
      intros H. inversion H; subst. eexists. split; [reflexivity |].
      apply union_subseteq_r.
    + intros H. inversion H; subst. exists (dirs s'). split; [| reflexivity].
      destruct s'; reflexivity.
Qed.

(** An accepted validation has read the clock once and may have created
    directories; it has changed nothing else. *)
Lemma argument_validation_state h (kwargs : gmap string pyval) s v s' :
  argument_validation h kwargs s = (Ok v, s') ->
  exists d, s' = with_dirs d (with_ticks (S (ticks s)) s) /\ dirs s ⊆ d.
Proof.
  rewrite argument_validation_stages.
  destruct (checked_times kwargs) as [[ts te]|e]; [| discriminate].
  destruct (checked_age _ te) as [[]|e]; [| discriminate].
  intros H. apply checked_outputs_ok_inv in H as (_ & _ & _ & _ & _ & _ & _ & _ & H).
  apply validate_out_state in H as (d & -> & Hd). exists d. auto.
Qed.

Lemma upload_files_single_state h b fp s uris s' :
  upload_files h b [fp] s = (Ok uris, s') ->
  s' = with_uploads (uploads s ++ [(fp, bucket_uri b fp)]) s.
Proof.
  simpl. intros H. inv_monad.
  match goal with
  | Hu : s3_upload_file _ _ _ _ = _ |- _ =>
      unfold s3_upload_file in Hu; inversion Hu; subst; clear Hu
  end.
  reflexivity.
Qed.

Lemma upload_files_single_fails h b fp s :
  s3_upload h fp (bucket_uri b fp) = false ->
  upload_files h b [fp] s
  = (Raise (StatusException ERROR ("Failed to upload data to bucket " ++ b)),
     with_uploads (uploads s ++ [(fp, bucket_uri b fp)]) s).
Proof.
  intros Hup. cbn [upload_files]. unfold bind at 1, s3_upload_file at 1.
  fold (bucket_uri b fp). rewrite Hup. reflexivity.
Qed.

(** The state in which the body of a successful run ends. *)
Lemma run_body_ok_state h lat_range long_range time_range out_format bucket out
    s o s0 :
  run_body h lat_range long_range time_range out_format bucket out s = (Ok o, s0) ->
  exists v s1 gdf s2 fc,
    argument_validation h
      (the_kwargs lat_range long_range time_range out_format bucket out) s
    = (Ok v, s1)
    /\ retrieve_data h (va_lat_range v) (va_long_range v) (va_time_start v)
                     (va_time_end v) s1 = (Ok gdf, s2)
    /\ data_to_feature_collection gdf = Ok fc
    /\ va_bucket_destination v = bucket /\ va_out v = out
    /\ (forall b, bucket = VStr b ->
          s3_upload h (collection_path h out (va_time_start v) (va_time_end v))
            (bucket_uri b (collection_path h out (va_time_start v) (va_time_end v)))
          = true)
    /\ s0 = with_uploads
              (uploads s2
               ++ uploaded bucket
                    (collection_path h out (va_time_start v) (va_time_end v)))
              (with_files
                 (<[ collection_path h out (va_time_start v) (va_time_end v) := fc ]>
                    (files s2)) s2)
    /\ o = run_result bucket out gdf
             (collection_path h out (va_time_start v) (va_time_end v)).
Proof.
  unfold run_body. intros H.
  apply bind_ok_inv in H as (v & s1 & Hv & H).
  apply bind_ok_inv in H as (gdf & s2 & Hg & H).
  destruct (argument_validation_ok_inv _ _ _ _ _ Hv)
    as (rs & re & t0 & lim & _ & _ & _ & _ & _ & _ & _ & _ & _ & _ & Hfmt & Eb
        & Eo & _).
  destruct (the_kwargs_get lat_range long_range time_range out_format bucket out)
    as (_ & _ & _ & _ & Kb & Ko).
  rewrite Kb in Eb. rewrite Ko in Eo.
  destruct (argument_validation_shapes _ _ _ _ _ Hv) as (_ & _ & Hb & Ho).
  exists v, s1, gdf, s2.
  rewrite Hfmt in H. cbn match in H.
  rewrite Eb, Eo in *.
  unfold run_result, collection_path, summary, uploaded.
  destruct Hb as [Hb | (b & Hb)]; destruct Ho as [Ho | (p & Ho)];
    rewrite Hb, Ho in *; simpl in H; inv_monad;
    repeat match goal with
    | Hw : write_json _ _ _ _ = (Ok _, _) |- _ =>
        apply write_json_ok_inv in Hw as [? ?]; subst
    | Hu : upload_files _ _ [_] _ = (Ok _, _) |- _ =>
        pose proof (upload_files_single_state _ _ _ _ _ _ Hu);
        apply upload_files_single in Hu as (? & ? & ? & ? & ?); subst
    end;
    eexists; (split; [exact Hv |]); (split; [exact Hg |]);
    (split; [eassumption |]); (split; [reflexivity |]); (split; [reflexivity |]);
    (split; [intros b' Hb'; inversion Hb'; subst; assumption || discriminate |]).
  all: split; [| reflexivity].
  all: try rewrite app_nil_r.
  all: try match goal with |- ?x = with_uploads (uploads ?y) ?y =>
         destruct y; reflexivity end.
  all: try reflexivity.
Qed.

(** ** What a successful run writes and uploads *)

Lemma cleaned_lookup_outside h s p :
  startswith p (_tmp_data_folder h ++ "/") = false ->
  files (cleaned h s) !! p = files s !! p.
Proof.
  intros Hp. unfold cleaned. cbn [files with_files].
  destruct (files s !! p) as [fc|] eqn:E.
  - apply map_lookup_filter_Some. split; [exact E |].
    cbn [fst]. rewrite Hp. reflexivity.
  - apply map_lookup_filter_None. left. exact E.
Qed.

(** X16. Lines 298-317 and 342-344. A run that returns has read the clock three
    times and has changed nothing of the requests but the ones of its
    retrieval. The frame it retrieved is encoded, and when [out] is given
    and does not lie below the temporary folder, the file at [out] holds
    that collection when the run returns. With a bucket, exactly one
    object is uploaded, the file of the collection under the name
    [bucket/basename], and the upload has succeeded; without a bucket
    nothing is uploaded. *)
Theorem run_writes_and_uploads (h : Host)
    (lat_range long_range time_range out_format bucket out : pyval)
    (s : State) (o : run_output) (s' : State) :
  run h lat_range long_range time_range out_format bucket out s = (Ok o, s') ->
  exists v s1 gdf s2 fc,
    argument_validation h
      (the_kwargs lat_range long_range time_range out_format bucket out) s
    = (Ok v, s1)
    /\ retrieve_data h lat_range long_range (va_time_start v) (va_time_end v) s1
       = (Ok gdf, s2)
    /\ data_to_feature_collection gdf = Ok fc
    /\ ticks s' = (3 + ticks s)%nat
    /\ uploads s'
       = (uploads s
          ++ uploaded bucket
               (collection_path h out (va_time_start v) (va_time_end v)))%list
    /\ (forall b, bucket = VStr b ->
          s3_upload h (collection_path h out (va_time_start v) (va_time_end v))
            (bucket_uri b (collection_path h out (va_time_start v) (va_time_end v)))
          = true)
    /\ (forall p, out = VStr p ->
          startswith p (_tmp_data_folder h ++ "/") = false ->
          files s' !! p = Some fc).
Proof.
  intros H. rewrite run_unfold in H.
  destruct (run_body _ _ _ _ _ _ _ s) as [[o0|e] s0] eqn:Hbody; [| discriminate].
  injection H as -> <-.
  apply run_body_ok_state in Hbody
    as (v & s1 & gdf & s2 & fc & Hv & Hg & Hfc & Eb & Eo & Hup & -> & _).
  destruct (argument_validation_ok_inv _ _ _ _ _ Hv)
    as (rs & re & t0 & lim & _ & _ & _ & _ & _ & _ & _ & _ & Elat & Elong & _).
  destruct (the_kwargs_get lat_range long_range time_range out_format bucket out)
    as (Klat & Klong & _).
  rewrite Klat in Elat. rewrite Klong in Elong. rewrite Elat, Elong in Hg.
  destruct (argument_validation_state _ _ _ _ _ Hv) as (d & -> & _).
  pose proof (retrieve_data_ok_state _ _ _ _ _ _ _ _ Hg) as Es2.
  exists v, (with_dirs d (with_ticks (S (ticks s)) s)), gdf, s2, fc.
  split; [exact Hv |]. split; [exact Hg |]. split; [exact Hfc |].
  split; [rewrite Es2; reflexivity |].
  split; [rewrite Es2; reflexivity |].
  split; [exact Hup |].
  intros p -> Hp. rewrite cleaned_lookup_outside by exact Hp.
  cbn [files with_uploads with_files collection_path].
  apply lookup_insert_eq.
Qed.

Lemma run_writes_and_uploads_witness :
  exists v s1 gdf s2 fc,
    argument_validation (Example.world Example.noon 1 Example.service_ok)
      (the_kwargs VNone VNone Example.window VNone (VStr "s3://b/p")
                  (VStr "out/x.geojson")) (initial_state ∅)
    = (Ok v, s1)
    /\ retrieve_data (Example.world Example.noon 1 Example.service_ok) VNone VNone
         (va_time_start v) (va_time_end v) s1
       = (Ok gdf, s2)
    /\ data_to_feature_collection gdf = Ok fc.
Proof.
  assert (Hrun :
    run (Example.world Example.noon 1 Example.service_ok)
        VNone VNone Example.window VNone (VStr "s3://b/p") (VStr "out/x.geojson")
        (initial_state ∅)
    = (Ok (OutSummary [("status", VStr "OK"); ("uri", VStr "s3://b/p/x.geojson");
                       ("filepath", VStr "out/x.geojson")]),
       with_uploads [("out/x.geojson", "s3://b/p/x.geojson")]
         (Example.after_run [-3; -2] {[ "out" ]} []
            {[ "out/x.geojson" :=
                 mk_feature_collection
                   match data_to_feature_collection Example.frame with
                   | Ok fc0 => features fc0
                   | Raise _ => []
                   end build_metadata build_crs ]})))
    by (vm_compute; reflexivity).
  destruct (run_writes_and_uploads _ _ _ _ _ _ _ _ _ _ Hrun)
    as (v & s1 & gdf & s2 & fc & H1 & H2 & H3 & _).
  exists v, s1, gdf, s2, fc. auto.
Defined.

(** ** A failed upload *)

(** X17. Lines 308-317 with 339-344. When the frame has been retrieved, encoded
    and written, and the object store refuses the upload, [run] raises
    [StatusException ERROR] with the message that the upload to the bucket
    failed, after the one attempt; nothing is rolled back: a file written
    at [out] outside the temporary folder is still there. *)
Theorem upload_failure (h : Host)
    (lat_range long_range time_range out_format out : pyval) (b : string)
    (s s1 s2 : State) (v : validated_args) (gdf : list sensor_row)
    (fc : feature_collection) :
  argument_validation h
    (the_kwargs lat_range long_range time_range out_format (VStr b) out) s
  = (Ok v, s1) ->
  retrieve_data h lat_range long_range (va_time_start v) (va_time_end v) s1
  = (Ok gdf, s2) ->
  data_to_feature_collection gdf = Ok fc ->
  can_write h (collection_path h out (va_time_start v) (va_time_end v)) = true ->
  s3_upload h (collection_path h out (va_time_start v) (va_time_end v))
    (bucket_uri b (collection_path h out (va_time_start v) (va_time_end v)))
  = false ->
  exists s',
    run h lat_range long_range time_range out_format (VStr b) out s
    = (Raise (StatusException ERROR
                ("An error occurred while running the ARPAV Retriever: "
                 ++ "Failed to upload data to bucket " ++ b)), s')
    /\ uploads s'
       = (uploads s
          ++ [(collection_path h out (va_time_start v) (va_time_end v),
               bucket_uri b
                 (collection_path h out (va_time_start v) (va_time_end v)))])%list
    /\ (forall p, out = VStr p ->
          startswith p (_tmp_data_folder h ++ "/") = false ->
          files s' !! p = Some fc).
Proof.
  intros Hv Hg Hfc Hw Hup.
  destruct (argument_validation_ok_inv _ _ _ _ _ Hv)
    as (rs & re & t0 & lim & _ & _ & _ & _ & _ & _ & _ & _ & Elat & Elong & Hfmt
        & Eb & Eo & _).
  destruct (the_kwargs_get lat_range long_range time_range out_format (VStr b) out)
    as (Klat & Klong & _ & _ & Kb & Ko).
  rewrite Klat in Elat. rewrite Klong in Elong. rewrite Kb in Eb. rewrite Ko in Eo.
  destruct (argument_validation_shapes _ _ _ _ _ Hv) as (_ & _ & _ & Ho).
  rewrite Eo in Ho.
  destruct (argument_validation_state _ _ _ _ _ Hv) as (d & Es1 & _).
  pose proof (retrieve_data_ok_state _ _ _ _ _ _ _ _ Hg) as Es2.
  assert (Hbody :
    run_body h lat_range long_range time_range out_format (VStr b) out s
    = (Raise (StatusException ERROR ("Failed to upload data to bucket " ++ b)),
       with_uploads
         (uploads s2
          ++ [(collection_path h out (va_time_start v) (va_time_end v),
               bucket_uri b
                 (collection_path h out (va_time_start v) (va_time_end v)))])
         (with_files
            (<[ collection_path h out (va_time_start v) (va_time_end v) := fc ]>
               (files s2)) s2))).
  { unfold run_body. rewrite (bind_ok _ _ _ _ _ Hv). cbv zeta.
    rewrite Elat, Elong, Hfmt, Eb, Eo.
    rewrite (bind_ok _ _ _ _ _ Hg). cbn match.
    match goal with
    | |- bind ?m _ _ = _ =>
        assert (Hinner :
          m s2
          = (Ok (Some [collection_path h out (va_time_start v) (va_time_end v)]),
             with_files
               (<[ collection_path h out (va_time_start v) (va_time_end v) := fc ]>
                  (files s2)) s2))
    end.
    { rewrite bind_lift, Hfc.
      destruct Ho as [-> | (p & ->)]; cbn [collection_path] in *;
        rewrite bind_ret; unfold bind, write_json; rewrite Hw; reflexivity. }
    rewrite (bind_ok _ _ _ _ _ Hinner). cbv beta.
    rewrite (bind_raise _ _ _ _ _ (upload_files_single_fails _ _ _ _ Hup)).
    reflexivity. }
  rewrite run_unfold, Hbody. eexists. split; [reflexivity |]. split.
  - cbn [uploads cleaned with_files with_dirs with_uploads]. rewrite Es2, Es1.
    reflexivity.
  - intros p -> Hp. rewrite cleaned_lookup_outside by exact Hp.
    cbn [files with_uploads with_files collection_path].
    apply lookup_insert_eq.
Qed.

Lemma upload_failure_witness :
  exists s',
    run (store_down (Example.world Example.noon 1 Example.service_ok))
        VNone VNone Example.window VNone (VStr "s3://b/p") (VStr "out/x.geojson")
        (initial_state ∅)
    = (Raise (StatusException ERROR
                ("An error occurred while running the ARPAV Retriever: "
                 ++ "Failed to upload data to bucket " ++ "s3://b/p")), s')
    /\ uploads s' = [("out/x.geojson", "s3://b/p/x.geojson")].
Proof.
  assert (Hacc :
    argument_validation
      (store_down (Example.world Example.noon 1 Example.service_ok))
      (the_kwargs VNone VNone Example.window VNone (VStr "s3://b/p")
                  (VStr "out/x.geojson")) (initial_state ∅)
    = (Ok (mk_validated_args VNone VNone (mk_datetime 2025 7 23 10 0 0 0 None)
             (mk_datetime 2025 7 23 10 55 0 0 None) (VStr "geojson")
             (VStr "s3://b/p") (VStr "out/x.geojson")),
       with_dirs {[ "out" ]} (with_ticks 1 (initial_state ∅))))
    by (vm_compute; reflexivity).
  assert (Hret :
    retrieve_data
      (store_down (Example.world Example.noon 1 Example.service_ok))
      VNone VNone (mk_datetime 2025 7 23 10 0 0 0 None)
      (mk_datetime 2025 7 23 10 55 0 0 None)
      (with_dirs {[ "out" ]} (with_ticks 1 (initial_state ∅)))
    = (Ok Example.frame,
       with_requests [-3; -2]
         (with_dirs {[ "out" ]} (with_ticks 3 (initial_state ∅)))))
    by (vm_compute; reflexivity).
  assert (Henc : exists fc, data_to_feature_collection Example.frame = Ok fc)
    by (eexists; vm_compute; reflexivity).
  destruct Henc as [fc Henc].
  destruct (upload_failure _ _ _ _ _ _ _ _ _ _ _ _ _ Hacc Hret Henc eq_refl eq_refl)
    as (s' & H1 & H2 & _).
  exists s'. split; [exact H1 | exact H2].
Defined.

(** ** The processor *)

(** The state in which the processor's validation ends: the debug flag is
    set by a request with the right token whose [debug] is [True], the two
    attributes are assigned when the variable is a registered one, and the
    rest of the state is left as it was. *)
Lemma processor_validation_state h (data : gmap string pyval) s :
  exists s',
    ARPAVRetrieverProcessor.argument_validation h data s
    = (Raise (processor_rejection h data), s')
    /\ ticks s' = ticks s /\ requests s' = requests s /\ uploads s' = uploads s
    /\ dirs s' = dirs s /\ files s' = files s
    /\ log_debug s'
       = (log_debug s
          || (negb (is_none (kwargs_get data "token")
                    || ARPAVRetrieverProcessor.differs_from
                         (kwargs_get data "token")
                         (ARPAVRetrieverProcessor.expected_token h))
              && match data !! "debug" with
                 | Some (VBool true) => true
                 | _ => false
                 end))
    /\ (is_none (kwargs_get data "token")
        || ARPAVRetrieverProcessor.differs_from
             (kwargs_get data "token")
             (ARPAVRetrieverProcessor.expected_token h) = true ->
        s' = s)
    /\ (self_tmp_data_folder s' = self_tmp_data_folder s
        \/ exists c, self_tmp_data_folder s' = VClass c).
Proof.
  unfold ARPAVRetrieverProcessor.argument_validation, processor_rejection.
  unfold bind, raise_if, raise, ret, lift, modify.
  destruct (is_none (kwargs_get data "token")
            || ARPAVRetrieverProcessor.differs_from (kwargs_get data "token")
                 (ARPAVRetrieverProcessor.expected_token h)).
  { exists s. cbn [negb andb]. rewrite orb_false_r. auto 12. }
  cbn [negb andb].
  destruct (data !! "debug") as [[|dbg| | | | | | |]|]; cbn [default];
    try solve [exists s; rewrite orb_false_r;
               repeat split; try reflexivity; try discriminate; auto].
  all: destruct (kwargs_get data "variable") as [| | | |v|l|l|d|c] eqn:Ev;
    try destruct dbg; cbn [is_none];
    try solve [eexists; split; [reflexivity |];
               cbn [ticks requests uploads dirs files log_debug
                    self_tmp_data_folder with_log_debug with_self_variable
                    with_self_tmp_data_folder];
               rewrite ?orb_true_r, ?orb_false_r;
               repeat split; try reflexivity; try discriminate; auto].
  all: unfold ARPAVRetrieverProcessor.registered,
         ARPAVRetrieverProcessor.registered_class; cbn [ARPAVRetrieverProcessor.hashable].
  all: unfold ARPAVRetrieverProcessor._ARPAV_RETRIEVERS.
  all: repeat match goal with
              | |- context [String.eqb ?a ?b] => destruct (String.eqb a b)
              | |- context [forallb ?f ?l] => destruct (forallb f l)
              end; cbn [negb os_path_exists]; unfold raise.
  all: eexists; (split; [reflexivity |]);
       cbn [ticks requests uploads dirs files log_debug
            self_tmp_data_folder with_log_debug with_self_variable
            with_self_tmp_data_folder];
       rewrite ?orb_true_r, ?orb_false_r;
       repeat split; try reflexivity; try discriminate; eauto.
Qed.

Lemma processor_rejection_kinds h (data : gmap string pyval) :
  (exists msg, processor_rejection h data = StatusException DENIED msg)
  \/ (exists msg, processor_rejection h data = StatusException INVALID msg)
  \/ (exists cls msg, processor_rejection h data = PyError cls msg).
Proof.
  unfold processor_rejection.
  destruct (is_none (kwargs_get data "token") || _); [left; eauto |].
  right.
  destruct (default (VBool false) (data !! "debug")); try (left; eauto; fail).
  destruct (is_none (kwargs_get data "variable")); [left; eauto |].
  unfold ARPAVRetrieverProcessor.registered.
  destruct (ARPAVRetrieverProcessor.hashable (kwargs_get data "variable"));
    [| right; unfold TypeError; eauto].
  destruct (kwargs_get data "variable") as [| | | |v| | | |]; try (left; eauto; fail).
  destruct (ARPAVRetrieverProcessor._ARPAV_RETRIEVERS v);
    [right; unfold not_a_path, TypeError; eauto | left; eauto].
Qed.

Lemma garbage_folders_frame folder s u s' :
  garbage_folders folder s = (Ok u, s') ->
  ticks s' = ticks s /\ requests s' = requests s /\ uploads s' = uploads s.
Proof.
  unfold garbage_folders, modify, ret.
  destruct folder; intros H; inversion H; auto.
Qed.

(** X18. Processor lines 174-199. A request with a missing or wrong token is
    rejected with [DENIED] and leaves the state exactly as it was. Debug
    logging is switched on only by a request with the right token whose
    [debug] is [True]. Whatever the request, the validation of the
    processor ends in an exception and touches neither the clock, the
    sensor service, the object store nor the file system. *)
Theorem processor_validation_effects (h : Host) (data : gmap string pyval)
    (s : State) :
  exists e s',
    ARPAVRetrieverProcessor.argument_validation h data s = (Raise e, s')
    /\ (kwargs_get data "token" <> VStr (ARPAVRetrieverProcessor.expected_token h) ->
        e = StatusException DENIED "ACCESS DENIED: wrong token" /\ s' = s)
    /\ (log_debug s' = true ->
        log_debug s = true
        \/ (kwargs_get data "token" = VStr (ARPAVRetrieverProcessor.expected_token h)
            /\ data !! "debug" = Some (VBool true)))
    /\ ticks s' = ticks s /\ requests s' = requests s /\ uploads s' = uploads s
    /\ dirs s' = dirs s /\ files s' = files s.
Proof.
  destruct (processor_validation_state h data s)
    as (s' & Hav & Ht & Hr & Hu & Hd & Hf & Hlog & Hsame & _).
  exists (processor_rejection h data), s'.
  split; [exact Hav |].
  assert (Htok :
    kwargs_get data "token" <> VStr (ARPAVRetrieverProcessor.expected_token h) ->
    is_none (kwargs_get data "token")
    || ARPAVRetrieverProcessor.differs_from (kwargs_get data "token")
         (ARPAVRetrieverProcessor.expected_token h) = true).
  { intros Hne. apply orb_true_iff. right.
    destruct (ARPAVRetrieverProcessor.differs_from _ _) eqn:Ed; [reflexivity |].
    unfold ARPAVRetrieverProcessor.differs_from in Ed.
    destruct (kwargs_get data "token") as [| | | |t| | | |]; try discriminate.
    apply negb_false_iff, String.eqb_eq in Ed. congruence. }
  split; [| split; [| auto 10]].
  - intros Hne. split; [| exact (Hsame (Htok Hne))].
    unfold processor_rejection. rewrite (Htok Hne). reflexivity.
  - intros Hl. rewrite Hlog in Hl. apply orb_true_iff in Hl as [Hl | Hl]; [auto |].
    right. apply andb_true_iff in Hl as [Hok Hdbg]. split.
    + destruct (kwargs_get data "token" ) as [| | | |t| | | |] eqn:Et;
        try discriminate Hok.
      cbn [is_none orb] in Hok. unfold ARPAVRetrieverProcessor.differs_from in Hok.
      apply negb_true_iff, negb_false_iff, String.eqb_eq in Hok. congruence.
    + destruct (data !! "debug") as [[|[|]| | | | | | |]|]; try discriminate.
      reflexivity.
Qed.

Lemma processor_validation_effects_witness :
  exists e s',
    ARPAVRetrieverProcessor.argument_validation
      (Example.world Example.noon 1 Example.service_ok)
      (<[ "token" := VStr "guess" ]> (<[ "debug" := VBool true ]> ∅))
      (initial_state ∅)
    = (Raise e, s')
    /\ e = StatusException DENIED "ACCESS DENIED: wrong token"
    /\ s' = initial_state ∅.
Proof.
  destruct (processor_validation_effects
              (Example.world Example.noon 1 Example.service_ok)
              (<[ "token" := VStr "guess" ]> (<[ "debug" := VBool true ]> ∅))
              (initial_state ∅)) as (e & s' & Hav & Hden & _).
  exists e, s'. split; [exact Hav |]. apply Hden. vm_compute. discriminate.
Defined.

(** X19. Processor lines 202-240. Whatever the request, [execute] returns the
    payload of a rejection, with status [DENIED] or [INVALID], or raises
    [ProcessorExecuteError]: it never returns data, and it never reads the
    clock, sends a request to the sensor service or uploads anything. (A
    request that passes the checks of the processor ends in the
    [TypeError] of [os.path.exists], called on the retriever class.) *)
Theorem execute_never_reaches_the_service (h : Host) (data : gmap string pyval)
    (s : State) :
  exists s',
    ((exists st msg,
        ARPAVRetrieverProcessor.execute h data s
        = (Ok (ARPAVRetrieverProcessor.mimetype,
               ARPAVRetrieverProcessor.StatusPayload st msg), s')
        /\ (st = DENIED \/ st = INVALID))
     \/ exists msg,
          ARPAVRetrieverProcessor.execute h data s
          = (Raise (ProcessorExecuteError msg), s'))
    /\ ticks s' = ticks s /\ requests s' = requests s /\ uploads s' = uploads s.
Proof.
  destruct (processor_validation_state h data s)
    as (s1 & Hav & Ht & Hr & Hu & _).
  assert (Hbody : ARPAVRetrieverProcessor.execute_body h data s
                  = (Raise (processor_rejection h data), s1))
    by (unfold ARPAVRetrieverProcessor.execute_body; apply bind_raise; exact Hav).
  assert (Hex :
    ARPAVRetrieverProcessor.execute h data s
    = match processor_rejection h data with
      | StatusException st msg =>
          match garbage_folders (self_tmp_data_folder s1) s1 with
          | (Ok _, s2) =>
              (Ok (ARPAVRetrieverProcessor.mimetype,
                   ARPAVRetrieverProcessor.StatusPayload st msg), s2)
          | (Raise e, s2) => (Raise e, s2)
          end
      | e => (Raise (ProcessorExecuteError (exn_str e)), s1)
      end).
  { unfold ARPAVRetrieverProcessor.execute.
    unfold bind at 1. unfold try_except. rewrite Hbody.
    destruct (processor_rejection h data); reflexivity. }
  rewrite Hex. clear Hex.
  assert (Hg : exists s2,
            garbage_folders (self_tmp_data_folder s1) s1 = (Ok tt, s2)
            /\ ticks s2 = ticks s /\ requests s2 = requests s
            /\ uploads s2 = uploads s).
  { destruct (garbage_folders (self_tmp_data_folder s1) s1) as [[[]|e] s2] eqn:Eg.
    - apply garbage_folders_frame in Eg as (G1 & G2 & G3).
      exists s2. rewrite G1, G2, G3. auto.
    - unfold garbage_folders, modify, ret in Eg.
      destruct (self_tmp_data_folder s1); discriminate. }
  destruct Hg as (s2 & Hg & G).
  destruct (processor_rejection_kinds h data)
    as [[msg ->] | [[msg ->] | (cls & msg & ->)]].
  - rewrite Hg. exists s2.
    split; [left; eexists _, _; split; [reflexivity | auto] | exact G].
  - rewrite Hg. exists s2.
    split; [left; eexists _, _; split; [reflexivity | auto] | exact G].
  - exists s1. split; [right; eexists; reflexivity | auto].
Qed.

(** ** The buckets of a window that outlasts the two readings of the clock *)

Lemma py_range_two a : py_range a (a + 1 + 1) = [a; a + 1].
Proof.
  unfold py_range. replace (a + 1 + 1 - a) with 2 by lia. simpl.
  repeat f_equal; lia.
Qed.

(** X20. Lines 153-157. When the window is at least as long as the time that
    passes between the two readings of the clock, the buckets run from the
    offset of the start from the first reading through the offset of the
    end from the second reading: there is at least one, they are
    contiguous and increasing. An offset is [int(total_seconds() // 3600)]
    of the difference; it is the floor of the exact count of hours for a
    difference below [2 ^ 34] seconds (some 544 years), beyond which the
    rounding of [total_seconds] to a double can reach the next hour. With
    both readings at the same instant, an empty window gives one bucket
    and, within that distance, a window of exactly one hour (the default)
    gives two. *)
Theorem hour_buckets_of_window (h : Host) (ts te : datetime) (s : State) :
  tzinfo ts = None -> tzinfo te = None ->
  to_micros (clock h (S (ticks s))) - to_micros (clock h (ticks s))
  <= to_micros te - to_micros ts ->
  let d1 := to_micros ts - to_micros (clock h (ticks s)) in
  let d2 := to_micros te - to_micros (clock h (S (ticks s))) in
  let first := whole_hours d1 in
  let last := whole_hours d2 in
  exists hours,
    hour_buckets h ts te s = (Ok hours, with_ticks (S (S (ticks s))) s)
    /\ first <= last
    /\ hours <> []
    /\ length hours = Z.to_nat (last - first + 1)
    /\ (forall i x, hours !! i = Some x -> x = first + Z.of_nat i)
    /\ (Z.abs d1 < 2 ^ 34 * us_per_second -> first = d1 / us_per_hour)
    /\ (Z.abs d2 < 2 ^ 34 * us_per_second -> last = d2 / us_per_hour)
    /\ (to_micros (clock h (S (ticks s))) = to_micros (clock h (ticks s)) ->
        (to_micros te = to_micros ts -> hours = [first])
        /\ (Z.abs d1 < 2 ^ 34 * us_per_second ->
            Z.abs d2 < 2 ^ 34 * us_per_second ->
            to_micros te = to_micros ts + us_per_hour ->
            hours = [first; first + 1])).
Proof.
  intros Hs He Hlen d1 d2 first last.
  rewrite (hour_buckets_naive h ts te s Hs He).
  fold d1. fold d2. fold first. fold last.
  assert (Hfl : first <= last).
  { unfold first, last. apply whole_hours_mono. unfold d1, d2. lia. }
  eexists. split; [reflexivity |]. split; [exact Hfl |].
  split.
  { intros E. apply (f_equal (@length Z)) in E. rewrite py_range_length in E.
    simpl in E. lia. }
  split; [rewrite py_range_length; f_equal; lia |].
  split; [intros i x Hx; apply py_range_lookup_inv in Hx; tauto |].
  split; [intros Hb; apply whole_hours_exact; exact Hb |].
  split; [intros Hb; apply whole_hours_exact; exact Hb |].
  intros Hclock. split.
  - intros Hte. assert (El : last = first).
    { unfold last, first, d1, d2. rewrite Hclock, Hte. reflexivity. }
    rewrite El. apply py_range_single.
  - intros B1 B2 Hte. assert (El : last = first + 1).
    { unfold last, first. rewrite (whole_hours_exact _ B1), (whole_hours_exact _ B2).
      unfold d1, d2. rewrite Hclock, Hte.
      replace (to_micros ts + us_per_hour - to_micros (clock h (ticks s)))
        with (to_micros ts - to_micros (clock h (ticks s)) + 1 * us_per_hour)
        by lia.
      apply Z.div_add. unfold us_per_hour, us_per_second. lia. }
    rewrite El. apply py_range_two.
Qed.

Lemma hour_buckets_of_window_witness :
  exists hours,
    hour_buckets (Example.world Example.noon 1 Example.service_ok)
      (mk_datetime 2025 7 23 10 0 0 0 None) (mk_datetime 2025 7 23 10 55 0 0 None)
      (with_ticks 1 (initial_state ∅))
    = (Ok hours, with_ticks 3 (initial_state ∅))
    /\ hours <> [].
Proof.
  destruct (hour_buckets_of_window
              (Example.world Example.noon 1 Example.service_ok)
              (mk_datetime 2025 7 23 10 0 0 0 None)
              (mk_datetime 2025 7 23 10 55 0 0 None)
              (with_ticks 1 (initial_state ∅)) eq_refl eq_refl)
    as (hours & H1 & _ & H3 & _).
  - vm_compute. discriminate.
  - exists hours. split; [exact H1 | exact H3].
Defined.

(** ** The constructor *)

(** X21. Lines 50-55. When the directory can be created, the constructor
    returns with the temporary folder in place; it removes no directory
    and touches no file, and it changes nothing when the folder is already
    there, so that constructing a second retriever has no effect. *)
Theorem init_creates_tmp_folder (h : Host) (s : State) :
  can_makedirs h (_tmp_data_folder h) = true ->
  exists s',
    init h s = (Ok tt, s')
    /\ _tmp_data_folder h ∈ dirs s'
    /\ dirs s ⊆ dirs s'
    /\ files s' = files s
    /\ (_tmp_data_folder h ∈ dirs s -> s' = s)
    /\ init h s' = (Ok tt, s').
Proof.
  intros Hmk. unfold init, bind, os_path_exists.
  destruct (bool_decide (_tmp_data_folder h ∈ dirs s)) eqn:E.
  - apply bool_decide_eq_true in E. exists s. unfold ret.
    rewrite (bool_decide_eq_true_2 _ E). auto 10.
  - apply bool_decide_eq_false in E.
    unfold os_makedirs. rewrite Hmk. unfold modify.
    eexists. split; [reflexivity |]. cbn [dirs files with_dirs].
    assert (Hin : _tmp_data_folder h
                  ∈ (list_to_set
                       (path_ancestors (String.length (_tmp_data_folder h))
                          (_tmp_data_folder h)) ∪ dirs s : gset string)).
    { apply elem_of_union. left. apply elem_of_list_to_set.
      apply path_ancestors_head. apply tmp_data_folder_shape. }
    split; [exact Hin |]. split; [apply union_subseteq_r |].
    split; [reflexivity |]. split; [intros Hc; contradiction |].
    rewrite (bool_decide_eq_true_2 _ Hin). reflexivity.
Qed.

Lemma init_creates_tmp_folder_witness :
  exists s',
    init (Example.world Example.noon 1 Example.service_ok) (initial_state ∅)
    = (Ok tt, s')
    /\ _tmp_data_folder (Example.world Example.noon 1 Example.service_ok) ∈ dirs s'.
Proof.
  destruct (init_creates_tmp_folder
              (Example.world Example.noon 1 Example.service_ok)
              (initial_state ∅) eq_refl) as (s' & H1 & H2 & _).
  exists s'. split; [exact H1 | exact H2].
Defined.

(** ** When a run returns *)

Lemma upload_files_single_ok h b fp s :
  s3_upload h fp (bucket_uri b fp) = true ->
  upload_files h b [fp] s
  = (Ok [bucket_uri b fp], with_uploads (uploads s ++ [(fp, bucket_uri b fp)]) s).
Proof.
  intros Hup. cbn [upload_files]. unfold bind at 1, s3_upload_file at 1.
  fold (bucket_uri b fp). rewrite Hup. reflexivity.
Qed.

Lemma with_uploads_same s f :
  with_uploads (uploads s ++ []) (with_files f s) = with_files f s.
Proof. rewrite app_nil_r. destruct s; reflexivity. Qed.

(** The steps of the body of [run] up to the written file. *)
Lemma run_body_written h lat_range long_range time_range out_format bucket out
    s v s1 gdf s2 fc :
  argument_validation h
    (the_kwargs lat_range long_range time_range out_format bucket out) s
  = (Ok v, s1) ->
  retrieve_data h lat_range long_range (va_time_start v) (va_time_end v) s1
  = (Ok gdf, s2) ->
  data_to_feature_collection gdf = Ok fc ->
  va_lat_range v = lat_range /\ va_long_range v = long_range
  /\ va_out_format v = VStr "geojson"
  /\ va_bucket_destination v = bucket /\ va_out v = out
  /\ (bucket = VNone \/ exists b, bucket = VStr b)
  /\ (out = VNone \/ exists p, out = VStr p)
  /\ forall k : option (list string) -> M run_output,
       bind
         (match VStr "geojson" with
          | VStr "geojson" =>
              bind (lift (data_to_feature_collection gdf)) (fun feature_collection =>
              let feature_collection_fn :=
                filesystem_normpath
                  (name ++ "__" ++ isoformat (va_time_start v) ++ "__"
                   ++ isoformat (va_time_end v) ++ ".geojson") in
              bind
                (match out with
                 | VNone =>
                     ret (os_path_join (_tmp_data_folder h) feature_collection_fn)
                 | VStr fp => ret fp
                 | _ => raise (TypeError "expected str, bytes or os.PathLike object")
                 end) (fun feature_collection_fp =>
              bind (write_json h feature_collection_fp feature_collection)
                   (fun _ => ret (Some [feature_collection_fp]))))
          | _ => ret None
          end) k s2
       = bind (write_json h (collection_path h out (va_time_start v) (va_time_end v))
                 fc)
              (fun _ =>
                 k (Some [collection_path h out (va_time_start v) (va_time_end v)]))
              s2.
Proof.
  intros Hv Hg Hfc.
  destruct (argument_validation_ok_inv _ _ _ _ _ Hv)
    as (rs & re & t0 & lim & _ & _ & _ & _ & _ & _ & _ & _ & Elat & Elong & Hfmt
        & Eb & Eo & _).
  destruct (the_kwargs_get lat_range long_range time_range out_format bucket out)
    as (Klat & Klong & _ & _ & Kb & Ko).
  rewrite Klat in Elat. rewrite Klong in Elong. rewrite Kb in Eb. rewrite Ko in Eo.
  destruct (argument_validation_shapes _ _ _ _ _ Hv) as (_ & _ & Hb & Ho).
  rewrite Eb in Hb. rewrite Eo in Ho.
  repeat (split; [assumption |]).
  intros k0. cbn match. rewrite Hfc.
  destruct Ho as [-> | (p & ->)]; cbn [collection_path];
    unfold bind, lift, ret, write_json, modify, raise;
    (destruct (can_write h _); [reflexivity |]);
    destruct (can_open h _); reflexivity.
Qed.

(** X22. Lines 270-337. When the request is accepted, the retrieval returns a
    frame, the frame can be encoded, the file of the collection can be
    written and, with a bucket, the object store takes the upload, [run]
    returns: the frame itself when neither [out] nor a bucket is given,
    the summary otherwise. Its uploads are the ones the bucket asks for,
    and the temporary folder is gone with the files below it. *)
Theorem run_returns (h : Host)
    (lat_range long_range time_range out_format bucket out : pyval)
    (s s1 s2 : State) (v : validated_args) (gdf : list sensor_row)
    (fc : feature_collection) :
  argument_validation h
    (the_kwargs lat_range long_range time_range out_format bucket out) s
  = (Ok v, s1) ->
  retrieve_data h lat_range long_range (va_time_start v) (va_time_end v) s1
  = (Ok gdf, s2) ->
  data_to_feature_collection gdf = Ok fc ->
  can_write h (collection_path h out (va_time_start v) (va_time_end v)) = true ->
  (forall b, bucket = VStr b ->
     s3_upload h (collection_path h out (va_time_start v) (va_time_end v))
       (bucket_uri b (collection_path h out (va_time_start v) (va_time_end v)))
     = true) ->
  exists s',
    run h lat_range long_range time_range out_format bucket out s
    = (Ok (run_result bucket out gdf
             (collection_path h out (va_time_start v) (va_time_end v))), s')
    /\ uploads s'
       = (uploads s
          ++ uploaded bucket
               (collection_path h out (va_time_start v) (va_time_end v)))%list
    /\ (_tmp_data_folder h ∉ dirs s')
    /\ (forall p, startswith p (_tmp_data_folder h ++ "/") = true ->
          files s' !! p = None)
    /\ (forall p, startswith p (_tmp_data_folder h ++ "/") = false ->
          files s' !! p
          = (<[ collection_path h out (va_time_start v) (va_time_end v) := fc ]>
               (files s)) !! p).
Proof.
  intros Hv Hg Hfc Hw Hup.
  destruct (run_body_written h lat_range long_range time_range out_format bucket
              out s v s1 gdf s2 fc Hv Hg Hfc)
    as (Elat & Elong & Hfmt & Eb & Eo & Hb & Ho & Hwr).
  destruct (argument_validation_state _ _ _ _ _ Hv) as (d & Es1 & _).
  pose proof (retrieve_data_ok_state _ _ _ _ _ _ _ _ Hg) as Es2.
  assert (Hbody :
    run_body h lat_range long_range time_range out_format bucket out s
    = (Ok (run_result bucket out gdf
             (collection_path h out (va_time_start v) (va_time_end v))),
       with_uploads
         (uploads s2
          ++ uploaded bucket
               (collection_path h out (va_time_start v) (va_time_end v)))
         (with_files
            (<[ collection_path h out (va_time_start v) (va_time_end v) := fc ]>
               (files s2)) s2))).
  { unfold run_body. rewrite (bind_ok _ _ _ _ _ Hv). cbv zeta.
    rewrite Elat, Elong, Hfmt, Eb, Eo.
    rewrite (bind_ok _ _ _ _ _ Hg).
    rewrite Hwr. unfold bind at 1, write_json at 1. rewrite Hw.
    unfold modify. cbv beta iota.
    destruct Hb as [-> | (b & ->)].
    - unfold bind at 1, ret at 1. cbv beta iota.
      cbn [uploaded]. rewrite with_uploads_same.
      destruct Ho as [-> | (p & ->)]; reflexivity.
    - rewrite (bind_ok _ _ _ _ _ (upload_files_single_ok _ _ _ _ (Hup b eq_refl))).
      cbn [uploaded].
      destruct Ho as [-> | (p & ->)]; reflexivity. }
  rewrite run_unfold, Hbody. eexists. split; [reflexivity |].
  split.
  { cbn [uploads cleaned with_files with_dirs with_uploads]. rewrite Es2, Es1.
    reflexivity. }
  split; [apply cleaned_dirs |].
  split; [intros p Hp; apply cleaned_files_below; exact Hp |].
  intros p Hp. rewrite cleaned_lookup_outside by exact Hp.
  cbn [files with_uploads with_files]. rewrite Es2, Es1. reflexivity.
Qed.

Lemma run_returns_witness :
  exists s',
    run (Example.world Example.noon 1 Example.service_ok)
        VNone VNone Example.window VNone (VStr "s3://b/p") (VStr "out/x.geojson")
        (initial_state ∅)
    = (Ok (OutSummary [("status", VStr "OK"); ("uri", VStr "s3://b/p/x.geojson");
                       ("filepath", VStr "out/x.geojson")]), s')
    /\ uploads s' = [("out/x.geojson", "s3://b/p/x.geojson")].
Proof.
  assert (Hacc :
    argument_validation
      (Example.world Example.noon 1 Example.service_ok)
      (the_kwargs VNone VNone Example.window VNone (VStr "s3://b/p")
                  (VStr "out/x.geojson")) (initial_state ∅)
    = (Ok (mk_validated_args VNone VNone (mk_datetime 2025 7 23 10 0 0 0 None)
             (mk_datetime 2025 7 23 10 55 0 0 None) (VStr "geojson")
             (VStr "s3://b/p") (VStr "out/x.geojson")),
       with_dirs {[ "out" ]} (with_ticks 1 (initial_state ∅))))
    by (vm_compute; reflexivity).
  assert (Hret :
    retrieve_data
      (Example.world Example.noon 1 Example.service_ok)
      VNone VNone (mk_datetime 2025 7 23 10 0 0 0 None)
      (mk_datetime 2025 7 23 10 55 0 0 None)
      (with_dirs {[ "out" ]} (with_ticks 1 (initial_state ∅)))
    = (Ok Example.frame,
       with_requests [-3; -2]
         (with_dirs {[ "out" ]} (with_ticks 3 (initial_state ∅)))))
    by (vm_compute; reflexivity).
  assert (Henc : exists fc, data_to_feature_collection Example.frame = Ok fc)
    by (eexists; vm_compute; reflexivity).
  destruct Henc as [fc Henc].
  assert (Hup : forall b, VStr "s3://b/p" = VStr b ->
            s3_upload (Example.world Example.noon 1 Example.service_ok)
              "out/x.geojson" (bucket_uri b "out/x.geojson") = true)
    by (intros b Hb; reflexivity).
  destruct (run_returns _ _ _ _ _ _ _ _ _ _ _ _ _ Hacc Hret Henc eq_refl Hup)
    as (s' & H1 & H2 & _).
  exists s'. split; [exact H1 | exact H2].
Defined.

(** ** A file that cannot be written *)

(** X23. Lines 298-307 with 339-344. When the frame has been retrieved and
    encoded and the write of the file of the collection fails, [run]
    raises [StatusException ERROR] and nothing is uploaded; every other
    file outside the temporary folder is as it was. When the file could
    not be opened it is unchanged as well; when it was opened and
    [json.dump] failed, it has been created or emptied and holds no
    collection any more. *)
Theorem write_failure (h : Host)
    (lat_range long_range time_range out_format bucket out : pyval)
    (s s1 s2 : State) (v : validated_args) (gdf : list sensor_row)
    (fc : feature_collection) :
  argument_validation h
    (the_kwargs lat_range long_range time_range out_format bucket out) s
  = (Ok v, s1) ->
  retrieve_data h lat_range long_range (va_time_start v) (va_time_end v) s1
  = (Ok gdf, s2) ->
  data_to_feature_collection gdf = Ok fc ->
  can_write h (collection_path h out (va_time_start v) (va_time_end v)) = false ->
  exists msg s',
    run h lat_range long_range time_range out_format bucket out s
    = (Raise (StatusException ERROR
                ("An error occurred while running the ARPAV Retriever: " ++ msg)),
       s')
    /\ uploads s' = uploads s
    /\ (forall p, startswith p (_tmp_data_folder h ++ "/") = false ->
          p <> collection_path h out (va_time_start v) (va_time_end v) ->
          files s' !! p = files s !! p)
    /\ (can_open h (collection_path h out (va_time_start v) (va_time_end v))
        = false ->
        forall p, startswith p (_tmp_data_folder h ++ "/") = false ->
          files s' !! p = files s !! p)
    /\ (can_open h (collection_path h out (va_time_start v) (va_time_end v))
        = true ->
        files s' !! collection_path h out (va_time_start v) (va_time_end v)
        = None).
Proof.
  intros Hv Hg Hfc Hw.
  destruct (run_body_written h lat_range long_range time_range out_format bucket
              out s v s1 gdf s2 fc Hv Hg Hfc)
    as (Elat & Elong & Hfmt & Eb & Eo & Hb & Ho & Hwr).
  destruct (argument_validation_state _ _ _ _ _ Hv) as (d & Es1 & _).
  pose proof (retrieve_data_ok_state _ _ _ _ _ _ _ _ Hg) as Es2.
  set (fp := collection_path h out (va_time_start v) (va_time_end v)) in *.
  assert (Hbody :
    run_body h lat_range long_range time_range out_format bucket out s
    = (Raise (OSError ("cannot write " ++ fp)),
       if can_open h fp then with_files (delete fp (files s2)) s2 else s2)).
  { unfold run_body. rewrite (bind_ok _ _ _ _ _ Hv). cbv zeta.
    rewrite Elat, Elong, Hfmt, Eb, Eo.
    rewrite (bind_ok _ _ _ _ _ Hg).
    rewrite Hwr. fold fp. unfold bind at 1, write_json at 1. rewrite Hw.
    destruct (can_open h fp); reflexivity. }
  rewrite run_unfold, Hbody. eexists _, _. split; [reflexivity |].
  assert (F2 : files s2 = files s) by (rewrite Es2, Es1; reflexivity).
  split.
  { destruct (can_open h fp);
      cbn [uploads cleaned with_files with_dirs with_uploads]; rewrite Es2, Es1;
      reflexivity. }
  split.
  { intros p Hp Hne. rewrite cleaned_lookup_outside by exact Hp.
    destruct (can_open h fp); cbn [files with_files].
    - rewrite lookup_delete_ne by congruence. rewrite F2. reflexivity.
    - rewrite F2. reflexivity. }
  split.
  { intros Hopen p Hp. rewrite Hopen. rewrite cleaned_lookup_outside by exact Hp.
    rewrite F2. reflexivity. }
  intros Hopen. rewrite Hopen.
  destruct (startswith fp (_tmp_data_folder h ++ "/")) eqn:Hin.
  - apply cleaned_files_below. exact Hin.
  - rewrite cleaned_lookup_outside by exact Hin. cbn [files with_files].
    apply lookup_delete_eq.
Qed.

Lemma write_failure_witness :
  exists msg s',
    run (write_fails true (Example.world Example.noon 1 Example.service_ok))
        VNone VNone Example.window VNone (VStr "s3://b/p") (VStr "out/x.geojson")
        (initial_state ∅)
    = (Raise (StatusException ERROR
                ("An error occurred while running the ARPAV Retriever: " ++ msg)),
       s')
    /\ uploads s' = []
    /\ files s' !! "out/x.geojson" = None.
Proof.
  assert (Hacc :
    argument_validation
      (write_fails true (Example.world Example.noon 1 Example.service_ok))
      (the_kwargs VNone VNone Example.window VNone (VStr "s3://b/p")
                  (VStr "out/x.geojson")) (initial_state ∅)
    = (Ok (mk_validated_args VNone VNone (mk_datetime 2025 7 23 10 0 0 0 None)
             (mk_datetime 2025 7 23 10 55 0 0 None) (VStr "geojson")
             (VStr "s3://b/p") (VStr "out/x.geojson")),
       with_dirs {[ "out" ]} (with_ticks 1 (initial_state ∅))))
    by (vm_compute; reflexivity).
  assert (Hret :
    retrieve_data
      (write_fails true (Example.world Example.noon 1 Example.service_ok))
      VNone VNone (mk_datetime 2025 7 23 10 0 0 0 None)
      (mk_datetime 2025 7 23 10 55 0 0 None)
      (with_dirs {[ "out" ]} (with_ticks 1 (initial_state ∅)))
    = (Ok Example.frame,
       with_requests [-3; -2]
         (with_dirs {[ "out" ]} (with_ticks 3 (initial_state ∅)))))
    by (vm_compute; reflexivity).
  assert (Henc : exists fc, data_to_feature_collection Example.frame = Ok fc)
    by (eexists; vm_compute; reflexivity).
  destruct Henc as [fc Henc].
  destruct (write_failure _ _ _ _ _ _ _ _ _ _ _ _ _ Hacc Hret Henc eq_refl)
    as (msg & s' & H1 & H2 & _ & _ & H5).
  exists msg, s'. split; [exact H1 |]. split; [exact H2 |].
  apply H5. reflexivity.
Defined.
